(** * dtocean-maintenance: the scheduling core of [LCOE_Calculator]

    A shallow embedding of [dtocean_maintenance/main.py] (class
    [LCOE_Calculator]) and the properties of its event tables, its three
    maintenance tracks and its result roll-up.

    Conventions of the embedding.
    - A [datetime] is a rational number of hours since 1970-01-01 00:00, a
      [timedelta] a rational number of hours; [(a - b).total_seconds() // 3600]
      is the floor of the difference.  Floats are read as exact rationals,
      but for the calendar builder of [__initCalc]: there the interval of a
      policy is the binary64 float of the cell, the product with the days
      of a year is taken in floating point, [timedelta(days=...)] rounds
      it to microseconds as CPython 2.7 does, and a date outside the years
      1 to 9999 is an [OverflowError].
    - A pandas [DataFrame] is a list of labelled rows, in row order.  Access
      through [Series[i]], [.loc] and [.ix] is by label, [.iloc] by position.
      The rows of the event tables have no [nan] cells: the placeholder row
      that [__init__] creates under label 0 is overwritten by the first row
      written to a table, and a table nothing was written to is empty here.
      The output tables keep their placeholder row, as [None].
    - [self.__arrayDict] is an association list; its order is the order of
      [dict.keys()].
    - The result record holds its three event tables by reference: the
      entries name the output tables of the tracks and are read through
      the attributes of [self].
    - A method of the class is a computation in the monad [M]: it threads the
      attributes of [self] and either returns or raises, the attributes
      keeping the writes made before the raise. *)

From Stdlib Require Import ZArith QArith Qround Qabs List String Ascii Bool.
From Stdlib Require Import Lia Lqa Permutation Sorted.
From Stdlib Require Import DecimalString DecimalZ.
From Stdlib Require Import Floats.
Import ListNotations.

Set Implicit Arguments.

(* ===================================================================== *)
(** ** Python values and built-ins *)

Module Py.

(** The exceptions the modelled code can raise. *)
Inductive exn : Type :=
| KeyError (what : string)
| IndexError
| ValueError
| ZeroDivisionError
| OverflowError
| TypeError
| UnboundLocalError (name : string)
| AttributeError (name : string)
| RuntimeError (msg : string)
(** Not a Python exception: pandas would go on with a row of [nan] cells
    (a write through [.loc] to a label that is not in the index).  Rows
    have no [nan] cells here and the run is not followed further. *)
| OutsideModel (what : string).

(** [needle in hay] on two [str]. *)
Fixpoint str_in (needle hay : string) : bool :=
  if String.prefix needle hay then true
  else match hay with
       | EmptyString => false
       | String _ rest => str_in needle rest
       end.

(** [x in l] on a list of [str]. *)
Definition list_in (x : string) (l : list string) : bool :=
  existsb (String.eqb x) l.

(** [s[0:-3]] *)
Definition drop_last3 (s : string) : string :=
  String.substring 0 (String.length s - 3) s.

(** [s[-3:len(s)]] *)
Definition last3 (s : string) : string :=
  String.substring (String.length s - 3) 3 s.

(** [int(s)] on a plain decimal numeral, which is what the numbers of the
    component names are; any other character is a [ValueError] here
    (Python's [int] also reads a sign and surrounding blanks). *)
Definition digit (c : ascii) : option Z :=
  let n := Z.of_nat (nat_of_ascii c) in
  if ((48 <=? n) && (n <=? 57))%Z then Some (n - 48)%Z else None.

Fixpoint int_acc (acc : Z) (s : string) : option Z :=
  match s with
  | EmptyString => Some acc
  | String c rest =>
      match digit c with
      | Some d => int_acc (10 * acc + d)%Z rest
      | None => None
      end
  end.

Definition int (s : string) : option Z :=
  match s with
  | EmptyString => None
  | _ => int_acc 0 s
  end.

(** [s.rsplit(sep)[1]]: the piece between the first and the second
    occurrence of [sep].  ['device'] cannot overlap itself, so splitting
    from the right and from the left cut at the same places. *)
Fixpoint upto (sep s : string) : string :=
  if String.prefix sep s then EmptyString
  else match s with
       | EmptyString => EmptyString
       | String c rest => String c (upto sep rest)
       end.

Fixpoint after (sep s : string) : option string :=
  if String.prefix sep s
  then Some (String.substring (String.length sep)
                              (String.length s - String.length sep) s)
  else match s with
       | EmptyString => None
       | String _ rest => after sep rest
       end.

Definition split_1 (sep s : string) : option string :=
  match after sep s with
  | Some rest => Some (upto sep rest)
  | None => None
  end.

(** [round(x, n)] of Python 2: to [n] decimals, halves away from zero. *)
Definition round (x : Q) (n : nat) : Q :=
  let scale := (10 ^ Z.of_nat n)%Z in
  let y := (Qabs x * inject_Z scale + (1 # 2))%Q in
  let m := Qfloor y in
  if Qle_bool 0 x then m # Z.to_pos scale
  else - (m # Z.to_pos scale).

(** [int(x)] on a float: truncation towards zero. *)
Definition trunc (x : Q) : Z :=
  if Qle_bool 0 x then Qfloor x else Qceiling x.

(** [np.isclose(a, 0)] with the default tolerances:
    [|a - 0| <= atol + rtol * |0|], [atol = 1e-8]. *)
Definition isclose0 (a : Q) : bool :=
  Qle_bool (Qabs a) (1 # 100000000).

(** [divmod(a, b)[0]] and [divmod(a, b)[1]] on non-negative integers. *)
Definition divmod (a b : Z) : Z * Z := (Z.div a b, Z.modulo a b).

(** [divmod(a, b)] on floats: the floor of the quotient and what is left;
    [None] is the [ZeroDivisionError] of a zero divisor. *)
Definition fdivmod (a b : Q) : option (Q * Q) :=
  if Qeq_bool b 0 then None
  else let q := inject_Z (Qfloor (a / b)) in Some (q, a - q * b).

(** The month, 1 to 12, of the day that is [days] days after 1970-01-01,
    in the proleptic Gregorian calendar of [datetime.date]. *)
Definition month_of_day (days : Z) : Z :=
  let z := (days + 719468)%Z in
  let era := (z / 146097)%Z in
  let doe := (z - era * 146097)%Z in
  let yoe := ((doe - doe / 1460 + doe / 36524 - doe / 146096) / 365)%Z in
  let doy := (doe - (365 * yoe + yoe / 4 - yoe / 100))%Z in
  let mp := ((5 * doy + 2) / 153)%Z in
  if (mp <? 10)%Z then (mp + 3)%Z else (mp - 9)%Z.

(** *** Floats and [timedelta(days=x)]

    A Python [float] is a binary64 number.  The functions below follow
    [delta_new], [accum] and [round_to_long] of CPython 2.7's
    [datetimemodule.c] for the one keyword [days], given as a float. *)

(** The integer part that C's [modf] gives, as an integer; [0] where there
    is none ([nan], infinities). *)
Definition float_trunc (x : float) : Z :=
  match Prim2SF x with
  | S754_finite s m e =>
      let i := if (0 <=? e)%Z then Z.shiftl (Zpos m) e
               else Z.shiftr (Zpos m) (- e) in
      if s then (- i)%Z else i
  | _ => 0%Z
  end.

(** [PyLong_FromDouble] on the integer part of [x]. *)
Definition float_long (x : float) : exn + Z :=
  match Prim2SF x with
  | S754_nan => inl ValueError
  | S754_infinity _ => inl OverflowError
  | _ => inr (float_trunc x)
  end.

(** [float(z)], for [|z| < 2^53]. *)
Definition float_of_Z (z : Z) : float :=
  let f := PrimFloat.of_uint63 (Uint63.of_Z (Z.abs z)) in
  if (z <? 0)%Z then PrimFloat.opp f else f.

(** The fractional part that C's [modf] gives: [x] less its integer part,
    which no rounding touches. *)
Definition float_frac (x : float) : float :=
  match Prim2SF x with
  | S754_finite s m e =>
      if (0 <=? e)%Z then PrimFloat.zero
      else PrimFloat.sub x (float_of_Z (float_trunc x))
  | S754_infinity _ => PrimFloat.zero
  | _ => x
  end.


(** [round_to_long]: [floor(x + 0.5)] for [x >= 0.0], [ceil(x - 0.5)]
    otherwise, the sums taken in floating point; either is the sum with
    its fraction dropped. *)
Definition round_to_long (x : float) : Z :=
  if PrimFloat.leb 0%float x then float_trunc (PrimFloat.add x 0.5%float)
  else float_trunc (PrimFloat.sub x 0.5%float).

Definition us_per_day : Z := 86400000000.

(** [accum("days", 0, num, us_per_day, &leftover_us)] on a float [num]:
    the whole microseconds and what is left over of one. *)
Definition accum_days (num : float) : exn + (Z * float) :=
  match float_long num with
  | inl e => inl e
  | inr x =>
      let sum := (x * us_per_day)%Z in
      let fracpart := float_frac num in
      if PrimFloat.eqb fracpart 0%float then inr (sum, 0%float)
      else
        let dnum := PrimFloat.mul (float_of_Z us_per_day) fracpart in
        match float_long dnum with
        | inl e => inl e
        | inr x => inr ((sum + x)%Z, float_frac dnum)
        end
  end.

(** [timedelta(days=days)], in microseconds.  More than 999999999 days
    either way is an [OverflowError]. *)
Definition timedelta_days (days : float) : exn + Z :=
  match accum_days days with
  | inl e => inl e
  | inr (x, leftover_us) =>
      let us := if PrimFloat.eqb leftover_us 0%float then x
                else (x + round_to_long leftover_us)%Z in
      if (Z.abs (us / us_per_day) <=? 999999999)%Z then inr us
      else inl OverflowError
  end.

End Py.

(** Dates and durations. *)
Abbreviation datetime := Q.

(** [d.month] *)
Definition month (d : datetime) : Z := Py.month_of_day (Qfloor (d / 24)).

(** [datetime(d.year, d.month, d.day)]: the start of the day of [d]. *)
Definition to_day (d : datetime) : datetime :=
  inject_Z (Qfloor (d / 24)) * 24.

(** [(a - b).total_seconds() // 3600] *)
Definition hours_between (a b : datetime) : Z := Qfloor (a - b).

(** [d + timedelta(hours=h)] *)
Definition plus_hours (d : datetime) (h : Q) : datetime := d + h.

(** [datetime(d.year, d.month, d.day, d.hour, d.minute)]: seconds dropped. *)
Definition to_minute (d : datetime) : datetime :=
  inject_Z (Qfloor (d * 60)) / 60.

Definition Qltb (a b : Q) : bool := negb (Qle_bool b a).

(** A [timedelta] of [us] microseconds, in hours. *)
Definition hours_of_us (us : Z) : Q := inject_Z us / 3600000000.

(** [datetime.min], 0001-01-01 00:00, and the first instant after
    [datetime.max], 10000-01-01 00:00. *)
Definition datetime_min : datetime := - 17259888.
Definition datetime_end : datetime := 70389528.

Definition datetime_valid (d : datetime) : bool :=
  Qle_bool datetime_min d && Qltb d datetime_end.

(** [d + td] for a [timedelta] of [us] microseconds: a date outside the
    years 1 to 9999 is an [OverflowError]. *)
Definition plus_timedelta (d : datetime) (us : Z) : Py.exn + datetime :=
  let d' := d + hours_of_us us in
  if datetime_valid d' then inr d' else inl Py.OverflowError.

Lemma Qltb_lt a b : Qltb a b = true <-> a < b.
Proof.
  unfold Qltb. rewrite negb_true_iff.
  split; intro H.
  - apply Qnot_le_lt. intro Hle. apply Qle_bool_iff in Hle. congruence.
  - apply not_true_is_false. intro Hle. apply Qle_bool_iff in Hle.
    apply (Qlt_not_le _ _ H Hle).
Qed.

(* ===================================================================== *)
(** ** pandas data frames *)

Module DataFrame.
Section Frame.
Variable R : Type.

(** Rows with their index labels, in row order. *)
Definition t := list (Z * R).

Definition len (df : t) : Z := Z.of_nat (List.length df).

Definition index (df : t) : list Z := map fst df.

(** [df.col[l]], [df.loc[l, col]]: the row labelled [l]. *)
Fixpoint at_label (df : t) (l : Z) : option R :=
  match df with
  | [] => None
  | (l', r) :: rest => if (l' =? l)%Z then Some r else at_label rest l
  end.

(** [df.iloc[i, :]]: the row at position [i]. *)
Definition iloc (df : t) (i : Z) : option R :=
  if (i <? 0)%Z then None
  else option_map snd (nth_error df (Z.to_nat i)).

(** [df.loc[l, col] = v] on the rows labelled [l]. *)
Definition set_loc (df : t) (l : Z) (f : R -> R) : t :=
  map (fun lr => if (fst lr =? l)%Z then (fst lr, f (snd lr)) else lr) df.

Definition has_label (df : t) (l : Z) : bool :=
  existsb (fun lr => (fst lr =? l)%Z) df.

(** [df.ix[l] = row]: overwrites the row labelled [l], or appends a new
    row with that label. *)
Definition ix_set (df : t) (l : Z) (r : R) : t :=
  if has_label df l then set_loc df l (fun _ => r)
  else df ++ [(l, r)].

(** [df.loc[mask]] *)
Definition select (p : R -> bool) (df : t) : t :=
  filter (fun lr => p (snd lr)) df.

(** [df.drop(labels, inplace=True)] *)
Definition drop (labels : list Z) (df : t) : t :=
  filter (fun lr => negb (existsb (Z.eqb (fst lr)) labels)) df.

(** [df.reset_index(drop=True, inplace=True)] *)
Definition reset_index (df : t) : t :=
  combine (map Z.of_nat (seq 0 (List.length df))) (map snd df).

(** [df.sort(columns=col, inplace=True)] on a date column: rows in
    ascending order of the column, labels kept.  Rows with equal keys
    keep their relative order here; pandas does not promise that. *)
Fixpoint insert_by (key : R -> Q) (x : Z * R) (df : t) : t :=
  match df with
  | [] => [x]
  | y :: rest =>
      if Qle_bool (key (snd x)) (key (snd y)) then x :: y :: rest
      else y :: insert_by key x rest
  end.

Definition sort (key : R -> Q) (df : t) : t :=
  fold_right (insert_by key) [] df.

Definition rows (df : t) : list R := map snd df.

(** A frame whose labels are [0 .. n-1] in row order. *)
Definition of_rows (l : list R) : t :=
  combine (map Z.of_nat (seq 0 (List.length l))) l.

End Frame.
End DataFrame.

Arguments DataFrame.at_label {R} df l.
Arguments DataFrame.iloc {R} df i.
Arguments DataFrame.set_loc {R} df l f.
Arguments DataFrame.ix_set {R} df l r.
Arguments DataFrame.select {R} p df.
Arguments DataFrame.drop {R} labels df.
Arguments DataFrame.reset_index {R} df.
Arguments DataFrame.sort {R} key df.
Arguments DataFrame.insert_by {R} key x df.
Arguments DataFrame.rows {R} df.
Arguments DataFrame.of_rows {R} l.
Arguments DataFrame.len {R} df.
Arguments DataFrame.index {R} df.
Arguments DataFrame.has_label {R} df l.

(* ===================================================================== *)
(** ** Data model *)

(** The identity columns shared by the event tables:
    [belongsTo], [ComponentType], [ComponentSubType], [ComponentID],
    [FM_ID], [indexFM], [RA_ID]. *)
Record Ident : Type := mkIdent {
  belongsTo : string;
  ComponentType : string;
  ComponentSubType : string;
  ComponentID : string;
  FM_ID : string;
  indexFM : Z;
  RA_ID : string
}.

(** The conjunction of column comparisons
    [(df['belongsTo'] == belongsTo) & ... & (df['RA_ID'] == RA_ID)]. *)
Definition ident_eqb (a b : Ident) : bool :=
  String.eqb (belongsTo a) (belongsTo b)
  && String.eqb (ComponentType a) (ComponentType b)
  && String.eqb (ComponentSubType a) (ComponentSubType b)
  && String.eqb (ComponentID a) (ComponentID b)
  && Z.eqb (indexFM a) (indexFM b)
  && String.eqb (FM_ID a) (FM_ID b)
  && String.eqb (RA_ID a) (RA_ID b).

(** [CompIDWithIndex = ComponentID + '_' + str(indexFM)], the column label of
    the failure-mode, repair-action and inspection tables, kept as a pair. *)
Definition CompIDWithIndex : Type := (string * Z)%type.

Definition compIDWithIndex (i : Ident) : CompIDWithIndex :=
  (ComponentID i, indexFM i).

(** Rows of [self.__UnCoMa_eventsTable] (corrective track). *)
Module UnCoMa.
Record row : Type := mk {
  ident : Ident;
  failureRate : Q;
  repairActionEvents : datetime;
  failureEvents : datetime
}.
Definition set_repairActionEvents (d : datetime) (r : row) : row :=
  mk (ident r) (failureRate r) d (failureEvents r).
Definition set_failureEvents (d : datetime) (r : row) : row :=
  mk (ident r) (failureRate r) (repairActionEvents r) d.

(** A row of [self.__UnCoMa_outputEventsTable]. *)
Record out : Type := mkOut {
  o_failureRate : Q;
  o_failureDate : datetime;
  o_repairActionRequestDate : datetime;
  o_repairActionDate : datetime;
  o_downtimeDuration : Z;
  o_seeTimeDuration : Q;
  o_waitingTimeDuration : Q;
  o_downtimeDeviceList : list string;
  o_ident : Ident;
  o_costLogistic : Z;
  o_costOM_Labor : Z;
  o_costOM_Spare : Z;
  o_typeOfvessels : string;
  o_nrOfvessels : Z
}.
End UnCoMa.

(** Rows of [self.__CaBaMa_eventsTable] (calendar track). *)
Module CaBaMa.
Record row : Type := mk {
  ident : Ident;
  belongsToSort : string;
  startActionDate : datetime;
  endActionDate : datetime;
  currentStartActionDate : datetime;
  currentEndActionDate : datetime;
  logisticCost : Q;
  omCost : Q
}.
Definition set_currentStartActionDate (d : datetime) (r : row) : row :=
  mk (ident r) (belongsToSort r) (startActionDate r) (endActionDate r)
     d (currentEndActionDate r) (logisticCost r) (omCost r).
Definition set_currentEndActionDate (d : datetime) (r : row) : row :=
  mk (ident r) (belongsToSort r) (startActionDate r) (endActionDate r)
     (currentStartActionDate r) d (logisticCost r) (omCost r).
Definition set_logisticCost (c : Q) (r : row) : row :=
  mk (ident r) (belongsToSort r) (startActionDate r) (endActionDate r)
     (currentStartActionDate r) (currentEndActionDate r) c (omCost r).
Definition set_omCost (c : Q) (r : row) : row :=
  mk (ident r) (belongsToSort r) (startActionDate r) (endActionDate r)
     (currentStartActionDate r) (currentEndActionDate r) (logisticCost r) c.

(** A row of [self.__CaBaMa_outputEventsTable]. *)
Record out : Type := mkOut {
  o_repairActionRequestDate : datetime;
  o_repairActionDate : datetime;
  o_downtimeDuration : Z;
  o_downtimeDeviceList : list string;
  o_ComponentType : string;
  o_ComponentSubType : string;
  o_ComponentID : string;
  o_FM_ID : string;
  o_RA_ID : string;
  o_indexFM : Z;
  o_costLogistic : Z;
  o_costOM_Labor : Z;
  o_costOM_Spare : Z
}.
End CaBaMa.

(** Rows of [self.__CoBaMa_eventsTable] (condition track). *)
Module CoBaMa.
Record row : Type := mk {
  ident : Ident;
  startActionDate : datetime;
  endActionDate : datetime;
  currentStartDate : datetime;
  currentEndDate : datetime;
  currentAlarmDate : datetime;
  threshold : Q;
  failureRate : Q;
  flagCaBaMa : bool
}.
Definition set_currentStartDate (d : datetime) (r : row) : row :=
  mk (ident r) (startActionDate r) (endActionDate r) d (currentEndDate r)
     (currentAlarmDate r) (threshold r) (failureRate r) (flagCaBaMa r).
Definition set_currentEndDate (d : datetime) (r : row) : row :=
  mk (ident r) (startActionDate r) (endActionDate r) (currentStartDate r) d
     (currentAlarmDate r) (threshold r) (failureRate r) (flagCaBaMa r).
Definition set_currentAlarmDate (d : datetime) (r : row) : row :=
  mk (ident r) (startActionDate r) (endActionDate r) (currentStartDate r)
     (currentEndDate r) d (threshold r) (failureRate r) (flagCaBaMa r).

(** A row of [self.__CoBaMa_outputEventsTable]. *)
Record out : Type := mkOut {
  o_failureRate : Q;
  o_currentAlarmDate : datetime;
  o_repairActionRequestDate : datetime;
  o_repairActionDate : datetime;
  o_downtimeDuration : Z;
  o_downtimeDeviceList : list string;
  o_ident : Ident;
  o_costLogistic : Z;
  o_costOM_Labor : Z;
  o_costOM_Spare : Z
}.
End CoBaMa.

(** Rows of [self.__eventsTableNoPoisson]: one per (component, failure
    mode), with the nominal failure rate. *)
Record NoPoissonRow : Type := mkNoPoisson {
  np_ident : Ident;
  np_failureRate : Q
}.

(** The ledger lists an entry of [self.__arrayDict] keeps for one track:
    ['<T>CostLogistic'], ['<T>CostOM'], ['<T>OpEvents'],
    ['<T>OpEventsDuration'], ['<T>OpEventsIndexFM'],
    ['<T>OpEventsCausedBy'], for [<T>] one of [UnCoMa], [CoBaMa], [CaBaMa],
    [CoBaMaDerating]. *)
Record Ledger : Type := mkLedger {
  CostLogistic : list Q;
  CostOM : list Q;
  OpEvents : list datetime;
  OpEventsDuration : list Q;
  OpEventsIndexFM : list Z;
  OpEventsCausedBy : list string
}.

Definition empty_ledger : Ledger := mkLedger [] [] [] [] [] [].

Definition append_cost (logistic om : Q) (l : Ledger) : Ledger :=
  mkLedger (CostLogistic l ++ [logistic]) (CostOM l ++ [om])
           (OpEvents l) (OpEventsDuration l) (OpEventsIndexFM l)
           (OpEventsCausedBy l).

Definition append_costLogistic (c : Q) (l : Ledger) : Ledger :=
  mkLedger (CostLogistic l ++ [c]) (CostOM l)
           (OpEvents l) (OpEventsDuration l) (OpEventsIndexFM l)
           (OpEventsCausedBy l).

Definition append_costOM (c : Q) (l : Ledger) : Ledger :=
  mkLedger (CostLogistic l) (CostOM l ++ [c])
           (OpEvents l) (OpEventsDuration l) (OpEventsIndexFM l)
           (OpEventsCausedBy l).

Definition append_event (date : datetime) (duration : Q) (ifm : Z)
    (cause : string) (l : Ledger) : Ledger :=
  mkLedger (CostLogistic l) (CostOM l)
           (OpEvents l ++ [date]) (OpEventsDuration l ++ [duration])
           (OpEventsIndexFM l ++ [ifm]) (OpEventsCausedBy l ++ [cause]).

(** An entry of [self.__arrayDict].  The key ['CoBaMaCostDeratingLogistic']
    is written once by the condition track, next to
    ['CoBaMaDeratingCostLogistic']; [None] is an entry without that key. *)
Record ArrayComp : Type := mkArrayComp {
  Breakdown : list string;
  AnnualEnergyWP2 : Q;
  UnCoMaL : Ledger;
  CoBaMaL : Ledger;
  CaBaMaL : Ledger;
  CoBaMaDeratingL : Ledger;
  CoBaMaCostDeratingLogistic : option (list Q);
  UnCoMaNoWeatherWindow : bool;
  CoBaMaNoWeatherWindow : bool;
  CoBaMa_initOpEventsList : list (list datetime);
  DownTime : Q;
  AnnualEnergyWP6 : Q
}.

Definition on_UnCoMaL (f : Ledger -> Ledger) (c : ArrayComp) : ArrayComp :=
  mkArrayComp (Breakdown c) (AnnualEnergyWP2 c) (f (UnCoMaL c)) (CoBaMaL c)
    (CaBaMaL c) (CoBaMaDeratingL c) (CoBaMaCostDeratingLogistic c)
    (UnCoMaNoWeatherWindow c) (CoBaMaNoWeatherWindow c)
    (CoBaMa_initOpEventsList c) (DownTime c) (AnnualEnergyWP6 c).
Definition on_CoBaMaL (f : Ledger -> Ledger) (c : ArrayComp) : ArrayComp :=
  mkArrayComp (Breakdown c) (AnnualEnergyWP2 c) (UnCoMaL c) (f (CoBaMaL c))
    (CaBaMaL c) (CoBaMaDeratingL c) (CoBaMaCostDeratingLogistic c)
    (UnCoMaNoWeatherWindow c) (CoBaMaNoWeatherWindow c)
    (CoBaMa_initOpEventsList c) (DownTime c) (AnnualEnergyWP6 c).
Definition on_CaBaMaL (f : Ledger -> Ledger) (c : ArrayComp) : ArrayComp :=
  mkArrayComp (Breakdown c) (AnnualEnergyWP2 c) (UnCoMaL c) (CoBaMaL c)
    (f (CaBaMaL c)) (CoBaMaDeratingL c) (CoBaMaCostDeratingLogistic c)
    (UnCoMaNoWeatherWindow c) (CoBaMaNoWeatherWindow c)
    (CoBaMa_initOpEventsList c) (DownTime c) (AnnualEnergyWP6 c).
Definition on_CoBaMaDeratingL (f : Ledger -> Ledger) (c : ArrayComp)
    : ArrayComp :=
  mkArrayComp (Breakdown c) (AnnualEnergyWP2 c) (UnCoMaL c) (CoBaMaL c)
    (CaBaMaL c) (f (CoBaMaDeratingL c)) (CoBaMaCostDeratingLogistic c)
    (UnCoMaNoWeatherWindow c) (CoBaMaNoWeatherWindow c)
    (CoBaMa_initOpEventsList c) (DownTime c) (AnnualEnergyWP6 c).
Definition set_CoBaMaCostDeratingLogistic (v : option (list Q)) (c : ArrayComp)
    : ArrayComp :=
  mkArrayComp (Breakdown c) (AnnualEnergyWP2 c) (UnCoMaL c) (CoBaMaL c)
    (CaBaMaL c) (CoBaMaDeratingL c) v (UnCoMaNoWeatherWindow c)
    (CoBaMaNoWeatherWindow c) (CoBaMa_initOpEventsList c) (DownTime c)
    (AnnualEnergyWP6 c).
Definition set_UnCoMaNoWeatherWindow (b : bool) (c : ArrayComp) : ArrayComp :=
  mkArrayComp (Breakdown c) (AnnualEnergyWP2 c) (UnCoMaL c) (CoBaMaL c)
    (CaBaMaL c) (CoBaMaDeratingL c) (CoBaMaCostDeratingLogistic c) b
    (CoBaMaNoWeatherWindow c) (CoBaMa_initOpEventsList c) (DownTime c)
    (AnnualEnergyWP6 c).
Definition set_CoBaMaNoWeatherWindow (b : bool) (c : ArrayComp) : ArrayComp :=
  mkArrayComp (Breakdown c) (AnnualEnergyWP2 c) (UnCoMaL c) (CoBaMaL c)
    (CaBaMaL c) (CoBaMaDeratingL c) (CoBaMaCostDeratingLogistic c)
    (UnCoMaNoWeatherWindow c) b (CoBaMa_initOpEventsList c) (DownTime c)
    (AnnualEnergyWP6 c).
Definition set_DownTime (d : Q) (c : ArrayComp) : ArrayComp :=
  mkArrayComp (Breakdown c) (AnnualEnergyWP2 c) (UnCoMaL c) (CoBaMaL c)
    (CaBaMaL c) (CoBaMaDeratingL c) (CoBaMaCostDeratingLogistic c)
    (UnCoMaNoWeatherWindow c) (CoBaMaNoWeatherWindow c)
    (CoBaMa_initOpEventsList c) d (AnnualEnergyWP6 c).
Definition set_AnnualEnergyWP6 (e : Q) (c : ArrayComp) : ArrayComp :=
  mkArrayComp (Breakdown c) (AnnualEnergyWP2 c) (UnCoMaL c) (CoBaMaL c)
    (CaBaMaL c) (CoBaMaDeratingL c) (CoBaMaCostDeratingLogistic c)
    (UnCoMaNoWeatherWindow c) (CoBaMaNoWeatherWindow c)
    (CoBaMa_initOpEventsList c) (DownTime c) e.

(** [self.__arrayDict]: a dictionary, in the order of its [keys()]. *)
Definition ArrayDict : Type := list (string * ArrayComp).

Fixpoint dict_get (d : ArrayDict) (k : string) : option ArrayComp :=
  match d with
  | [] => None
  | (k', c) :: rest => if String.eqb k' k then Some c else dict_get rest k
  end.

(** [d[k][field] = ...] or [d[k][field].append(...)] on an existing key. *)
Fixpoint dict_update (d : ArrayDict) (k : string) (f : ArrayComp -> ArrayComp)
    : ArrayDict :=
  match d with
  | [] => []
  | (k', c) :: rest =>
      if String.eqb k' k then (k', f c) :: rest
      else (k', c) :: dict_update rest k f
  end.

Definition dict_keys (d : ArrayDict) : list string := map fst d.

(* ===================================================================== *)
(** ** The inputs of a run *)

(** A column of [self.__Repair_Action] or of [self.__Inspection]. *)
Record ActionRec : Type := mkActionRec {
  duration_accessibility : Q;
  duration_maintenance : Q;
  duration_inspection : Q;
  weather_limits : list Q;   (* wave_height_max_acc .. current_speed_max_om *)
  number_technicians : Z;
  number_specialists : Z;
  delay_spare : Q;
  delay_crew : Q;
  delay_organisation : Q
}.

(** A column of [self.__Failure_Mode]. *)
Record FailureModeRec : Type := mkFailureModeRec {
  spare_mass : Q;
  spare_length : Q;
  spare_width : Q;
  spare_height : Q;
  cost_spare : Q;
  cost_spare_transit : Q;
  cost_spare_loading : Q
}.

(** A column of [self.__Component]: the policy fields.  [None] is a cell
    that [pd.to_datetime] does not turn into a [datetime] (for the dates)
    or that is [nan] (for the threshold).  The interval is the float of
    the cell, [nan] included. *)
Record ComponentRec : Type := mkComponentRec {
  start_date_calendar_based_maintenance : option datetime;
  end_date_calendar_based_maintenance : option datetime;
  interval_calendar_based_maintenance : float;
  soh_threshold : option Q
}.

(** An entry of [self.__Simu_Param['arrayInfoLogistic']]:
    depth, x coord, y coord, zone, Bathymetry, Soil type. *)
Record SiteInfo : Type := mkSiteInfo {
  depth : Q; x_coord : Q; y_coord : Q; zone : string;
  Bathymetry : Q; Soil_type : string
}.

(** What [__init__] reads from [inputOM] and never writes again. *)
Record Inputs : Type := mkInputs {
  corrective_maintenance : bool;
  condition_based_maintenance : bool;
  calendar_based_maintenance : bool;
  energy_selling_price : Q;
  helideck : string;
  workdays_summer : Q;
  workdays_winter : Q;
  wage_specialist_day : Q;
  wage_specialist_night : Q;
  wage_technician_day : Q;
  wage_technician_night : Q;
  ignoreWeatherWindow : bool;
  integrateSelectPort : bool;
  checkNoSolution : bool;
  startOperationDate : datetime;
  missionTime : Q;
  Nbodies : Z;
  annual_Energy_Production_perD : list Q;
  Component : string -> option ComponentRec;
  Failure_Mode : CompIDWithIndex -> option FailureModeRec;
  Repair_Action : CompIDWithIndex -> option ActionRec;
  Inspection : CompIDWithIndex -> option ActionRec;
  arrayInfoLogistic : string -> option SiteInfo
}.

(** Constants set in [__init__]. *)
Definition dayHours : Q := 24.
Definition yearDays : Q := 36525 # 100.
(** [self.__yearDays] as the float it is, for the product of line 1563. *)
Definition yearDays_float : float := 365.25%float.
Definition delayEventsAfterCaBaMaHour : Z := 6 * 30 * 24.
Definition CaBaMa_nrOfMaxActions : Z := 10.
Definition powerDeratingCoBaMa : Q := 50.
Definition timeExtensionDeratingCoBaMaHour : Q := 3 * 30 * dayHours.
Definition startDayWorkingHour : Q := 6.
Definition PrepTimeCalcUnCoMa : Q := 48.
Definition PrepTimeCalcCaBaMa : Q := 0.
Definition PrepTimeCalcCoBaMa : Q := 0.
Definition failureRateFactorCoBaMa : Q := 0.

Definition operationTimeYear (inp : Inputs) : Q := missionTime inp.
Definition operationTimeDay (inp : Inputs) : Q := missionTime inp * yearDays.
Definition endOperationDate (inp : Inputs) : datetime :=
  startOperationDate inp + operationTimeDay inp * 24.
Definition NrOfDevices (inp : Inputs) : Z := Nbodies inp.

(* ===================================================================== *)
(** ** The logistics collaborator *)

Inductive FindSolution : Type :=
| NoSolutionsFound | NoWeatherWindowFound | SolutionFound.

Definition FindSolution_eqb (a b : FindSolution) : bool :=
  match a, b with
  | NoSolutionsFound, NoSolutionsFound
  | NoWeatherWindowFound, NoWeatherWindowFound
  | SolutionFound, SolutionFound => true
  | _, _ => false
  end.

(** [optimal['depart_dt']] is a date, or (case LpM7) a dictionary with the
    keys ['weather windows depart_dt_replace'] and
    ['weather windows depart_dt_retrieve']. *)
Inductive DepartDt : Type :=
| DepartDate (d : datetime)
| DepartDict (replace retrieve : datetime).

Record Optimal : Type := mkOptimal {
  end_dt : datetime;
  depart_dt : DepartDt;
  total_cost : Q;
  schedule_sea_time : Q;
  vessel_equipment : list (string * Z)
}.

Record OmLogistic : Type := mkOmLogistic {
  findSolution : FindSolution;
  optimal : Optimal
}.

(** One row of [self.__wp6_outputsForLogistic], the request. *)
Record Request : Type := mkRequest {
  rq_ID : string;
  rq_element_type : string;
  rq_element_subtype : string;
  rq_element_ID : string + Z;
  rq_site : SiteInfo;
  rq_t_start : datetime;
  rq_d_acc : Q;
  rq_d_om : Q;
  rq_helideck : string;
  rq_limits : list Q;
  rq_technician : Z;
  rq_spare : FailureModeRec;
  rq_Dist_port : Q;
  rq_Port_Index : Z;
  rq_Prep_time : Q
}.

(** One entry of a [dictEnvAssess]. *)
Record EnvAssess : Type := mkEnvAssess {
  ea_timeStampActions : datetime;
  ea_FM_ID : string;
  ea_RA_ID : string;
  ea_duration : Q;
  ea_typeOfvessels : list string;
  ea_nrOfvessels : list Z
}.

(** A row of [self.__errorTable]; [requirement] holds the deck area, deck
    cargo and deck loading, [spare] the spare part dimensions. *)
Record ErrorRow : Type := mkErrorRow {
  error_ID : string;
  er_element_ID : string;
  er_element_type : string;
  er_element_subtype : string;
  er_FM_ID : string;
  er_RA_ID : string;
  er_requirement : option (Q * Q * Q);
  er_spare : option FailureModeRec
}.

Definition noError : ErrorRow :=
  mkErrorRow "NoError" "" "" "" "" "" None None.

(** The three output event tables of [self].  Each attribute is bound
    once, in [__init__]; the tracks write the tables in place.  An entry of
    the result record that holds one of them holds the table itself, not a
    copy: it is a reference, read through the attributes. *)
Inductive OutputTableRef : Type :=
  | Ref_UnCoMa_outputEventsTable
  | Ref_CoBaMa_outputEventsTable
  | Ref_CaBaMa_outputEventsTable.

(** [self.__outputsOfWP6] *)
Record Outputs : Type := mkOutputs {
  lcoeOfArray : Q;
  annualEnergyOfDevices : list Q;
  annualDownTimeOfDevices : list Q;
  annualEnergyOfArray : Q;
  CapexOfArray : Q;
  annualOpexOfArray : Q;
  error : option (DataFrame.t (option ErrorRow));
  env_assess_UnCoMa : list (Z * EnvAssess);
  env_assess_CaBaMa : list (Z * EnvAssess);
  env_assess_CoBaMa : list (Z * EnvAssess);
  (** [self.__outputsOfWP6['eventTables [-]']]: [None] is a key that is
      not in the dictionary. *)
  eventTables_UnCoMa : option OutputTableRef;
  eventTables_CoBaMa : option OutputTableRef;
  eventTables_CaBaMa : option OutputTableRef
}.

(* ===================================================================== *)
(** ** The attributes of [self] that the methods write *)

Record Calc : Type := mkCalc {
  NrOfTurnOutDevices : Z;
  arrayDict : ArrayDict;
  UnCoMa_eventsTable : DataFrame.t UnCoMa.row;
  CaBaMa_eventsTable : DataFrame.t CaBaMa.row;
  CoBaMa_eventsTable : DataFrame.t CoBaMa.row;
  UnCoMa_outputEventsTable : DataFrame.t (option UnCoMa.out);
  CaBaMa_outputEventsTable : DataFrame.t (option CaBaMa.out);
  CoBaMa_outputEventsTable : DataFrame.t (option CoBaMa.out);
  actIdxOfUnCoMa : Z;
  actIdxOfCaBaMa : Z;
  actIdxOfCoBaMa : Z;
  totalActionDelayHour : Z;
  actActionDelayHour : Z;
  totalSeaTimeHour : Q;
  departOpDate : option datetime;
  endOpDate : option datetime;
  repairActionDate : option datetime;
  om_logistic : option OmLogistic;
  wp6_outputsForLogistic : DataFrame.t (option Request);
  UnCoMa_dictEnvAssess : list (Z * EnvAssess);
  CaBaMa_dictEnvAssess : list (Z * EnvAssess);
  CoBaMa_dictEnvAssess : list (Z * EnvAssess);
  errorFlag : bool;
  errorTable : DataFrame.t (option ErrorRow);
  portDistIndex_inspection : Q * Z;
  portDistIndex_repair : Q * Z;
  outputsOfWP6 : Outputs
}.

Definition set_NrOfTurnOutDevices (v : Z) (s : Calc) : Calc :=
  mkCalc v (arrayDict s) (UnCoMa_eventsTable s) (CaBaMa_eventsTable s)
    (CoBaMa_eventsTable s) (UnCoMa_outputEventsTable s)
    (CaBaMa_outputEventsTable s) (CoBaMa_outputEventsTable s)
    (actIdxOfUnCoMa s) (actIdxOfCaBaMa s) (actIdxOfCoBaMa s)
    (totalActionDelayHour s) (actActionDelayHour s) (totalSeaTimeHour s)
    (departOpDate s) (endOpDate s) (repairActionDate s) (om_logistic s)
    (wp6_outputsForLogistic s) (UnCoMa_dictEnvAssess s)
    (CaBaMa_dictEnvAssess s) (CoBaMa_dictEnvAssess s) (errorFlag s)
    (errorTable s) (portDistIndex_inspection s) (portDistIndex_repair s)
    (outputsOfWP6 s).
Definition set_arrayDict (v : ArrayDict) (s : Calc) : Calc :=
  mkCalc (NrOfTurnOutDevices s) v (UnCoMa_eventsTable s)
    (CaBaMa_eventsTable s) (CoBaMa_eventsTable s)
    (UnCoMa_outputEventsTable s) (CaBaMa_outputEventsTable s)
    (CoBaMa_outputEventsTable s) (actIdxOfUnCoMa s) (actIdxOfCaBaMa s)
    (actIdxOfCoBaMa s) (totalActionDelayHour s) (actActionDelayHour s)
    (totalSeaTimeHour s) (departOpDate s) (endOpDate s) (repairActionDate s)
    (om_logistic s) (wp6_outputsForLogistic s) (UnCoMa_dictEnvAssess s)
    (CaBaMa_dictEnvAssess s) (CoBaMa_dictEnvAssess s) (errorFlag s)
    (errorTable s) (portDistIndex_inspection s) (portDistIndex_repair s)
    (outputsOfWP6 s).
Definition set_UnCoMa_eventsTable (v : DataFrame.t UnCoMa.row) (s : Calc)
    : Calc :=
  mkCalc (NrOfTurnOutDevices s) (arrayDict s) v (CaBaMa_eventsTable s)
    (CoBaMa_eventsTable s) (UnCoMa_outputEventsTable s)
    (CaBaMa_outputEventsTable s) (CoBaMa_outputEventsTable s)
    (actIdxOfUnCoMa s) (actIdxOfCaBaMa s) (actIdxOfCoBaMa s)
    (totalActionDelayHour s) (actActionDelayHour s) (totalSeaTimeHour s)
    (departOpDate s) (endOpDate s) (repairActionDate s) (om_logistic s)
    (wp6_outputsForLogistic s) (UnCoMa_dictEnvAssess s)
    (CaBaMa_dictEnvAssess s) (CoBaMa_dictEnvAssess s) (errorFlag s)
    (errorTable s) (portDistIndex_inspection s) (portDistIndex_repair s)
    (outputsOfWP6 s).
Definition set_CaBaMa_eventsTable (v : DataFrame.t CaBaMa.row) (s : Calc)
    : Calc :=
  mkCalc (NrOfTurnOutDevices s) (arrayDict s) (UnCoMa_eventsTable s) v
    (CoBaMa_eventsTable s) (UnCoMa_outputEventsTable s)
    (CaBaMa_outputEventsTable s) (CoBaMa_outputEventsTable s)
    (actIdxOfUnCoMa s) (actIdxOfCaBaMa s) (actIdxOfCoBaMa s)
    (totalActionDelayHour s) (actActionDelayHour s) (totalSeaTimeHour s)
    (departOpDate s) (endOpDate s) (repairActionDate s) (om_logistic s)
    (wp6_outputsForLogistic s) (UnCoMa_dictEnvAssess s)
    (CaBaMa_dictEnvAssess s) (CoBaMa_dictEnvAssess s) (errorFlag s)
    (errorTable s) (portDistIndex_inspection s) (portDistIndex_repair s)
    (outputsOfWP6 s).
Definition set_CoBaMa_eventsTable (v : DataFrame.t CoBaMa.row) (s : Calc)
    : Calc :=
  mkCalc (NrOfTurnOutDevices s) (arrayDict s) (UnCoMa_eventsTable s)
    (CaBaMa_eventsTable s) v (UnCoMa_outputEventsTable s)
    (CaBaMa_outputEventsTable s) (CoBaMa_outputEventsTable s)
    (actIdxOfUnCoMa s) (actIdxOfCaBaMa s) (actIdxOfCoBaMa s)
    (totalActionDelayHour s) (actActionDelayHour s) (totalSeaTimeHour s)
    (departOpDate s) (endOpDate s) (repairActionDate s) (om_logistic s)
    (wp6_outputsForLogistic s) (UnCoMa_dictEnvAssess s)
    (CaBaMa_dictEnvAssess s) (CoBaMa_dictEnvAssess s) (errorFlag s)
    (errorTable s) (portDistIndex_inspection s) (portDistIndex_repair s)
    (outputsOfWP6 s).
Definition set_UnCoMa_outputEventsTable
    (v : DataFrame.t (option UnCoMa.out)) (s : Calc)
    : Calc :=
  mkCalc (NrOfTurnOutDevices s) (arrayDict s) (UnCoMa_eventsTable s)
    (CaBaMa_eventsTable s) (CoBaMa_eventsTable s) v
    (CaBaMa_outputEventsTable s) (CoBaMa_outputEventsTable s)
    (actIdxOfUnCoMa s) (actIdxOfCaBaMa s) (actIdxOfCoBaMa s)
    (totalActionDelayHour s) (actActionDelayHour s) (totalSeaTimeHour s)
    (departOpDate s) (endOpDate s) (repairActionDate s) (om_logistic s)
    (wp6_outputsForLogistic s) (UnCoMa_dictEnvAssess s)
    (CaBaMa_dictEnvAssess s) (CoBaMa_dictEnvAssess s) (errorFlag s)
    (errorTable s) (portDistIndex_inspection s) (portDistIndex_repair s)
    (outputsOfWP6 s).
Definition set_CaBaMa_outputEventsTable
    (v : DataFrame.t (option CaBaMa.out)) (s : Calc)
    : Calc :=
  mkCalc (NrOfTurnOutDevices s) (arrayDict s) (UnCoMa_eventsTable s)
    (CaBaMa_eventsTable s) (CoBaMa_eventsTable s)
    (UnCoMa_outputEventsTable s) v (CoBaMa_outputEventsTable s)
    (actIdxOfUnCoMa s) (actIdxOfCaBaMa s) (actIdxOfCoBaMa s)
    (totalActionDelayHour s) (actActionDelayHour s) (totalSeaTimeHour s)
    (departOpDate s) (endOpDate s) (repairActionDate s) (om_logistic s)
    (wp6_outputsForLogistic s) (UnCoMa_dictEnvAssess s)
    (CaBaMa_dictEnvAssess s) (CoBaMa_dictEnvAssess s) (errorFlag s)
    (errorTable s) (portDistIndex_inspection s) (portDistIndex_repair s)
    (outputsOfWP6 s).
Definition set_CoBaMa_outputEventsTable
    (v : DataFrame.t (option CoBaMa.out)) (s : Calc)
    : Calc :=
  mkCalc (NrOfTurnOutDevices s) (arrayDict s) (UnCoMa_eventsTable s)
    (CaBaMa_eventsTable s) (CoBaMa_eventsTable s)
    (UnCoMa_outputEventsTable s) (CaBaMa_outputEventsTable s) v
    (actIdxOfUnCoMa s) (actIdxOfCaBaMa s) (actIdxOfCoBaMa s)
    (totalActionDelayHour s) (actActionDelayHour s) (totalSeaTimeHour s)
    (departOpDate s) (endOpDate s) (repairActionDate s) (om_logistic s)
    (wp6_outputsForLogistic s) (UnCoMa_dictEnvAssess s)
    (CaBaMa_dictEnvAssess s) (CoBaMa_dictEnvAssess s) (errorFlag s)
    (errorTable s) (portDistIndex_inspection s) (portDistIndex_repair s)
    (outputsOfWP6 s).
Definition set_actIdxOfUnCoMa (v : Z) (s : Calc) : Calc :=
  mkCalc (NrOfTurnOutDevices s) (arrayDict s) (UnCoMa_eventsTable s)
    (CaBaMa_eventsTable s) (CoBaMa_eventsTable s)
    (UnCoMa_outputEventsTable s) (CaBaMa_outputEventsTable s)
    (CoBaMa_outputEventsTable s) v (actIdxOfCaBaMa s) (actIdxOfCoBaMa s)
    (totalActionDelayHour s) (actActionDelayHour s) (totalSeaTimeHour s)
    (departOpDate s) (endOpDate s) (repairActionDate s) (om_logistic s)
    (wp6_outputsForLogistic s) (UnCoMa_dictEnvAssess s)
    (CaBaMa_dictEnvAssess s) (CoBaMa_dictEnvAssess s) (errorFlag s)
    (errorTable s) (portDistIndex_inspection s) (portDistIndex_repair s)
    (outputsOfWP6 s).
Definition set_actIdxOfCaBaMa (v : Z) (s : Calc) : Calc :=
  mkCalc (NrOfTurnOutDevices s) (arrayDict s) (UnCoMa_eventsTable s)
    (CaBaMa_eventsTable s) (CoBaMa_eventsTable s)
    (UnCoMa_outputEventsTable s) (CaBaMa_outputEventsTable s)
    (CoBaMa_outputEventsTable s) (actIdxOfUnCoMa s) v (actIdxOfCoBaMa s)
    (totalActionDelayHour s) (actActionDelayHour s) (totalSeaTimeHour s)
    (departOpDate s) (endOpDate s) (repairActionDate s) (om_logistic s)
    (wp6_outputsForLogistic s) (UnCoMa_dictEnvAssess s)
    (CaBaMa_dictEnvAssess s) (CoBaMa_dictEnvAssess s) (errorFlag s)
    (errorTable s) (portDistIndex_inspection s) (portDistIndex_repair s)
    (outputsOfWP6 s).
Definition set_actIdxOfCoBaMa (v : Z) (s : Calc) : Calc :=
  mkCalc (NrOfTurnOutDevices s) (arrayDict s) (UnCoMa_eventsTable s)
    (CaBaMa_eventsTable s) (CoBaMa_eventsTable s)
    (UnCoMa_outputEventsTable s) (CaBaMa_outputEventsTable s)
    (CoBaMa_outputEventsTable s) (actIdxOfUnCoMa s) (actIdxOfCaBaMa s) v
    (totalActionDelayHour s) (actActionDelayHour s) (totalSeaTimeHour s)
    (departOpDate s) (endOpDate s) (repairActionDate s) (om_logistic s)
    (wp6_outputsForLogistic s) (UnCoMa_dictEnvAssess s)
    (CaBaMa_dictEnvAssess s) (CoBaMa_dictEnvAssess s) (errorFlag s)
    (errorTable s) (portDistIndex_inspection s) (portDistIndex_repair s)
    (outputsOfWP6 s).
Definition set_totalActionDelayHour (v : Z) (s : Calc) : Calc :=
  mkCalc (NrOfTurnOutDevices s) (arrayDict s) (UnCoMa_eventsTable s)
    (CaBaMa_eventsTable s) (CoBaMa_eventsTable s)
    (UnCoMa_outputEventsTable s) (CaBaMa_outputEventsTable s)
    (CoBaMa_outputEventsTable s) (actIdxOfUnCoMa s) (actIdxOfCaBaMa s)
    (actIdxOfCoBaMa s) v (actActionDelayHour s) (totalSeaTimeHour s)
    (departOpDate s) (endOpDate s) (repairActionDate s) (om_logistic s)
    (wp6_outputsForLogistic s) (UnCoMa_dictEnvAssess s)
    (CaBaMa_dictEnvAssess s) (CoBaMa_dictEnvAssess s) (errorFlag s)
    (errorTable s) (portDistIndex_inspection s) (portDistIndex_repair s)
    (outputsOfWP6 s).
Definition set_actActionDelayHour (v : Z) (s : Calc) : Calc :=
  mkCalc (NrOfTurnOutDevices s) (arrayDict s) (UnCoMa_eventsTable s)
    (CaBaMa_eventsTable s) (CoBaMa_eventsTable s)
    (UnCoMa_outputEventsTable s) (CaBaMa_outputEventsTable s)
    (CoBaMa_outputEventsTable s) (actIdxOfUnCoMa s) (actIdxOfCaBaMa s)
    (actIdxOfCoBaMa s) (totalActionDelayHour s) v (totalSeaTimeHour s)
    (departOpDate s) (endOpDate s) (repairActionDate s) (om_logistic s)
    (wp6_outputsForLogistic s) (UnCoMa_dictEnvAssess s)
    (CaBaMa_dictEnvAssess s) (CoBaMa_dictEnvAssess s) (errorFlag s)
    (errorTable s) (portDistIndex_inspection s) (portDistIndex_repair s)
    (outputsOfWP6 s).
Definition set_totalSeaTimeHour (v : Q) (s : Calc) : Calc :=
  mkCalc (NrOfTurnOutDevices s) (arrayDict s) (UnCoMa_eventsTable s)
    (CaBaMa_eventsTable s) (CoBaMa_eventsTable s)
    (UnCoMa_outputEventsTable s) (CaBaMa_outputEventsTable s)
    (CoBaMa_outputEventsTable s) (actIdxOfUnCoMa s) (actIdxOfCaBaMa s)
    (actIdxOfCoBaMa s) (totalActionDelayHour s) (actActionDelayHour s) v
    (departOpDate s) (endOpDate s) (repairActionDate s) (om_logistic s)
    (wp6_outputsForLogistic s) (UnCoMa_dictEnvAssess s)
    (CaBaMa_dictEnvAssess s) (CoBaMa_dictEnvAssess s) (errorFlag s)
    (errorTable s) (portDistIndex_inspection s) (portDistIndex_repair s)
    (outputsOfWP6 s).
Definition set_departOpDate (v : option datetime) (s : Calc) : Calc :=
  mkCalc (NrOfTurnOutDevices s) (arrayDict s) (UnCoMa_eventsTable s)
    (CaBaMa_eventsTable s) (CoBaMa_eventsTable s)
    (UnCoMa_outputEventsTable s) (CaBaMa_outputEventsTable s)
    (CoBaMa_outputEventsTable s) (actIdxOfUnCoMa s) (actIdxOfCaBaMa s)
    (actIdxOfCoBaMa s) (totalActionDelayHour s) (actActionDelayHour s)
    (totalSeaTimeHour s) v (endOpDate s) (repairActionDate s)
    (om_logistic s) (wp6_outputsForLogistic s) (UnCoMa_dictEnvAssess s)
    (CaBaMa_dictEnvAssess s) (CoBaMa_dictEnvAssess s) (errorFlag s)
    (errorTable s) (portDistIndex_inspection s) (portDistIndex_repair s)
    (outputsOfWP6 s).
Definition set_endOpDate (v : option datetime) (s : Calc) : Calc :=
  mkCalc (NrOfTurnOutDevices s) (arrayDict s) (UnCoMa_eventsTable s)
    (CaBaMa_eventsTable s) (CoBaMa_eventsTable s)
    (UnCoMa_outputEventsTable s) (CaBaMa_outputEventsTable s)
    (CoBaMa_outputEventsTable s) (actIdxOfUnCoMa s) (actIdxOfCaBaMa s)
    (actIdxOfCoBaMa s) (totalActionDelayHour s) (actActionDelayHour s)
    (totalSeaTimeHour s) (departOpDate s) v (repairActionDate s)
    (om_logistic s) (wp6_outputsForLogistic s) (UnCoMa_dictEnvAssess s)
    (CaBaMa_dictEnvAssess s) (CoBaMa_dictEnvAssess s) (errorFlag s)
    (errorTable s) (portDistIndex_inspection s) (portDistIndex_repair s)
    (outputsOfWP6 s).
Definition set_repairActionDate (v : option datetime) (s : Calc) : Calc :=
  mkCalc (NrOfTurnOutDevices s) (arrayDict s) (UnCoMa_eventsTable s)
    (CaBaMa_eventsTable s) (CoBaMa_eventsTable s)
    (UnCoMa_outputEventsTable s) (CaBaMa_outputEventsTable s)
    (CoBaMa_outputEventsTable s) (actIdxOfUnCoMa s) (actIdxOfCaBaMa s)
    (actIdxOfCoBaMa s) (totalActionDelayHour s) (actActionDelayHour s)
    (totalSeaTimeHour s) (departOpDate s) (endOpDate s) v (om_logistic s)
    (wp6_outputsForLogistic s) (UnCoMa_dictEnvAssess s)
    (CaBaMa_dictEnvAssess s) (CoBaMa_dictEnvAssess s) (errorFlag s)
    (errorTable s) (portDistIndex_inspection s) (portDistIndex_repair s)
    (outputsOfWP6 s).
Definition set_om_logistic (v : option OmLogistic) (s : Calc) : Calc :=
  mkCalc (NrOfTurnOutDevices s) (arrayDict s) (UnCoMa_eventsTable s)
    (CaBaMa_eventsTable s) (CoBaMa_eventsTable s)
    (UnCoMa_outputEventsTable s) (CaBaMa_outputEventsTable s)
    (CoBaMa_outputEventsTable s) (actIdxOfUnCoMa s) (actIdxOfCaBaMa s)
    (actIdxOfCoBaMa s) (totalActionDelayHour s) (actActionDelayHour s)
    (totalSeaTimeHour s) (departOpDate s) (endOpDate s) (repairActionDate s)
    v (wp6_outputsForLogistic s) (UnCoMa_dictEnvAssess s)
    (CaBaMa_dictEnvAssess s) (CoBaMa_dictEnvAssess s) (errorFlag s)
    (errorTable s) (portDistIndex_inspection s) (portDistIndex_repair s)
    (outputsOfWP6 s).
Definition set_wp6_outputsForLogistic
    (v : DataFrame.t (option Request)) (s : Calc)
    : Calc :=
  mkCalc (NrOfTurnOutDevices s) (arrayDict s) (UnCoMa_eventsTable s)
    (CaBaMa_eventsTable s) (CoBaMa_eventsTable s)
    (UnCoMa_outputEventsTable s) (CaBaMa_outputEventsTable s)
    (CoBaMa_outputEventsTable s) (actIdxOfUnCoMa s) (actIdxOfCaBaMa s)
    (actIdxOfCoBaMa s) (totalActionDelayHour s) (actActionDelayHour s)
    (totalSeaTimeHour s) (departOpDate s) (endOpDate s) (repairActionDate s)
    (om_logistic s) v (UnCoMa_dictEnvAssess s) (CaBaMa_dictEnvAssess s)
    (CoBaMa_dictEnvAssess s) (errorFlag s) (errorTable s)
    (portDistIndex_inspection s) (portDistIndex_repair s) (outputsOfWP6 s).
Definition set_UnCoMa_dictEnvAssess (v : list (Z * EnvAssess)) (s : Calc)
    : Calc :=
  mkCalc (NrOfTurnOutDevices s) (arrayDict s) (UnCoMa_eventsTable s)
    (CaBaMa_eventsTable s) (CoBaMa_eventsTable s)
    (UnCoMa_outputEventsTable s) (CaBaMa_outputEventsTable s)
    (CoBaMa_outputEventsTable s) (actIdxOfUnCoMa s) (actIdxOfCaBaMa s)
    (actIdxOfCoBaMa s) (totalActionDelayHour s) (actActionDelayHour s)
    (totalSeaTimeHour s) (departOpDate s) (endOpDate s) (repairActionDate s)
    (om_logistic s) (wp6_outputsForLogistic s) v (CaBaMa_dictEnvAssess s)
    (CoBaMa_dictEnvAssess s) (errorFlag s) (errorTable s)
    (portDistIndex_inspection s) (portDistIndex_repair s) (outputsOfWP6 s).
Definition set_CaBaMa_dictEnvAssess (v : list (Z * EnvAssess)) (s : Calc)
    : Calc :=
  mkCalc (NrOfTurnOutDevices s) (arrayDict s) (UnCoMa_eventsTable s)
    (CaBaMa_eventsTable s) (CoBaMa_eventsTable s)
    (UnCoMa_outputEventsTable s) (CaBaMa_outputEventsTable s)
    (CoBaMa_outputEventsTable s) (actIdxOfUnCoMa s) (actIdxOfCaBaMa s)
    (actIdxOfCoBaMa s) (totalActionDelayHour s) (actActionDelayHour s)
    (totalSeaTimeHour s) (departOpDate s) (endOpDate s) (repairActionDate s)
    (om_logistic s) (wp6_outputsForLogistic s) (UnCoMa_dictEnvAssess s) v
    (CoBaMa_dictEnvAssess s) (errorFlag s) (errorTable s)
    (portDistIndex_inspection s) (portDistIndex_repair s) (outputsOfWP6 s).
Definition set_CoBaMa_dictEnvAssess (v : list (Z * EnvAssess)) (s : Calc)
    : Calc :=
  mkCalc (NrOfTurnOutDevices s) (arrayDict s) (UnCoMa_eventsTable s)
    (CaBaMa_eventsTable s) (CoBaMa_eventsTable s)
    (UnCoMa_outputEventsTable s) (CaBaMa_outputEventsTable s)
    (CoBaMa_outputEventsTable s) (actIdxOfUnCoMa s) (actIdxOfCaBaMa s)
    (actIdxOfCoBaMa s) (totalActionDelayHour s) (actActionDelayHour s)
    (totalSeaTimeHour s) (departOpDate s) (endOpDate s) (repairActionDate s)
    (om_logistic s) (wp6_outputsForLogistic s) (UnCoMa_dictEnvAssess s)
    (CaBaMa_dictEnvAssess s) v (errorFlag s) (errorTable s)
    (portDistIndex_inspection s) (portDistIndex_repair s) (outputsOfWP6 s).
Definition set_errorFlag (v : bool) (s : Calc) : Calc :=
  mkCalc (NrOfTurnOutDevices s) (arrayDict s) (UnCoMa_eventsTable s)
    (CaBaMa_eventsTable s) (CoBaMa_eventsTable s)
    (UnCoMa_outputEventsTable s) (CaBaMa_outputEventsTable s)
    (CoBaMa_outputEventsTable s) (actIdxOfUnCoMa s) (actIdxOfCaBaMa s)
    (actIdxOfCoBaMa s) (totalActionDelayHour s) (actActionDelayHour s)
    (totalSeaTimeHour s) (departOpDate s) (endOpDate s) (repairActionDate s)
    (om_logistic s) (wp6_outputsForLogistic s) (UnCoMa_dictEnvAssess s)
    (CaBaMa_dictEnvAssess s) (CoBaMa_dictEnvAssess s) v (errorTable s)
    (portDistIndex_inspection s) (portDistIndex_repair s) (outputsOfWP6 s).
Definition set_errorTable (v : DataFrame.t (option ErrorRow)) (s : Calc)
    : Calc :=
  mkCalc (NrOfTurnOutDevices s) (arrayDict s) (UnCoMa_eventsTable s)
    (CaBaMa_eventsTable s) (CoBaMa_eventsTable s)
    (UnCoMa_outputEventsTable s) (CaBaMa_outputEventsTable s)
    (CoBaMa_outputEventsTable s) (actIdxOfUnCoMa s) (actIdxOfCaBaMa s)
    (actIdxOfCoBaMa s) (totalActionDelayHour s) (actActionDelayHour s)
    (totalSeaTimeHour s) (departOpDate s) (endOpDate s) (repairActionDate s)
    (om_logistic s) (wp6_outputsForLogistic s) (UnCoMa_dictEnvAssess s)
    (CaBaMa_dictEnvAssess s) (CoBaMa_dictEnvAssess s) (errorFlag s) v
    (portDistIndex_inspection s) (portDistIndex_repair s) (outputsOfWP6 s).
Definition set_portDistIndex_inspection (v : Q * Z) (s : Calc) : Calc :=
  mkCalc (NrOfTurnOutDevices s) (arrayDict s) (UnCoMa_eventsTable s)
    (CaBaMa_eventsTable s) (CoBaMa_eventsTable s)
    (UnCoMa_outputEventsTable s) (CaBaMa_outputEventsTable s)
    (CoBaMa_outputEventsTable s) (actIdxOfUnCoMa s) (actIdxOfCaBaMa s)
    (actIdxOfCoBaMa s) (totalActionDelayHour s) (actActionDelayHour s)
    (totalSeaTimeHour s) (departOpDate s) (endOpDate s) (repairActionDate s)
    (om_logistic s) (wp6_outputsForLogistic s) (UnCoMa_dictEnvAssess s)
    (CaBaMa_dictEnvAssess s) (CoBaMa_dictEnvAssess s) (errorFlag s)
    (errorTable s) v (portDistIndex_repair s) (outputsOfWP6 s).
Definition set_portDistIndex_repair (v : Q * Z) (s : Calc) : Calc :=
  mkCalc (NrOfTurnOutDevices s) (arrayDict s) (UnCoMa_eventsTable s)
    (CaBaMa_eventsTable s) (CoBaMa_eventsTable s)
    (UnCoMa_outputEventsTable s) (CaBaMa_outputEventsTable s)
    (CoBaMa_outputEventsTable s) (actIdxOfUnCoMa s) (actIdxOfCaBaMa s)
    (actIdxOfCoBaMa s) (totalActionDelayHour s) (actActionDelayHour s)
    (totalSeaTimeHour s) (departOpDate s) (endOpDate s) (repairActionDate s)
    (om_logistic s) (wp6_outputsForLogistic s) (UnCoMa_dictEnvAssess s)
    (CaBaMa_dictEnvAssess s) (CoBaMa_dictEnvAssess s) (errorFlag s)
    (errorTable s) (portDistIndex_inspection s) v (outputsOfWP6 s).
Definition set_outputsOfWP6 (v : Outputs) (s : Calc) : Calc :=
  mkCalc (NrOfTurnOutDevices s) (arrayDict s) (UnCoMa_eventsTable s)
    (CaBaMa_eventsTable s) (CoBaMa_eventsTable s)
    (UnCoMa_outputEventsTable s) (CaBaMa_outputEventsTable s)
    (CoBaMa_outputEventsTable s) (actIdxOfUnCoMa s) (actIdxOfCaBaMa s)
    (actIdxOfCoBaMa s) (totalActionDelayHour s) (actActionDelayHour s)
    (totalSeaTimeHour s) (departOpDate s) (endOpDate s) (repairActionDate s)
    (om_logistic s) (wp6_outputsForLogistic s) (UnCoMa_dictEnvAssess s)
    (CaBaMa_dictEnvAssess s) (CoBaMa_dictEnvAssess s) (errorFlag s)
    (errorTable s) (portDistIndex_inspection s) (portDistIndex_repair s) v.

(** What a reference to an output event table reads: the table as the
    attributes hold it now. *)
Inductive OutputTable : Type :=
  | Table_UnCoMa (T : DataFrame.t (option UnCoMa.out))
  | Table_CoBaMa (T : DataFrame.t (option CoBaMa.out))
  | Table_CaBaMa (T : DataFrame.t (option CaBaMa.out)).

Definition deref (s : Calc) (r : OutputTableRef) : OutputTable :=
  match r with
  | Ref_UnCoMa_outputEventsTable => Table_UnCoMa (UnCoMa_outputEventsTable s)
  | Ref_CoBaMa_outputEventsTable => Table_CoBaMa (CoBaMa_outputEventsTable s)
  | Ref_CaBaMa_outputEventsTable => Table_CaBaMa (CaBaMa_outputEventsTable s)
  end.

(* ===================================================================== *)
(** ** Methods as computations *)

(** A method runs on the attributes and returns a value or raises; the
    attributes written before a raise stay written. *)
Definition M (A : Type) : Type := Calc -> Calc * (Py.exn + A).

Definition ret {A} (a : A) : M A := fun s => (s, inr a).
Definition raise {A} (e : Py.exn) : M A := fun s => (s, inl e).
Definition bind {A B} (m : M A) (k : A -> M B) : M B :=
  fun s => match m s with
           | (s', inl e) => (s', inl e)
           | (s', inr a) => k a s'
           end.
Definition get : M Calc := fun s => (s, inr s).
Definition modify (f : Calc -> Calc) : M unit := fun s => (f s, inr tt).

(** A lookup that raises when the key, label or variable is missing. *)
Definition need {A} (o : option A) (e : Py.exn) : M A :=
  match o with Some a => ret a | None => raise e end.

Declare Scope py_scope.
Delimit Scope py_scope with py.
Notation "x <- c ;; k" := (bind c (fun x => k))
  (at level 61, c at next level, right associativity) : py_scope.
Notation "c ;; k" := (bind c (fun _ => k))
  (at level 61, right associativity) : py_scope.
Notation "' pat <- c ;; k" := (bind c (fun x => match x with pat => k end))
  (at level 61, pat pattern, c at next level, right associativity) : py_scope.

Open Scope py_scope.

(** [for x in l: body], threading the attributes, stopping at a raise. *)
Fixpoint for_each {A} (l : list A) (body : A -> M unit) : M unit :=
  match l with
  | [] => ret tt
  | x :: rest => body x ;; for_each rest body
  end.

(** [range(a, b)] *)
Definition range (a b : Z) : list Z :=
  map (fun k => (a + Z.of_nat k)%Z) (seq 0 (Z.to_nat (b - a))).

(** The final attributes and the outcome of a run from [s]. *)
Definition state_of {A} (r : Calc * (Py.exn + A)) : Calc := fst r.
Definition outcome_of {A} (r : Calc * (Py.exn + A)) : Py.exn + A := snd r.

Fixpoint for_fold {A B} (l : list A) (acc : B) (body : A -> B -> M B) : M B :=
  match l with
  | [] => ret acc
  | x :: rest => acc' <- body x acc ;; for_fold rest acc' body
  end.

(** [self.__arrayDict[k]] *)
Definition arrayDict_at (k : string) : M ArrayComp :=
  s <- get ;; need (dict_get (arrayDict s) k) (Py.KeyError k).

(** [self.__arrayDict[k][...] = ...] and [.append(...)] on entry [k]. *)
Definition arrayDict_update (k : string) (f : ArrayComp -> ArrayComp)
    : M unit :=
  _ <- arrayDict_at k ;;
  modify (fun s => set_arrayDict (dict_update (arrayDict s) k f) s).

(* ===================================================================== *)
(** ** The scheduler *)

Section Scheduler.

(** The inputs of the run. *)
Variable inp : Inputs.

(** [om_logistics_main] of the logistics module, called on deep copies of
    the fleet tables: a function of the request table alone. *)
Variable om_logistics_main : DataFrame.t (option Request) -> OmLogistic.

(** [__calcLogistic] *)
Definition calcLogistic : M unit :=
  modify (fun s =>
    set_om_logistic (Some (om_logistics_main (wp6_outputsForLogistic s))) s).

Definition om_logistic_now : M OmLogistic :=
  s <- get ;; need (om_logistic s) (Py.KeyError "findSolution").

(** The hours of the action that fall in the first and in the second
    half of the day that starts at [halfstart] (lines 4399-4412 and
    4418-4433). *)
Definition working_hours (endOpDate halfstart : datetime) (diffHour : Z)
    : M Q :=
  let workingHourRelToDiffHour := hours_between endOpDate halfstart in
  ' (q, r) <- need (Py.fdivmod (inject_Z workingHourRelToDiffHour) dayHours)
                   Py.ZeroDivisionError ;;
  let total := q * dayHours / 2 in
  let total := if Qle_bool r 12 then total + r else total + dayHours / 2 in
  ret (total - inject_Z diffHour).

(** [__calcCostOfOM(FM_ID, CompIDWithIndex)]: returns
    [(omCostValueSpare, omCostValue)].  The attributes it writes (the
    season flags and the working-hour totals) are read by no other method
    and are local here. *)
Definition calcCostOfOM (fm : string) (cid : CompIDWithIndex) : M (Q * Q) :=
  s <- get ;;
  (* repairActionDate is in summer time or winter time *)
  repairActionDate <- need (repairActionDate s)
                           (Py.AttributeError "month") ;;
  let summerTime :=
    existsb (Z.eqb (month repairActionDate)) [3; 4; 5; 6; 7; 8]%Z in
  let winterTime := negb summerTime in
  let weeks (workdays : Q) : M (Q * Q) :=
    ' (q, _) <- need (Py.fdivmod (totalSeaTimeHour s / dayHours) workdays)
                     Py.ZeroDivisionError ;;
    let totalNotWeekEndWorkingHour := q * dayHours in
    ret (totalSeaTimeHour s - totalNotWeekEndWorkingHour,
         totalNotWeekEndWorkingHour) in
  acc <- (if summerTime && Qle_bool (workdays_summer inp) 7
          then weeks (workdays_summer inp) else ret (0, 0)) ;;
  ' (totalWeekEndWorkingHour, totalNotWeekEndWorkingHour) <-
    (if winterTime && Qle_bool (workdays_winter inp) 7
     then weeks (workdays_winter inp) else ret acc) ;;
  (* calc of self.__totalDayWorkingHour and self.__totalNightWorkingHour *)
  depart <- need (departOpDate s) (Py.AttributeError "year") ;;
  let opdt := to_day depart in
  let nightstart := startDayWorkingHour + 12 in
  let dummyDayWorkingDate := plus_hours opdt startDayWorkingHour in
  let dummyNightWorkingDate := plus_hours opdt nightstart in
  let diffHour := hours_between depart dummyDayWorkingDate in
  endOp <- need (endOpDate s) Py.TypeError ;;
  ' (totalDayWorkingHour, totalNightWorkingHour) <-
    (if ((0 <=? diffHour) && (diffHour <? 12))%Z then
       day <- working_hours endOp dummyDayWorkingDate diffHour ;;
       ret (day, totalSeaTimeHour s - day)
     else
       night <- working_hours endOp dummyNightWorkingDate diffHour ;;
       ret (totalSeaTimeHour s - night, night)) ;;
  let totalDummy := totalWeekEndWorkingHour + totalNotWeekEndWorkingHour in
  let share (hours part : Q) : Q :=
    if negb (Qeq_bool totalDummy 0) then hours * part / totalDummy else 0 in
  let nightNotWeekend :=
    share totalNightWorkingHour totalNotWeekEndWorkingHour in
  let nightWeekend := share totalNightWorkingHour totalWeekEndWorkingHour in
  let dayNotWeekend :=
    share totalDayWorkingHour totalNotWeekEndWorkingHour in
  let dayWeekend := share totalDayWorkingHour totalWeekEndWorkingHour in
  act <- (if Py.str_in "Insp" fm
          then need (Inspection inp cid) (Py.KeyError "Inspection")
          else need (Repair_Action inp cid) (Py.KeyError "Repair_Action")) ;;
  (* cost of OM for the current action [unit] *)
  failure <- need (Failure_Mode inp cid) (Py.KeyError "Failure_Mode") ;;
  (* cost of spare *)
  let omCostValueSpare :=
    cost_spare failure + cost_spare_transit failure
    + cost_spare_loading failure in
  (* Assumption *)
  let wage_specialist_weekend := wage_specialist_night inp in
  let wage_technician_weekend := wage_technician_night inp in
  let labour (number : Z) (day night weekend : Q) : Q :=
    let day_wage := inject_Z number * day in
    let night_wage := inject_Z number * night in
    let we_wage := inject_Z number * weekend in
    day_wage * dayNotWeekend + we_wage * dayWeekend
    + night_wage * nightNotWeekend + we_wage * nightWeekend in
  let omCostValue :=
    omCostValueSpare
    (* cost of specialists *)
    + labour (number_specialists act) (wage_specialist_day inp)
             (wage_specialist_night inp) wage_specialist_weekend
    (* cost of technicians *)
    + labour (number_technicians act) (wage_technician_day inp)
             (wage_technician_night inp) wage_technician_weekend in
  ret (omCostValueSpare, omCostValue).

(** [int(ComponentID[-3:len(ComponentID)])] *)
Definition shortid_of (CID : string) : M Z :=
  need (Py.int (Py.last3 CID)) Py.ValueError.

(** The renaming of a component for the logistics module:
    [(ComponentTypeLogistic, ComponentIDLogistic)]. *)
Definition logistic_names (shortid : M Z) (id : Ident)
    : M (string * (string + Z)) :=
  let CT := ComponentType id in
  let CST := ComponentSubType id in
  let CID := ComponentID id in
  if String.eqb (belongsTo id) "Array" then
    if Py.str_in "Substation" CT then ret ("collection point"%string, inl CID)
    else if Py.str_in "subhub" CT then
      ret ("collection point"%string, inl CID)
    else if Py.str_in "Export Cable" CT then
      n <- shortid ;;
      ret ("static cable"%string, inr n)
    else ret (CT, inl CID)
  else
    ' (t, i) <-
      (if Py.str_in "Dynamic cable" CST then
         ret ("dynamic cable"%string, inr 0%Z)
       else if Py.str_in "Mooring line" CST then
         n <- shortid ;;
         ret ("mooring line"%string, inr n)
       else if Py.str_in "Foundation" CST then
         ret ("foundation"%string, inl CID)
       else ret (CT, inl CID)) ;;
    ret (if Py.str_in "device" t then "device"%string else t, i).

(** The rows of the calendar table that cover the same kind of action:
    the query of [__get_lcoe_unplanned] and [__get_lcoe_condition]
    ([with_date = None]) and of [__get_lcoe_calendar]
    ([with_date = Some startActionDate]). *)
Definition CaBaMa_query (CaBaMaTableQueryDeviceID : string)
    (CaBaMaTableQuerySubSystem : string) (id : Ident)
    (with_date : option datetime) (df : DataFrame.t CaBaMa.row)
    : DataFrame.t CaBaMa.row :=
  let same_date r :=
    match with_date with
    | Some d => Qeq_bool (CaBaMa.startActionDate r) d
    | None => true
    end in
  if Py.str_in "subhub" (ComponentType id) then
    DataFrame.select (fun r =>
      String.eqb (ComponentType (CaBaMa.ident r)) CaBaMaTableQueryDeviceID
      && same_date r
      && String.eqb (FM_ID (CaBaMa.ident r)) (FM_ID id)
      && Z.eqb (indexFM (CaBaMa.ident r)) (indexFM id)) df
  else
    DataFrame.select (fun r =>
      String.eqb (RA_ID (CaBaMa.ident r)) (RA_ID id)
      && String.eqb (ComponentSubType (CaBaMa.ident r))
                    CaBaMaTableQuerySubSystem
      && same_date r
      && String.eqb (FM_ID (CaBaMa.ident r)) (FM_ID id)
      && Z.eqb (indexFM (CaBaMa.ident r)) (indexFM id)) df.

(** [__env_assess(loop, failureDate, FM_ID, RA_ID, optSeaTime, type)] *)
Definition env_assess_entry (failureDate : datetime) (fm ra : string)
    (optSeaTime : Q) : M EnvAssess :=
  lg <- om_logistic_now ;;
  let ve := vessel_equipment (optimal lg) in
  ret (mkEnvAssess failureDate fm ra optSeaTime (map fst ve) (map snd ve)).

Definition dict_put {V} (k : Z) (v : V) (d : list (Z * V)) : list (Z * V) :=
  (k, v) :: filter (fun kv => negb (Z.eqb (fst kv) k)) d.

(** [__updatePoissonEvents] *)
Definition updatePoissonEvents : M unit :=
  s <- get ;;
  r0 <- need (DataFrame.at_label (UnCoMa_eventsTable s) 0)
             (Py.KeyError "UnCoMa_eventsTable[0]") ;;
  let belongsTo0 := belongsTo (UnCoMa.ident r0) in
  let ComponentID0 := ComponentID (UnCoMa.ident r0) in
  let shift_row (iCnt : Z) : M unit :=
    s <- get ;;
    r <- need (DataFrame.at_label (UnCoMa_eventsTable s) iCnt)
              (Py.KeyError "UnCoMa_eventsTable") ;;
    let shiftDate := plus_hours (UnCoMa.failureEvents r)
                                (totalSeaTimeHour s) in
    modify (fun s => set_UnCoMa_eventsTable
      (DataFrame.set_loc (UnCoMa_eventsTable s) iCnt
         (UnCoMa.set_failureEvents shiftDate)) s) ;;
    let shiftDate := plus_hours (UnCoMa.repairActionEvents r)
                                (totalSeaTimeHour s) in
    modify (fun s => set_UnCoMa_eventsTable
      (DataFrame.set_loc (UnCoMa_eventsTable s) iCnt
         (UnCoMa.set_repairActionEvents shiftDate)) s) in
  all <- (if String.eqb belongsTo0 "Array" then
            c <- arrayDict_at ComponentID0 ;;
            ret (Py.list_in "All" (Breakdown c))
          else ret false) ;;
  (if all : bool then
     for_each (range (actIdxOfUnCoMa s + 1)
                     (DataFrame.len (UnCoMa_eventsTable s))) shift_row
   else
     for_each (range (actIdxOfUnCoMa s + 1)
                     (DataFrame.len (UnCoMa_eventsTable s)))
       (fun iCnt =>
          s <- get ;;
          r <- need (DataFrame.at_label (UnCoMa_eventsTable s) iCnt)
                    (Py.KeyError "UnCoMa_eventsTable") ;;
          hit <- (if String.eqb (ComponentID (UnCoMa.ident r)) ComponentID0
                  then
                    c <- arrayDict_at ComponentID0 ;;
                    ret (Py.list_in (belongsTo (UnCoMa.ident r))
                                    (Breakdown c))
                  else ret false) ;;
          if hit : bool then shift_row iCnt else ret tt)) ;;
  modify (fun s => set_UnCoMa_eventsTable
    (DataFrame.sort UnCoMa.repairActionEvents (UnCoMa_eventsTable s)) s).

(** The date [optimal['depart_dt']] stands for. *)
Definition dummy_departOpDate (o : Optimal) : datetime :=
  match depart_dt o with
  | DepartDate d => d
  | DepartDict _ retrieve => retrieve
  end.

(** The values for the logistics request of one action. *)
Definition logistic_values (id : Ident) (t_start : datetime)
    (inspection_duration : ActionRec -> Q) (prep : Q) : M Request :=
  s <- get ;;
  let cid := compIDWithIndex id in
  failure <- need (Failure_Mode inp cid) (Py.KeyError "Failure_Mode") ;;
  ' (act, d_om, port) <-
    (if Py.str_in "Insp" (FM_ID id) then
       a <- need (Inspection inp cid) (Py.KeyError "Inspection") ;;
       ret (a, inspection_duration a, portDistIndex_inspection s)
     else
       a <- need (Repair_Action inp cid) (Py.KeyError "Repair_Action") ;;
       ret (a, duration_maintenance a, portDistIndex_repair s)) ;;
  site <- need (arrayInfoLogistic inp
                  (if String.eqb (belongsTo id) "Array"
                   then ComponentID id else belongsTo id))
               (Py.KeyError "arrayInfoLogistic") ;;
  ' (ComponentTypeLogistic, ComponentIDLogistic) <-
    logistic_names (shortid_of (ComponentID id)) id ;;
  ret (mkRequest (FM_ID id) ComponentTypeLogistic (ComponentSubType id)
         ComponentIDLogistic site t_start
         (duration_accessibility act) d_om (helideck inp)
         (weather_limits act)
         (number_technicians act + number_specialists act)%Z
         failure (fst port) (snd port) prep).

(** *** The corrective track: [__get_lcoe_unplanned] *)

(** Lines 4207-4240: the information about failure and down time in
    devices; returns [downtimeDeviceList]. *)
Definition unplanned_record_downtime (id : Ident) (failureDate : datetime)
    (totalDownTimeHours : Z) : M (list string) :=
  s <- get ;;
  let keys := dict_keys (arrayDict s) in
  c <- arrayDict_at (ComponentID id) ;;
  let breakdown := Breakdown c in
  for_fold keys [] (fun key downtimeDeviceList =>
    selected <-
      (if Py.str_in "device" key then
         kc <- arrayDict_at key ;;
         ret (UnCoMaNoWeatherWindow kc
              && (Py.list_in "All" breakdown || Py.list_in key breakdown))
       else ret false) ;;
    if negb selected then ret downtimeDeviceList
    else
      (if ignoreWeatherWindow inp then
         arrayDict_update key (set_UnCoMaNoWeatherWindow true) ;;
         modify (fun s =>
           set_NrOfTurnOutDevices (NrOfTurnOutDevices s + 1)%Z s)
       else ret tt) ;;
      arrayDict_update key
        (on_UnCoMaL (append_event failureDate
           (inject_Z totalDownTimeHours) (indexFM id) (ComponentID id))) ;;
      (if Py.str_in "device" (ComponentType id) then ret tt
       else
         arrayDict_update key (on_UnCoMaL (append_costLogistic 0)) ;;
         arrayDict_update key (on_UnCoMaL (append_costOM 0)) ;;
         arrayDict_update (ComponentID id)
           (set_UnCoMaNoWeatherWindow true)) ;;
      ret (downtimeDeviceList ++ [key])).

(** Lines 4189-4298: what follows the interpretation of the logistics
    result.  [optimal] and [totalWaitingTimeHours] are local variables
    that only the [SolutionFound] branch assigns. *)
Definition unplanned_realize (r : UnCoMa.row)
    (repairActionEvents failureDate : datetime)
    (loop loopValuesForOutput_UnCoMa : Z)
    (flagCalcCoBaMa flagCalcUnCoMa : bool)
    (optLogisticCostValue omCostValueSpare omCostValue : Q)
    (totalDownTimeHours : Z)
    (optimal_local : option Optimal) (totalWaitingTimeHours : option Q)
    : M (Z * Z * bool * bool) :=
  let id := UnCoMa.ident r in
  (* Save the cost of operation *)
  let logisticcost := Py.round optLogisticCostValue 2 in
  let omcost := Py.round omCostValue 2 in
  (if String.eqb (belongsTo id) "Array" then
     arrayDict_update (ComponentID id)
       (on_UnCoMaL (append_costLogistic logisticcost)) ;;
     arrayDict_update (ComponentID id) (on_UnCoMaL (append_costOM omcost))
   else if Py.str_in "device" (ComponentType id) then
     arrayDict_update (ComponentType id)
       (on_UnCoMaL (append_costLogistic logisticcost)) ;;
     arrayDict_update (ComponentType id) (on_UnCoMaL (append_costOM omcost))
   else ret tt) ;;
  (* Save the information about failure and down time in devices *)
  downtimeDeviceList <-
    unplanned_record_downtime id failureDate totalDownTimeHours ;;
  (* loopValuesForOutput *)
  let loopValuesForOutput_UnCoMa := (loopValuesForOutput_UnCoMa + 1)%Z in
  (* Update poisson events in eventTables *)
  updatePoissonEvents ;;
  (* for environmental team *)
  opt <- need optimal_local (Py.UnboundLocalError "optimal") ;;
  ea <- env_assess_entry failureDate (FM_ID id) (RA_ID id)
          (schedule_sea_time opt) ;;
  modify (fun s =>
    set_UnCoMa_dictEnvAssess (dict_put loop ea (UnCoMa_dictEnvAssess s)) s) ;;
  lg <- om_logistic_now ;;
  let vessel_equip := vessel_equipment (optimal lg) in
  s <- get ;;
  depart <- need (departOpDate s) (Py.AttributeError "replace") ;;
  waiting <- need totalWaitingTimeHours
                  (Py.UnboundLocalError "totalWaitingTimeHours") ;;
  ve0 <- need (nth_error vessel_equip 0) Py.IndexError ;;
  let valuesForOutput :=
    UnCoMa.mkOut (UnCoMa.failureRate r)
      (UnCoMa.failureEvents r) repairActionEvents depart
      totalDownTimeHours (totalSeaTimeHour s) waiting
      downtimeDeviceList id
      (Py.trunc optLogisticCostValue)
      (Py.trunc (omCostValue - omCostValueSpare))
      (Py.trunc omCostValueSpare)
      (fst ve0) (snd ve0) in
  modify (fun s => set_UnCoMa_outputEventsTable
    (DataFrame.ix_set (UnCoMa_outputEventsTable s)
       loopValuesForOutput_UnCoMa (Some valuesForOutput)) s) ;;
  (* loop *)
  let loop := (loop + 1)%Z in
  ret (loop, loopValuesForOutput_UnCoMa, flagCalcCoBaMa, flagCalcUnCoMa).

(** Lines 3868-3928: is the event within the delay after a calendar action
    of the same kind ([foundDeleteFlag])? *)
Definition unplanned_foundDeleteFlag (id : Ident)
    (repairActionEvents : datetime) (s : Calc) : bool :=
  if calendar_based_maintenance inp then
    let CT := ComponentType id in
    let CaBaMaTableQueryDeviceID :=
      if Py.str_in "device" CT then CT
      else if Py.str_in "subhub" CT then CT else "Array"%string in
    let CaBaMaTableQuerySubSystem :=
      if Py.str_in "device" CT then ComponentSubType id
      else Py.drop_last3 CT in
    let dummyCaBaMaTable :=
      CaBaMa_query CaBaMaTableQueryDeviceID CaBaMaTableQuerySubSystem id
                   None (CaBaMa_eventsTable s) in
    if (1 <? DataFrame.len dummyCaBaMaTable)%Z then
      existsb (fun row =>
                 (hours_between repairActionEvents
                                (CaBaMa.currentEndActionDate row)
                  <? delayEventsAfterCaBaMaHour)%Z)
              (DataFrame.rows dummyCaBaMaTable)
    else false
  else false.

(** Lines 3947-4187: the request to the logistics module and the
    interpretation of its answer. *)
Definition unplanned_dispatch (r : UnCoMa.row)
    (repairActionEvents failureDate : datetime)
    (loop loopValuesForOutput_UnCoMa : Z)
    (flagCalcCoBaMa flagCalcUnCoMa : bool) : M (Z * Z * bool * bool) :=
  let id := UnCoMa.ident r in
  let failureEvents := UnCoMa.failureEvents r in
  values <- logistic_values id repairActionEvents duration_inspection
              PrepTimeCalcUnCoMa ;;
  modify (fun s => set_wp6_outputsForLogistic
    (DataFrame.ix_set (wp6_outputsForLogistic s) 0 (Some values)) s) ;;
  modify (fun s => set_actIdxOfUnCoMa (actIdxOfUnCoMa s + 1)%Z s) ;;
  (* Calc logistic functions *)
  calcLogistic ;;
  lg <- om_logistic_now ;;
  match findSolution lg with
  | NoSolutionsFound =>
      ret (loop, loopValuesForOutput_UnCoMa, flagCalcCoBaMa, flagCalcUnCoMa)
  | NoWeatherWindowFound =>
      if ignoreWeatherWindow inp then
        let totalDownTimeHours :=
          hours_between (endOperationDate inp) failureEvents in
        modify (set_departOpDate (Some (endOperationDate inp))) ;;
        unplanned_realize r repairActionEvents failureDate
          loop loopValuesForOutput_UnCoMa flagCalcCoBaMa flagCalcUnCoMa
          0 0 0 totalDownTimeHours None None
      else
        ret (loop, loopValuesForOutput_UnCoMa,
             flagCalcCoBaMa, flagCalcUnCoMa)
  | SolutionFound =>
      let optimal_ := optimal lg in
      let endOp := to_minute (end_dt optimal_) in
      modify (set_endOpDate (Some endOp)) ;;
      modify (set_departOpDate
                (Some (to_minute (dummy_departOpDate optimal_)))) ;;
      (* total optim cost from logistic *)
      let optLogisticCostValue := total_cost optimal_ in
      (* should the next operation be shifted? *)
      s <- get ;;
      (if (actIdxOfUnCoMa s <? DataFrame.len (UnCoMa_eventsTable s) - 1)%Z
       then
         let nidx := (actIdxOfUnCoMa s + 1)%Z in
         nr <- need (DataFrame.at_label (UnCoMa_eventsTable s) nidx)
                    (Py.KeyError "UnCoMa_eventsTable") ;;
         let delay := hours_between (UnCoMa.repairActionEvents nr) endOp in
         modify (set_actActionDelayHour delay) ;;
         modify (fun s => set_totalActionDelayHour
                            (totalActionDelayHour s + delay)%Z s)
       else ret tt) ;;
      modify (set_totalSeaTimeHour (schedule_sea_time optimal_)) ;;
      let totalDownTimeHours := hours_between endOp failureDate in
      let totalWaitingTimeHours :=
        inject_Z totalDownTimeHours - schedule_sea_time optimal_ in
      ' (omCostValueSpare, omCostValue) <-
        calcCostOfOM (FM_ID id) (compIDWithIndex id) ;;
      unplanned_realize r repairActionEvents failureDate
        loop loopValuesForOutput_UnCoMa flagCalcCoBaMa flagCalcUnCoMa
        optLogisticCostValue omCostValueSpare omCostValue
        totalDownTimeHours (Some optimal_) (Some totalWaitingTimeHours)
  end.

Definition get_lcoe_unplanned (loop loopValuesForOutput_UnCoMa : Z)
    (flagCalcCoBaMa flagCalcUnCoMa : bool) : M (Z * Z * bool * bool) :=
  s <- get ;;
  let idx := actIdxOfUnCoMa s in
  r <- need (DataFrame.at_label (UnCoMa_eventsTable s) idx)
            (Py.KeyError "UnCoMa_eventsTable") ;;
  let id := UnCoMa.ident r in
  let failureEvents := UnCoMa.failureEvents r in
  (* simulate or not *)
  simulateFlag <-
    (if (NrOfDevices inp =? NrOfTurnOutDevices s)%Z then ret false
     else
       blockedArray <-
         (if String.eqb (belongsTo id) "Array" then
            c <- arrayDict_at (ComponentID id) ;;
            ret (UnCoMaNoWeatherWindow c)
          else ret false) ;;
       if blockedArray : bool then ret false
       else
         blockedDevice <-
           (if Py.str_in "device" (ComponentType id) then
              c <- arrayDict_at (ComponentType id) ;;
              ret (UnCoMaNoWeatherWindow c)
            else ret false) ;;
         ret (negb blockedDevice)) ;;
  if negb simulateFlag then
    modify (set_actIdxOfUnCoMa (idx + 1)%Z) ;;
    ret (loop, loopValuesForOutput_UnCoMa, flagCalcCoBaMa, flagCalcUnCoMa)
  else
  (* delay of repairActionEvents in repair plan *)
  repairActionEvents <-
    (if (totalActionDelayHour s <? 0)%Z then
       let shiftDate := plus_hours (UnCoMa.repairActionEvents r)
                          (inject_Z (- totalActionDelayHour s)) in
       modify (fun s => set_UnCoMa_eventsTable
         (DataFrame.set_loc (UnCoMa_eventsTable s) idx
            (UnCoMa.set_repairActionEvents shiftDate)) s) ;;
       ret shiftDate
     else ret (UnCoMa.repairActionEvents r)) ;;
  let failureDate := failureEvents in
  (* Date of logistic request *)
  modify (set_repairActionDate (Some repairActionEvents)) ;;
  (* break the while loop if repairActionDate is greater than
     self.__endOperationDate *)
  if Qltb (endOperationDate inp) repairActionEvents then
    ret (0%Z, loopValuesForOutput_UnCoMa,
         if condition_based_maintenance inp then true else flagCalcCoBaMa,
         false)
  else
  (* check the impact of CaBaMa of UnCoMa *)
  s <- get ;;
  if unplanned_foundDeleteFlag id repairActionEvents s then
    modify (fun s => set_actIdxOfUnCoMa (actIdxOfUnCoMa s + 1)%Z s) ;;
    ret (loop, loopValuesForOutput_UnCoMa, flagCalcCoBaMa, flagCalcUnCoMa)
  else
    unplanned_dispatch r repairActionEvents failureDate
      loop loopValuesForOutput_UnCoMa flagCalcCoBaMa flagCalcUnCoMa.

(** *** The calendar track: [__get_lcoe_calendar] *)

(** [blockNumberList] (lines 3292-3307). *)
Definition blockNumberList (n : Z) : list Z :=
  let (q, r) := Py.divmod n CaBaMa_nrOfMaxActions in
  if (0 <? q)%Z then
    repeat CaBaMa_nrOfMaxActions (Z.to_nat q) ++ [r]
  else [r].

(** The local variables that live across the blocks of one call. *)
Record CalLocals : Type := mkCalLocals {
  cl_loop : Z;
  cl_loopValuesForOutput : Z;
  (** [belongsTo], [ComponentType], [ComponentSubType], [ComponentID] as
      last assigned; [FM_ID], [indexFM], [RA_ID] of the row at [idx]. *)
  cl_row : Ident;
  (** the spare dimensions, the action record with its [d_om], the port
      and the logistic names: assigned in the first block only. *)
  cl_request : option (FailureModeRec * ActionRec * Q * (Q * Z)
                       * (string * (string + Z)));
  cl_omCostValueSpare : option Q
}.

Definition CaBaMa_loc_set (l : Z) (f : CaBaMa.row -> CaBaMa.row) : M unit :=
  s <- get ;;
  if DataFrame.has_label (CaBaMa_eventsTable s) l then
    modify (fun s => set_CaBaMa_eventsTable
                       (DataFrame.set_loc (CaBaMa_eventsTable s) l f) s)
  else raise (Py.OutsideModel "CaBaMa_eventsTable.loc").

Definition with_row (top rowid : Ident) : Ident :=
  mkIdent (belongsTo rowid) (ComponentType rowid) (ComponentSubType rowid)
          (ComponentID rowid) (FM_ID top) (indexFM top) (RA_ID top).

(** Lines 3613-3633, one turn of the loop: the row [iCnt1] of the block,
    which is the row [self.__actIdxOfCaBaMa - blockNumber + iCnt1] of the
    table.  [acc] is [(shiftDate, currentStartActionDateList)]. *)
Definition calendar_record_row (blockNumber : Z) (logisticcost omcost : Q)
    (iCnt1 : Z) (acc : datetime * list datetime)
    : M (datetime * list datetime) :=
  let '(shiftDate, currentStartActionDateList) := acc in
  s <- get ;;
  let blockshift := totalSeaTimeHour s / inject_Z blockNumber in
  let tidx := (actIdxOfCaBaMa s - blockNumber + iCnt1)%Z in
  let shiftDate := plus_hours shiftDate blockshift in
  CaBaMa_loc_set tidx (CaBaMa.set_currentEndActionDate shiftDate) ;;
  (if (iCnt1 <? blockNumber - 1)%Z then
     CaBaMa_loc_set (tidx + 1)%Z
                    (CaBaMa.set_currentStartActionDate shiftDate)
   else ret tt) ;;
  CaBaMa_loc_set tidx (CaBaMa.set_logisticCost logisticcost) ;;
  CaBaMa_loc_set tidx (CaBaMa.set_omCost omcost) ;;
  ret (shiftDate, currentStartActionDateList ++ [shiftDate]).

(** Lines 3603-3633: the share of the logistic cost and the shifted dates
    written to the rows of the block; returns
    [(logisticcost, omcost, currentStartActionDateList)]. *)
Definition calendar_record_block (blockNumber : Z)
    (currentStartActionDate : datetime)
    (optLogisticCostValue omCostValue : Q) : M (Q * Q * list datetime) :=
  let shiftDate := currentStartActionDate in
  (if (blockNumber =? 0)%Z then raise Py.ZeroDivisionError else ret tt) ;;
  let logisticcost :=
    Py.round (optLogisticCostValue / inject_Z blockNumber) 2 in
  let omcost := Py.round omCostValue 2 in
  ' (_, currentStartActionDateList) <-
    for_fold (range 0 blockNumber) (shiftDate, [])
             (calendar_record_row blockNumber logisticcost omcost) ;;
  ret (logisticcost, omcost, currentStartActionDateList).

(** One block, after the test on the end of operation
    (lines 3347-3774). *)
Definition calendar_block (shortid : Z)
    (dummyCaBaMaTable : DataFrame.t CaBaMa.row)
    (iCnt blockNumber : Z) (currentStartActionDate : datetime)
    (L : CalLocals) : M CalLocals :=
  let top := cl_row L in
  let bidx := (iCnt * CaBaMa_nrOfMaxActions)%Z in
  let dummy_at (i : Z) : M CaBaMa.row :=
    need (DataFrame.at_label dummyCaBaMaTable i)
         (Py.KeyError "dummyCaBaMaTable") in
  (* loop over blockNumber *)
  ' (L, idList) <-
    for_fold (range 0 blockNumber) (L, [])
      (fun iCnt1 acc =>
         let '(L, idList) := acc in
         drow <- dummy_at (bidx + iCnt1)%Z ;;
         let rowid := with_row top (CaBaMa.ident drow) in
         let cid := compIDWithIndex rowid in
         parts <-
           (if (iCnt =? 0)%Z then
              s <- get ;;
              failure <- need (Failure_Mode inp cid)
                              (Py.KeyError "Failure_Mode") ;;
              ' (act, d_om, port) <-
                (if Py.str_in "Insp" (FM_ID top) then
                   a <- need (Inspection inp cid)
                             (Py.KeyError "Inspection") ;;
                   ret (a, duration_inspection a,
                        portDistIndex_inspection s)
                 else
                   a <- need (Repair_Action inp cid)
                             (Py.KeyError "Repair_Action") ;;
                   ret (a, duration_maintenance a,
                        portDistIndex_repair s)) ;;
              names <- logistic_names (ret shortid) rowid ;;
              ret (failure, act, d_om, port, names)
            else need (cl_request L) (Py.UnboundLocalError "d_acc")) ;;
         let '(failure, act, d_om, port, names) := parts in
         site <- need (arrayInfoLogistic inp
                         (if String.eqb (belongsTo rowid) "Array"
                          then ComponentID rowid else belongsTo rowid))
                      (Py.KeyError "arrayInfoLogistic") ;;
         let values :=
           mkRequest (FM_ID top) (fst names) (ComponentSubType rowid)
             (snd names) site currentStartActionDate
             (duration_accessibility act) d_om (helideck inp)
             (weather_limits act)
             (number_technicians act + number_specialists act)%Z
             failure (fst port) (snd port) PrepTimeCalcCaBaMa in
         modify (fun s => set_wp6_outputsForLogistic
           (DataFrame.ix_set (wp6_outputsForLogistic s) iCnt1
                             (Some values)) s) ;;
         (* end of calandar based maintenance *)
         modify (fun s => set_actIdxOfCaBaMa (actIdxOfCaBaMa s + 1)%Z s) ;;
         ret (mkCalLocals (cl_loop L) (cl_loopValuesForOutput L) rowid
                          (Some parts) (cl_omCostValueSpare L),
              idList ++ [rowid])) ;;
  let last := cl_row L in
  (* Calc logistic functions *)
  calcLogistic ;;
  (* clear wp6_outputsForLogistic *)
  (if (1 <? blockNumber)%Z then
     modify (fun s =>
       let todrop := skipn 1 (firstn (Z.to_nat blockNumber)
                                (DataFrame.index (wp6_outputsForLogistic s)))
       in set_wp6_outputsForLogistic
            (DataFrame.drop todrop (wp6_outputsForLogistic s)) s)
   else ret tt) ;;
  lg <- om_logistic_now ;;
  ' (optLogisticCostValue, omCostValue, totalDownTimeHours, spare) <-
    (match findSolution lg with
     | NoSolutionsFound | NoWeatherWindowFound =>
         modify (set_endOpDate (Some currentStartActionDate)) ;;
         ret (0, 0, 0%Z, cl_omCostValueSpare L)
     | SolutionFound =>
         let optimal_ := optimal lg in
         let endOp := to_minute (end_dt optimal_) in
         modify (set_endOpDate (Some endOp)) ;;
         modify (set_departOpDate
                   (Some (to_minute (dummy_departOpDate optimal_)))) ;;
         modify (set_totalSeaTimeHour (schedule_sea_time optimal_)) ;;
         ' (omCostValueSpare, omCostValue) <-
           calcCostOfOM (FM_ID top) (compIDWithIndex last) ;;
         ret (total_cost optimal_, omCostValue,
              hours_between endOp currentStartActionDate,
              Some omCostValueSpare)
     end) ;;
  ' (logisticcost, omcost, currentStartActionDateList) <-
    calendar_record_block blockNumber currentStartActionDate
                          optLogisticCostValue omCostValue ;;
  s <- get ;;
  let blockshift := totalSeaTimeHour s / inject_Z blockNumber in
  (* Save the cost of operation *)
  (if String.eqb (belongsTo last) "Array" then
     for_each (range 0 blockNumber) (fun iCnt1 =>
       drow <- dummy_at (bidx + iCnt1)%Z ;;
       let k := ComponentID (CaBaMa.ident drow) in
       arrayDict_update k (on_CaBaMaL (append_costLogistic logisticcost)) ;;
       arrayDict_update k (on_CaBaMaL (append_costOM omcost)))
   else if Py.str_in "device" (ComponentType last) then
     for_each (range 0 blockNumber) (fun iCnt1 =>
       drow <- dummy_at (bidx + iCnt1)%Z ;;
       let k := ComponentType (CaBaMa.ident drow) in
       arrayDict_update k (on_CaBaMaL (append_costLogistic logisticcost)) ;;
       arrayDict_update k (on_CaBaMaL (append_costOM omcost)))
   else ret tt) ;;
  (* Save the information about failure and down time in devices *)
  s <- get ;;
  let keys := dict_keys (arrayDict s) in
  for_each keys (fun key =>
    if negb (Py.str_in "device" key) then ret tt
    else
      _ <- for_fold (range 0 blockNumber) currentStartActionDate
        (fun iCnt2 shiftDate =>
           drow <- dummy_at (bidx + iCnt2)%Z ;;
           c <- arrayDict_at (ComponentID (CaBaMa.ident drow)) ;;
           let breakdown := Breakdown c in
           if negb (Py.list_in "All" breakdown || Py.list_in key breakdown)
           then ret shiftDate
           else
             let shiftDate := plus_hours shiftDate blockshift in
             let blockdown :=
               inject_Z totalDownTimeHours / inject_Z blockNumber in
             let causestr :=
               (ComponentID (CaBaMa.ident drow) ++ "_CaBaMa")%string in
             arrayDict_update key
               (on_CaBaMaL (append_event shiftDate blockdown
                  (indexFM (CaBaMa.ident drow)) causestr)) ;;
             (if Py.str_in "device" (ComponentType last) then ret tt
              else
                arrayDict_update key
                  (on_CaBaMaL (append_costLogistic 0)) ;;
                arrayDict_update key (on_CaBaMaL (append_costOM 0))) ;;
             ret shiftDate) ;;
      ret tt) ;;
  downtimeDeviceList <-
    for_fold (range 0 blockNumber) []
      (fun iCnt2 acc =>
         drow <- dummy_at (bidx + iCnt2)%Z ;;
         c <- arrayDict_at (ComponentID (CaBaMa.ident drow)) ;;
         s <- get ;;
         if Py.list_in "All" (Breakdown c) then
           ret (acc ++ [filter (Py.str_in "device")
                               (dict_keys (arrayDict s))])
         else ret (acc ++ [Breakdown c])) ;;
  match findSolution lg with
  | SolutionFound =>
      omCostValueSpare <- need spare
                            (Py.UnboundLocalError "omCostValueSpare") ;;
      let blockhours :=
        Py.trunc (inject_Z totalDownTimeHours / inject_Z blockNumber) in
      lvo <- for_fold (range 0 blockNumber) (cl_loopValuesForOutput L)
        (fun iCnt1 lvo =>
           started <- need (nth_error currentStartActionDateList
                              (Z.to_nat iCnt1)) Py.IndexError ;;
           rid <- need (nth_error idList (Z.to_nat iCnt1)) Py.IndexError ;;
           devs <- need (nth_error downtimeDeviceList (Z.to_nat iCnt1))
                        Py.IndexError ;;
           let valuesForOutput :=
             CaBaMa.mkOut currentStartActionDate started blockhours devs
               (ComponentType rid) (ComponentSubType rid) (ComponentID rid)
               (FM_ID top) (RA_ID top) (indexFM top)
               (Py.trunc optLogisticCostValue)
               (Py.trunc (omCostValue - omCostValueSpare))
               (Py.trunc omCostValueSpare) in
           modify (fun s => set_CaBaMa_outputEventsTable
             (DataFrame.ix_set (CaBaMa_outputEventsTable s) lvo
                               (Some valuesForOutput)) s) ;;
           ret (lvo + 1)%Z) ;;
      (* for environmental team *)
      ea <- env_assess_entry currentStartActionDate (FM_ID top) (RA_ID top)
              (schedule_sea_time (optimal lg)) ;;
      modify (fun s => set_CaBaMa_dictEnvAssess
                (dict_put (cl_loop L) ea (CaBaMa_dictEnvAssess s)) s) ;;
      ret (mkCalLocals (cl_loop L + 1)%Z lvo last (cl_request L) spare)
  | _ =>
      ret (mkCalLocals (cl_loop L) (cl_loopValuesForOutput L) last
                       (cl_request L) spare)
  end.

(** The three flags of the return tuple are local variables of
    [__get_lcoe_calendar]; [None] is a variable not yet assigned. *)
Record CalFlags : Type := mkCalFlags {
  cf_flagCalcCoBaMa : option bool;
  cf_flagCalcCaBaMa : option bool;
  cf_flagCalcUnCoMa : option bool
}.

Definition set_cl_loop (v : Z) (L : CalLocals) : CalLocals :=
  mkCalLocals v (cl_loopValuesForOutput L) (cl_row L) (cl_request L)
              (cl_omCostValueSpare L).

(** The loop over [blockNumberList] (lines 3309-3774); [blocks] pairs each
    [iCnt] with [blockNumberList[iCnt]]. *)
Fixpoint calendar_blocks (shortid : Z)
    (dummyCaBaMaTable : DataFrame.t CaBaMa.row)
    (blocks : list (Z * Z)) (L : CalLocals) (F : CalFlags)
    : M (CalLocals * CalFlags) :=
  match blocks with
  | [] => ret (L, F)
  | (iCnt, blockNumber) :: rest =>
      let bidx := (iCnt * CaBaMa_nrOfMaxActions)%Z in
      drow <- need (DataFrame.at_label dummyCaBaMaTable bidx)
                   (Py.KeyError "dummyCaBaMaTable") ;;
      let currentStartActionDate := CaBaMa.currentStartActionDate drow in
      (* Date of logistic request *)
      modify (set_repairActionDate (Some currentStartActionDate)) ;;
      (* break the while loop if repairActionDate is greater than
         self.__endOperationDate *)
      if Qltb (endOperationDate inp) currentStartActionDate then
        ret (set_cl_loop 0 L,
             if corrective_maintenance inp then
               mkCalFlags (cf_flagCalcCoBaMa F) (Some false) (Some true)
             else if condition_based_maintenance inp then
               mkCalFlags (Some true) (Some false) (cf_flagCalcUnCoMa F)
             else
               mkCalFlags (cf_flagCalcCoBaMa F) (Some false)
                          (cf_flagCalcUnCoMa F))
      else
        L' <- calendar_block shortid dummyCaBaMaTable iCnt blockNumber
                             currentStartActionDate L ;;
        calendar_blocks shortid dummyCaBaMaTable rest L' F
  end.

Definition get_lcoe_calendar (loop loopValuesForOutput_CaBaMa : Z)
    : M (Z * Z * bool * bool * bool) :=
  s <- get ;;
  let idx := actIdxOfCaBaMa s in
  r <- need (DataFrame.at_label (CaBaMa_eventsTable s) idx)
            (Py.KeyError "CaBaMa_eventsTable") ;;
  let id := CaBaMa.ident r in
  let CT := ComponentType id in
  shortid <- shortid_of (ComponentID id) ;;
  (* find the blocks in CaBaMa *)
  let CaBaMaTableQueryDeviceID :=
    if Py.str_in "device" CT then CT
    else if Py.str_in "subhub" CT then CT else "Array"%string in
  let CaBaMaTableQuerySubSystem :=
    if Py.str_in "device" CT then ComponentSubType id
    else Py.drop_last3 CT in
  let dummyCaBaMaTable :=
    DataFrame.reset_index
      (CaBaMa_query CaBaMaTableQueryDeviceID CaBaMaTableQuerySubSystem id
         (Some (CaBaMa.startActionDate r)) (CaBaMa_eventsTable s)) in
  let blocks := blockNumberList (DataFrame.len dummyCaBaMaTable) in
  ' (L, F) <-
    calendar_blocks shortid dummyCaBaMaTable
      (combine (range 0 (Z.of_nat (List.length blocks))) blocks)
      (mkCalLocals loop loopValuesForOutput_CaBaMa id None None)
      (mkCalFlags None None None) ;;
  flagCalcCoBaMa <- need (cf_flagCalcCoBaMa F)
                         (Py.UnboundLocalError "flagCalcCoBaMa") ;;
  flagCalcCaBaMa <- need (cf_flagCalcCaBaMa F)
                         (Py.UnboundLocalError "flagCalcCaBaMa") ;;
  flagCalcUnCoMa <- need (cf_flagCalcUnCoMa F)
                         (Py.UnboundLocalError "flagCalcUnCoMa") ;;
  ret (cl_loop L, cl_loopValuesForOutput L,
       flagCalcCoBaMa, flagCalcCaBaMa, flagCalcUnCoMa).

(** *** The condition track: [__get_lcoe_condition] *)

(** [l[i]] on a Python list: a negative index counts from the end. *)
Definition py_nth {A} (l : list A) (i : Z) : option A :=
  let n := Z.of_nat (List.length l) in
  if (0 <=? i)%Z then nth_error l (Z.to_nat i)
  else if (0 <=? n + i)%Z then nth_error l (Z.to_nat (n + i))
  else None.

(** The first position of [l] that satisfies [p]. *)
Fixpoint find_index {A} (p : A -> bool) (l : list A) : option Z :=
  match l with
  | [] => None
  | x :: rest =>
      if p x then Some 0%Z
      else option_map Z.succ (find_index p rest)
  end.

Definition CoBaMa_loc_set (l : Z) (f : CoBaMa.row -> CoBaMa.row) : M unit :=
  s <- get ;;
  if DataFrame.has_label (CoBaMa_eventsTable s) l then
    modify (fun s => set_CoBaMa_eventsTable
                       (DataFrame.set_loc (CoBaMa_eventsTable s) l f) s)
  else raise (Py.OutsideModel "CoBaMa_eventsTable.loc").

(** [__switch_to_calendar]: [dummyCaBaMaTable] is the table after its
    [reset_index]; returns [(CaBaMaSolution, dummyCaBaMaEndDate)]. *)
Definition switch_to_calendar (dummyCaBaMaTable : DataFrame.t CaBaMa.row)
    (CID : string) (currentAlarmDate currentEndDate : datetime)
    (totalCostCoBaMa : Q) : M (bool * datetime) :=
  indexDummyCaBaMaTable <-
    need (find_index
            (fun row =>
               Qltb (inject_Z (hours_between
                                 (CaBaMa.currentStartActionDate row)
                                 currentAlarmDate))
                    timeExtensionDeratingCoBaMaHour)
            (DataFrame.rows dummyCaBaMaTable))
         (Py.UnboundLocalError "indexDummyCaBaMaTable") ;;
  if (indexDummyCaBaMaTable =? 0)%Z then
    raise (Py.RuntimeError
             "indexDummyCaBaMaTable is 0, which is bad, apparently.")
  else
  row <- need (DataFrame.at_label dummyCaBaMaTable indexDummyCaBaMaTable)
              (Py.KeyError "dummyCaBaMaTable") ;;
  (* Benefit CoBaMa *)
  let startdate := CaBaMa.currentStartActionDate row in
  let dummyCoBaMaEndDate :=
    if Qle_bool currentEndDate startdate then currentEndDate
    else startdate in
  let dummyCoBaMaTime := hours_between startdate dummyCoBaMaEndDate in
  let timeyears := inject_Z dummyCoBaMaTime / (yearDays * dayHours) in
  devnumber <- shortid_of CID ;;
  devenergy <- need (py_nth (annual_Energy_Production_perD inp) devnumber)
                    Py.IndexError ;;
  let dummyCoBaMaEnergyYield := timeyears * devenergy in
  let dummyCoBaMaMoney :=
    (dummyCoBaMaEnergyYield / 1000) * energy_selling_price inp in
  let dummyCoBaMaBenefit := dummyCoBaMaMoney - totalCostCoBaMa in
  (* Benefit CaBaMa *)
  let dummyCaBaMaEndDate :=
    let d := plus_hours dummyCoBaMaEndDate
                        timeExtensionDeratingCoBaMaHour in
    if Qle_bool startdate d then startdate else d in
  let dummyCaBaMaTime := hours_between startdate dummyCaBaMaEndDate in
  let timeyears := inject_Z dummyCaBaMaTime / (yearDays * dayHours) in
  let dummyCaBaMaEnergyYield :=
    (timeyears * devenergy) * (powerDeratingCoBaMa / 100) in
  let dummyCaBaMaMoney :=
    (dummyCaBaMaEnergyYield / 1000) * energy_selling_price inp in
  let totalCostCaBaMa := CaBaMa.logisticCost row + CaBaMa.omCost row in
  let dummyCaBaMaBenefit := dummyCaBaMaMoney - totalCostCaBaMa in
  ret (Qle_bool dummyCoBaMaBenefit dummyCaBaMaBenefit, dummyCaBaMaEndDate).

(** Lines 3095-3146: the new entry in [self.__CoBaMa_eventsTable]. *)
Definition condition_continuation (r : CoBaMa.row)
    (newLineCurrentStartDate : option datetime) : M unit :=
  let id := CoBaMa.ident r in
  c <- arrayDict_at (ComponentID id) ;;
  series <- need (py_nth (CoBaMa_initOpEventsList c) (indexFM id - 1))
                 Py.IndexError ;;
  index <-
    (match series, newLineCurrentStartDate with
     | [], _ => ret None
     | _ :: _, None => raise Py.TypeError
     | _ :: _, Some start =>
         ret (find_index (fun d => Qltb start d
                                   && Qltb (CoBaMa.currentEndDate r) d)
                         series)
     end) ;;
  match index, newLineCurrentStartDate with
  | Some index, Some newLineCurrentStartDate =>
      s <- get ;;
      let lidx := DataFrame.len (CoBaMa_eventsTable s) in
      let pidx := (lidx - 1)%Z in
      current <- need (DataFrame.iloc (CoBaMa_eventsTable s)
                                      (actIdxOfCoBaMa s)) Py.IndexError ;;
      (* new line for the extension of CoBaMa *)
      modify (fun s => set_CoBaMa_eventsTable
                (DataFrame.ix_set (CoBaMa_eventsTable s) lidx current) s) ;;
      newLineCurrentEndDate <- need (py_nth series index) Py.IndexError ;;
      let hours := newLineCurrentEndDate - newLineCurrentStartDate in
      let shift := hours * (1 - CoBaMa.threshold r) in
      let newLineCurrentAlarmDate :=
        plus_hours newLineCurrentStartDate shift in
      CoBaMa_loc_set pidx
        (CoBaMa.set_currentStartDate newLineCurrentStartDate) ;;
      CoBaMa_loc_set pidx
        (CoBaMa.set_currentEndDate newLineCurrentEndDate) ;;
      CoBaMa_loc_set pidx
        (CoBaMa.set_currentAlarmDate newLineCurrentAlarmDate) ;;
      (* sort of CoBaMa_eventsTable, start index with 0 *)
      modify (fun s => set_CoBaMa_eventsTable
        (DataFrame.reset_index
           (DataFrame.sort CoBaMa.currentAlarmDate
                           (CoBaMa_eventsTable s))) s)
  | _, _ => raise (Py.RuntimeError "index is -1, which is also bad")
  end.

(** Lines 3050-3159: the output row, the continuation and the return.
    [downtimeDeviceList] and [optimal] are local variables that not every
    path assigns; [flagCalcCoBaMa] is assigned on no path that comes
    here. *)
Definition condition_finish (r : CoBaMa.row) (loop lvo : Z)
    (CaBaMaSolution : bool) (newLineCurrentStartDate : option datetime)
    (downtimeDeviceList : option (list string))
    (totalDownTimeHours : Z)
    (optLogisticCostValue omCostValueSpare omCostValue : Q)
    (optimal_local : option Optimal) : M (Z * Z * bool) :=
  let id := CoBaMa.ident r in
  let currentAlarmDate := CoBaMa.currentAlarmDate r in
  ' (loop, lvo) <-
    (if negb CaBaMaSolution
        || (negb (CoBaMa.flagCaBaMa r) && calendar_based_maintenance inp)
     then
       s <- get ;;
       depart <- need (departOpDate s) (Py.AttributeError "replace") ;;
       let valuesForOutput devs :=
         CoBaMa.mkOut (CoBaMa.failureRate r) currentAlarmDate
           currentAlarmDate depart totalDownTimeHours devs id
           (Py.trunc optLogisticCostValue)
           (Py.trunc (omCostValue - omCostValueSpare))
           (Py.trunc omCostValueSpare) in
       modify (fun s => set_CoBaMa_outputEventsTable
         (DataFrame.ix_set (CoBaMa_outputEventsTable s) lvo
                           (Some (valuesForOutput []))) s) ;;
       devs <- need downtimeDeviceList
                    (Py.UnboundLocalError "downtimeDeviceList") ;;
       modify (fun s => set_CoBaMa_outputEventsTable
         (DataFrame.set_loc (CoBaMa_outputEventsTable s) lvo
                            (fun _ => Some (valuesForOutput devs))) s) ;;
       (* loopValuesForOutput *)
       let lvo := (lvo + 1)%Z in
       lg <- om_logistic_now ;;
       match findSolution lg with
       | SolutionFound =>
           (* for environmental team *)
           opt <- need optimal_local (Py.UnboundLocalError "optimal") ;;
           ea <- env_assess_entry currentAlarmDate (FM_ID id) (RA_ID id)
                   (schedule_sea_time opt) ;;
           modify (fun s => set_CoBaMa_dictEnvAssess
                     (dict_put loop ea (CoBaMa_dictEnvAssess s)) s) ;;
           (* calculate the new entry in self.__CoBaMa_eventsTable *)
           condition_continuation r newLineCurrentStartDate ;;
           ret ((loop + 1)%Z, lvo)
       | _ => ret (loop, lvo)
       end
     else ret (loop, lvo)) ;;
  (* increase the index *)
  modify (fun s => set_actIdxOfCoBaMa (actIdxOfCoBaMa s + 1)%Z s) ;;
  flagCalcCoBaMa <- need None (Py.UnboundLocalError "flagCalcCoBaMa") ;;
  ret (loop, lvo, flagCalcCoBaMa).

(** The ledger entries of a device for a deferred repair
    (lines 2878-2908 and 2949-2979); returns [totalDownTimeHours] as last
    assigned. *)
Definition condition_derating_devices (r : CoBaMa.row)
    (breakdown : option (list string)) (enddate dummyCaBaMaEndDate : datetime)
    (totalDownTimeHours : Z) : M Z :=
  let id := CoBaMa.ident r in
  s <- get ;;
  for_fold (dict_keys (arrayDict s)) totalDownTimeHours
    (fun key tdh =>
       selected <-
         (if Py.str_in "device" key then
            b <- need breakdown (Py.UnboundLocalError "breakdown") ;;
            ret (Py.list_in "All" b || Py.list_in key b)
          else ret false) ;;
       if negb selected then ret tdh
       else
         let totalDownTimeHours :=
           hours_between enddate dummyCaBaMaEndDate in
         arrayDict_update key
           (on_CoBaMaDeratingL
              (append_event (CoBaMa.currentStartDate r)
                 (inject_Z totalDownTimeHours) (indexFM id)
                 (ComponentID id))) ;;
         (if Py.str_in "device" (ComponentType id) then ret tt
          else
            arrayDict_update key
              (on_CoBaMaDeratingL (append_costLogistic 0)) ;;
            arrayDict_update key (on_CoBaMaDeratingL (append_costOM 0))) ;;
         ret totalDownTimeHours).

(** Lines 2845-2979: the repair is left to the calendar action. *)
Definition condition_defer (r : CoBaMa.row)
    (dummyCaBaMaTable : DataFrame.t CaBaMa.row)
    (dummyCaBaMaEndDate : datetime) (totalDownTimeHours : Z)
    : M (datetime * Z) :=
  let id := CoBaMa.ident r in
  row0 <- need (DataFrame.at_label dummyCaBaMaTable 0)
               (Py.KeyError "dummyCaBaMaTable") ;;
  let newLineCurrentStartDate := CaBaMa.currentEndActionDate row0 in
  ' (breakdown, tdh) <-
    (if CoBaMa.flagCaBaMa r then
       (* Save the cost of operation *)
       (if String.eqb (belongsTo id) "Array" then
          arrayDict_update (ComponentID id)
            (on_CoBaMaDeratingL (append_costLogistic 0)) ;;
          arrayDict_update (ComponentID id)
            (on_CoBaMaDeratingL (append_costOM 0))
        else if Py.str_in "device" (ComponentType id) then
          c <- arrayDict_at (ComponentType id) ;;
          l <- need (CoBaMaCostDeratingLogistic c)
                    (Py.KeyError "CoBaMaCostDeratingLogistic") ;;
          arrayDict_update (ComponentType id)
            (set_CoBaMaCostDeratingLogistic (Some (l ++ [0]))) ;;
          arrayDict_update (ComponentType id)
            (on_CoBaMaDeratingL (append_costOM 0))
        else ret tt) ;;
       c <- arrayDict_at (ComponentID id) ;;
       let breakdown := Some (Breakdown c) in
       tdh <- condition_derating_devices r breakdown
                newLineCurrentStartDate dummyCaBaMaEndDate
                totalDownTimeHours ;;
       ret (breakdown, tdh)
     else ret (None, totalDownTimeHours)) ;;
  tdh <-
    (if negb (CoBaMa.flagCaBaMa r) && calendar_based_maintenance inp then
       let logisticcost := CaBaMa.logisticCost row0 in
       let omcost := CaBaMa.omCost row0 in
       (if String.eqb (belongsTo id) "Array" then
          arrayDict_update (ComponentID id)
            (on_CoBaMaDeratingL (append_costLogistic logisticcost)) ;;
          arrayDict_update (ComponentID id)
            (on_CoBaMaL (append_costOM omcost)) ;;
          arrayDict_update (ComponentType id)
            (on_CoBaMaDeratingL (append_costLogistic 0)) ;;
          arrayDict_update (ComponentType id)
            (on_CoBaMaDeratingL (append_costOM 0))
        else if Py.str_in "device" (ComponentType id) then
          arrayDict_update (ComponentType id)
            (on_CoBaMaDeratingL (append_costLogistic logisticcost)) ;;
          arrayDict_update (ComponentType id)
            (on_CoBaMaDeratingL (append_costOM omcost))
        else ret tt) ;;
       condition_derating_devices r breakdown newLineCurrentStartDate
         dummyCaBaMaEndDate tdh
     else ret tdh) ;;
  ret (newLineCurrentStartDate, tdh).

(** Lines 2981-3047: the repair is carried out; returns
    [downtimeDeviceList].  [breakdown] is a local variable that only
    [condition_defer] assigns. *)
Definition condition_repair (r : CoBaMa.row) (failureDate : datetime)
    (totalDownTimeHours : Z) (optLogisticCostValue omCostValue : Q)
    : M (list string) :=
  let id := CoBaMa.ident r in
  (* Save the cost of operation *)
  let logisticcost := Py.round optLogisticCostValue 2 in
  let omcost := Py.round omCostValue 2 in
  (if String.eqb (belongsTo id) "Array" then
     arrayDict_update (ComponentID id)
       (on_CoBaMaL (append_costLogistic logisticcost)) ;;
     arrayDict_update (ComponentID id) (on_CoBaMaL (append_costOM omcost))
   else if Py.str_in "device" (ComponentType id) then
     arrayDict_update (ComponentType id)
       (on_CoBaMaL (append_costLogistic logisticcost)) ;;
     arrayDict_update (ComponentType id) (on_CoBaMaL (append_costOM omcost))
   else ret tt) ;;
  (* Save the information about failure and down time in devices *)
  s <- get ;;
  lg <- om_logistic_now ;;
  for_fold (dict_keys (arrayDict s)) []
    (fun key downtimeDeviceList =>
       kc <- arrayDict_at key ;;
       let nowindow := CoBaMaNoWeatherWindow kc in
       selected <-
         (if negb nowindow && Py.str_in "device" key then
            breakdown <- need (@None (list string))
                              (Py.UnboundLocalError "breakdown") ;;
            ret (Py.list_in "All" breakdown || Py.list_in key breakdown)
          else ret false) ;;
       if negb selected then ret downtimeDeviceList
       else
         (if FindSolution_eqb (findSolution lg) NoWeatherWindowFound
             && negb (ignoreWeatherWindow inp) then
            arrayDict_update key (set_CoBaMaNoWeatherWindow true) ;;
            modify (fun s =>
              set_NrOfTurnOutDevices (NrOfTurnOutDevices s + 1)%Z s)
          else ret tt) ;;
         arrayDict_update key
           (on_CoBaMaL (append_event failureDate
              (inject_Z totalDownTimeHours) (indexFM id) (ComponentID id))) ;;
         (if Py.str_in "device" (ComponentType id) then ret tt
          else
            arrayDict_update key (on_CoBaMaL (append_costLogistic 0)) ;;
            arrayDict_update key (on_CoBaMaL (append_costOM 0)) ;;
            arrayDict_update (ComponentID id)
              (set_CoBaMaNoWeatherWindow true)) ;;
         ret (downtimeDeviceList ++ [key])).

Definition get_lcoe_condition (loop loopValuesForOutput_CoBaMa : Z)
    : M (Z * Z * bool) :=
  s <- get ;;
  let idx := actIdxOfCoBaMa s in
  r <- need (DataFrame.at_label (CoBaMa_eventsTable s) idx)
            (Py.KeyError "CoBaMa_eventsTable") ;;
  let id := CoBaMa.ident r in
  let CT := ComponentType id in
  let currentAlarmDate := CoBaMa.currentAlarmDate r in
  let failureDate := currentAlarmDate in
  c <- arrayDict_at (ComponentID id) ;;
  let nowindow := CoBaMaNoWeatherWindow c in
  modify (set_repairActionDate (Some currentAlarmDate)) ;;
  (* simulate or not *)
  let simulateFlag :=
    if (NrOfDevices inp =? NrOfTurnOutDevices s)%Z then false
    else if String.eqb (belongsTo id) "Array" then negb nowindow
    else negb (Py.str_in "device" CT && nowindow) in
  if negb simulateFlag then
    modify (set_actIdxOfCoBaMa (idx + 1)%Z) ;;
    s <- get ;;
    if (actIdxOfCoBaMa s =? DataFrame.len (CoBaMa_eventsTable s))%Z then
      ret (0%Z, loopValuesForOutput_CoBaMa, false)
    else
      flagCalcCoBaMa <- need None (Py.UnboundLocalError "flagCalcCoBaMa") ;;
      ret (loop, loopValuesForOutput_CoBaMa, flagCalcCoBaMa)
  else
  values <- logistic_values id currentAlarmDate duration_maintenance
              PrepTimeCalcCoBaMa ;;
  modify (fun s => set_wp6_outputsForLogistic
    (DataFrame.ix_set (wp6_outputsForLogistic s) 0 (Some values)) s) ;;
  (* Calc logistic functions *)
  calcLogistic ;;
  lg <- om_logistic_now ;;
  if FindSolution_eqb (findSolution lg) NoSolutionsFound
     || (FindSolution_eqb (findSolution lg) NoWeatherWindowFound
         && negb (ignoreWeatherWindow inp))
  then
    (* increase the index *)
    modify (set_actIdxOfCoBaMa (idx + 1)%Z) ;;
    flagCalcCoBaMa <- need None (Py.UnboundLocalError "flagCalcCoBaMa") ;;
    ret (loop, loopValuesForOutput_CoBaMa, flagCalcCoBaMa)
  else
  if ignoreWeatherWindow inp then
    let totalDownTimeHours :=
      hours_between (endOperationDate inp) failureDate in
    modify (set_departOpDate (Some (endOperationDate inp))) ;;
    s <- get ;;
    let newLineCurrentStartDate := endOpDate s in
    devs <- condition_repair r failureDate totalDownTimeHours 0 0 ;;
    condition_finish r loop loopValuesForOutput_CoBaMa false
      newLineCurrentStartDate (Some devs) totalDownTimeHours 0 0 0 None
  else
    let optimal_ := optimal lg in
    let endOp := to_minute (end_dt optimal_) in
    modify (set_endOpDate (Some endOp)) ;;
    modify (set_departOpDate
              (Some (to_minute (dummy_departOpDate optimal_)))) ;;
    (* total optim cost from logistic *)
    let optLogisticCostValue := total_cost optimal_ in
    modify (set_totalSeaTimeHour (schedule_sea_time optimal_)) ;;
    let totalDownTimeHours := hours_between endOp currentAlarmDate in
    ' (omCostValueSpare, omCostValue) <-
      calcCostOfOM (FM_ID id) (compIDWithIndex id) ;;
    s <- get ;;
    let totalCostCoBaMa := optLogisticCostValue + omCostValue in
    (* Is there a calandar based maintenance for this Component ID in
       near future *)
    let flagCaBaMa := CoBaMa.flagCaBaMa r in
    ' (CaBaMaSolution, dummyCaBaMaTable, dummyCaBaMaEndDate) <-
      (if flagCaBaMa || calendar_based_maintenance inp then
         let CaBaMaTableQueryDeviceID :=
           if Py.str_in "device" CT || Py.str_in "subhub" CT then
             if flagCaBaMa then CT else Py.drop_last3 CT
           else "Array"%string in
         let CaBaMaTableQuerySubSystem :=
           if Py.str_in "device" CT then ComponentSubType id
           else Py.drop_last3 CT in
         let dummyCaBaMaTable :=
           CaBaMa_query CaBaMaTableQueryDeviceID CaBaMaTableQuerySubSystem
                        id None (CaBaMa_eventsTable s) in
         (* currently only for device. The components of the array will
            be repaired immediately *)
         if (1 <? DataFrame.len dummyCaBaMaTable)%Z
            && Py.str_in "device" CT then
           let dummyCaBaMaTable := DataFrame.reset_index dummyCaBaMaTable in
           ' (CaBaMaSolution, dummyCaBaMaEndDate) <-
             switch_to_calendar dummyCaBaMaTable (ComponentID id)
               currentAlarmDate (CoBaMa.currentEndDate r) totalCostCoBaMa ;;
           ret (CaBaMaSolution, dummyCaBaMaTable, Some dummyCaBaMaEndDate)
         else ret (false, dummyCaBaMaTable, None)
       else ret (false, [], None)) ;;
    if CaBaMaSolution : bool then
      dummyCaBaMaEndDate <- need dummyCaBaMaEndDate
                              (Py.UnboundLocalError "dummyCaBaMaEndDate") ;;
      ' (newLineCurrentStartDate, totalDownTimeHours) <-
        condition_defer r dummyCaBaMaTable dummyCaBaMaEndDate
                        totalDownTimeHours ;;
      condition_finish r loop loopValuesForOutput_CoBaMa true
        (Some newLineCurrentStartDate) None totalDownTimeHours
        optLogisticCostValue omCostValueSpare omCostValue (Some optimal_)
    else
      devs <- condition_repair r failureDate totalDownTimeHours
                optLogisticCostValue omCostValue ;;
      condition_finish r loop loopValuesForOutput_CoBaMa false
        (Some endOp) (Some devs) totalDownTimeHours
        optLogisticCostValue omCostValueSpare omCostValue (Some optimal_).

(** *** The simulation loop: [__calcLCOE_OfOM] *)

(** The local variables of the loop. *)
Record Loop : Type := mkLoop {
  lp_loop : Z;
  lp_loopValuesForOutput_CoBaMa : Z;
  lp_loopValuesForOutput_CaBaMa : Z;
  lp_loopValuesForOutput_UnCoMa : Z;
  lp_flagCalcUnCoMa : bool;
  lp_flagCalcCaBaMa : bool;
  lp_flagCalcCoBaMa : bool
}.

(** One turn of the [while] loop (lines 2424-2488); [inl] is a turn ended
    by [continue]. *)
Definition calcLCOE_condition (L : Loop) : M (Loop + Loop) :=
  if condition_based_maintenance inp && lp_flagCalcCoBaMa L then
    s <- get ;;
    (* break condition *)
    if (DataFrame.len (CoBaMa_eventsTable s) <=? actIdxOfCoBaMa s)%Z then
      ret (inl (mkLoop (lp_loop L) (lp_loopValuesForOutput_CoBaMa L)
                  (lp_loopValuesForOutput_CaBaMa L)
                  (lp_loopValuesForOutput_UnCoMa L)
                  (lp_flagCalcUnCoMa L) (lp_flagCalcCaBaMa L) false))
    else
      ' (loop, loopValuesForOutput_CoBaMa, flagCalcCoBaMa) <-
        get_lcoe_condition (lp_loop L) (lp_loopValuesForOutput_CoBaMa L) ;;
      ret (inr (mkLoop loop loopValuesForOutput_CoBaMa
                  (lp_loopValuesForOutput_CaBaMa L)
                  (lp_loopValuesForOutput_UnCoMa L)
                  (lp_flagCalcUnCoMa L) (lp_flagCalcCaBaMa L)
                  flagCalcCoBaMa))
  else ret (inr L).

Definition calcLCOE_calendar (L : Loop) : M (Loop + Loop) :=
  if calendar_based_maintenance inp && lp_flagCalcCaBaMa L then
    ' (loop, loopValuesForOutput_CaBaMa, flagCalcCoBaMa, flagCalcCaBaMa,
       flagCalcUnCoMa) <-
      get_lcoe_calendar (lp_loop L) (lp_loopValuesForOutput_CaBaMa L) ;;
    s <- get ;;
    if (actIdxOfCaBaMa s =? DataFrame.len (CaBaMa_eventsTable s))%Z then
      ret (inl (mkLoop 0 (lp_loopValuesForOutput_CoBaMa L)
                  loopValuesForOutput_CaBaMa
                  (lp_loopValuesForOutput_UnCoMa L)
                  (if corrective_maintenance inp then true
                   else flagCalcUnCoMa)
                  false
                  (if corrective_maintenance inp then flagCalcCoBaMa
                   else if condition_based_maintenance inp then true
                   else flagCalcCoBaMa)))
    else
      ret (inr (mkLoop loop (lp_loopValuesForOutput_CoBaMa L)
                  loopValuesForOutput_CaBaMa
                  (lp_loopValuesForOutput_UnCoMa L)
                  flagCalcUnCoMa flagCalcCaBaMa flagCalcCoBaMa))
  else ret (inr L).

Definition calcLCOE_unplanned (L : Loop) : M Loop :=
  if corrective_maintenance inp && lp_flagCalcUnCoMa L then
    ' (loop, loopValuesForOutput_UnCoMa, flagCalcCoBaMa, flagCalcUnCoMa) <-
      get_lcoe_unplanned (lp_loop L) (lp_loopValuesForOutput_UnCoMa L)
                         (lp_flagCalcCoBaMa L) (lp_flagCalcUnCoMa L) ;;
    s <- get ;;
    if (actIdxOfUnCoMa s =? DataFrame.len (UnCoMa_eventsTable s))%Z then
      ret (mkLoop 0 (lp_loopValuesForOutput_CoBaMa L)
             (lp_loopValuesForOutput_CaBaMa L) loopValuesForOutput_UnCoMa
             false (lp_flagCalcCaBaMa L)
             (if condition_based_maintenance inp then true
              else flagCalcCoBaMa))
    else
      ret (mkLoop loop (lp_loopValuesForOutput_CoBaMa L)
             (lp_loopValuesForOutput_CaBaMa L) loopValuesForOutput_UnCoMa
             flagCalcUnCoMa (lp_flagCalcCaBaMa L) flagCalcCoBaMa)
  else ret L.

Definition calcLCOE_turn (L : Loop) : M Loop :=
  (* condition based maintenance *)
  after_condition <- calcLCOE_condition L ;;
  match after_condition with
  | inl L => ret L
  | inr L =>
      (* calandar based maintenance *)
      after_calendar <- calcLCOE_calendar L ;;
      match after_calendar with
      | inl L => ret L
      | inr L =>
          (* unplaned corrective maintenance *)
          calcLCOE_unplanned L
      end
  end.

(** The calculation loop.  [fuel] bounds the number of turns; [None] is
    a loop still running when it is used up. *)
Fixpoint calcLCOE_while (fuel : nat) (L : Loop) : M (option unit) :=
  match fuel with
  | O =>
      if lp_flagCalcUnCoMa L || lp_flagCalcCaBaMa L || lp_flagCalcCoBaMa L
      then ret None else ret (Some tt)
  | S fuel' =>
      if lp_flagCalcUnCoMa L || lp_flagCalcCaBaMa L || lp_flagCalcCoBaMa L
      then L' <- calcLCOE_turn L ;; calcLCOE_while fuel' L'
      else ret (Some tt)
  end.

Definition calcLCOE_OfOM (fuel : nat) : M (option unit) :=
  (* set the index of the tables to zero *)
  modify (set_actIdxOfUnCoMa 0) ;;
  modify (set_actIdxOfCaBaMa 0) ;;
  modify (set_actIdxOfCoBaMa 0) ;;
  (* total action delay, actual action delay *)
  modify (set_totalActionDelayHour 0) ;;
  modify (set_actActionDelayHour 0) ;;
  (* Initialisation of the calculation flags *)
  let flagCalcCaBaMa := calendar_based_maintenance inp in
  let flagCalcUnCoMa :=
    negb (calendar_based_maintenance inp) && corrective_maintenance inp in
  let flagCalcCoBaMa :=
    negb (calendar_based_maintenance inp)
    && negb (corrective_maintenance inp)
    && condition_based_maintenance inp in
  (* calculation loop *)
  calcLCOE_while fuel
    (mkLoop 0 0 0 0 flagCalcUnCoMa flagCalcCaBaMa flagCalcCoBaMa).

(** *** The roll-up: [__postCalculation] *)

Definition Qsum (l : list Q) : Q := fold_left Qplus l 0.

(** [l[i] = v] on a Python list. *)
Definition py_set_nth {A} (l : list A) (i : Z) (v : A) : option (list A) :=
  let n := Z.of_nat (List.length l) in
  let j := if (0 <=? i)%Z then i else (n + i)%Z in
  if ((0 <=? j) && (j <? n))%Z then
    Some (firstn (Z.to_nat j) l ++ v :: skipn (S (Z.to_nat j)) l)
  else None.

(** [a / b] on floats. *)
Definition py_div (a b : Q) : M Q :=
  if Qeq_bool b 0 then raise Py.ZeroDivisionError else ret (a / b).

(** The keys whose cost entries are left out of the OPEX. *)
Definition is_subsystem_key (key : string) : bool :=
  Py.str_in "Hydrodynamic" key || Py.str_in "Pto" key
  || Py.str_in "Control" key || Py.str_in "Support structure" key
  || Py.str_in "Mooring line" key || Py.str_in "Foundation" key
  || Py.str_in "Dynamic cable" key || Py.str_in "Array elec sub-system" key.

(** The cost entries of one component that count for the OPEX. *)
Definition opex_of (arraycomp : ArrayComp) : Q :=
  (if corrective_maintenance inp then
     Qsum (CostOM (UnCoMaL arraycomp))
     + Qsum (CostLogistic (UnCoMaL arraycomp)) else 0)
  + (if condition_based_maintenance inp then
       Qsum (CostOM (CoBaMaL arraycomp))
       + Qsum (CostLogistic (CoBaMaL arraycomp)) else 0)
  + (if calendar_based_maintenance inp then
       Qsum (CostOM (CaBaMaL arraycomp))
       + Qsum (CostLogistic (CaBaMaL arraycomp)) else 0).

(** The down time of one device. *)
Definition downtime_of (arraycomp : ArrayComp) : Q :=
  (if corrective_maintenance inp then
     Qsum (OpEventsDuration (UnCoMaL arraycomp)) else 0)
  + (if condition_based_maintenance inp then
       Qsum (OpEventsDuration (CoBaMaL arraycomp)) else 0)
  + (if calendar_based_maintenance inp then
       Qsum (OpEventsDuration (CaBaMaL arraycomp)) else 0).

Definition set_device_outputs (index : Z) (deviceenergy downtime : Q)
    : M unit :=
  s <- get ;;
  let o := outputsOfWP6 s in
  energies <- need (py_set_nth (annualEnergyOfDevices o) index deviceenergy)
                   Py.IndexError ;;
  modify (fun s =>
    let o := outputsOfWP6 s in
    set_outputsOfWP6
      (mkOutputs (lcoeOfArray o) energies (annualDownTimeOfDevices o)
         (annualEnergyOfArray o) (CapexOfArray o) (annualOpexOfArray o)
         (error o) (env_assess_UnCoMa o) (env_assess_CaBaMa o)
         (env_assess_CoBaMa o) (eventTables_UnCoMa o)
         (eventTables_CoBaMa o) (eventTables_CaBaMa o)) s) ;;
  s <- get ;;
  let o := outputsOfWP6 s in
  downtimes <- need (py_set_nth (annualDownTimeOfDevices o) index downtime)
                    Py.IndexError ;;
  modify (fun s =>
    let o := outputsOfWP6 s in
    set_outputsOfWP6
      (mkOutputs (lcoeOfArray o) (annualEnergyOfDevices o) downtimes
         (annualEnergyOfArray o) (CapexOfArray o) (annualOpexOfArray o)
         (error o) (env_assess_UnCoMa o) (env_assess_CaBaMa o)
         (env_assess_CoBaMa o) (eventTables_UnCoMa o)
         (eventTables_CoBaMa o) (eventTables_CaBaMa o)) s).

(** One turn of the loop over the keys of [self.__arrayDict]
    (lines 4643-4770), on [(dummyOpexAll, dummyEnergyAll)]. *)
Definition postCalculation_entry (key : string) (acc : Q * Q) : M (Q * Q) :=
  let '(dummyOpexAll, dummyEnergyAll) := acc in
  arraycomp <- arrayDict_at key ;;
  (* OPEX of the all components of array and all devices *)
  let dummyOpexAll :=
    if negb (is_subsystem_key key)
    then dummyOpexAll + opex_of arraycomp else dummyOpexAll in
  (* calculation of downtime *)
  if Py.str_in "device" key then
    let dummyDownTime := downtime_of arraycomp in
    arrayDict_update key (set_DownTime dummyDownTime) ;;
    let powerWP2 := AnnualEnergyWP2 arraycomp / (dayHours * yearDays) in
    let deviceOperationTime :=
      operationTimeDay inp * dayHours - dummyDownTime in
    let energyPerDevice := powerWP2 * deviceOperationTime in
    let deviceenergy :=
      if negb (Qeq_bool (operationTimeYear inp) 0)
      then energyPerDevice / operationTimeYear inp else 0 in
    arrayDict_update key (set_AnnualEnergyWP6 deviceenergy) ;;
    piece <- need (Py.split_1 "device" key) Py.IndexError ;;
    n <- need (Py.int piece) Py.ValueError ;;
    let index := (n - 1)%Z in
    let downtime :=
      if negb (Qeq_bool (operationTimeYear inp) 0)
      then Py.round (dummyDownTime / operationTimeYear inp) 0
      else 0 in
    set_device_outputs index (Py.round deviceenergy 0) downtime ;;
    ret (dummyOpexAll, dummyEnergyAll + energyPerDevice)
  else ret (dummyOpexAll, dummyEnergyAll).

(** The loop (lines 4641-4770): returns [(dummyOpexAll, dummyEnergyAll)]. *)
Definition postCalculation_sums : M (Q * Q) :=
  s <- get ;;
  for_fold (dict_keys (arrayDict s)) (0, 0) postCalculation_entry.

Definition postCalculation : M unit :=
  ' (dummyOpexAll, dummyEnergyAll) <- postCalculation_sums ;;
  (* Annual energy of array [Wh] *)
  let arrayenergy :=
    if negb (Qeq_bool (operationTimeYear inp) 0)
    then dummyEnergyAll / operationTimeYear inp else 0 in
  (* Annual OPEX of array [Euro] *)
  let arrayopex :=
    if negb (Qeq_bool (operationTimeYear inp) 0)
    then dummyOpexAll / operationTimeYear inp else 0 in
  s <- get ;;
  let arraycapex := Py.round (CapexOfArray (outputsOfWP6 s)) 1 in
  (* LCOE of array [Euro/kWh] *)
  arraylcoe <-
    (if negb (Py.isclose0 arrayenergy) then
       py_div arrayopex (annualEnergyOfArray (outputsOfWP6 s) / 1000)
     else ret 0) ;;
  (* Round the outcomes *)
  let arrayenergy := Py.round arrayenergy 0 in
  let arrayopex := Py.round arrayopex 2 in
  let arraycapex := Py.round arraycapex 2 in
  let arraylcoe := Py.round arraylcoe 4 in
  modify (fun s =>
    let o := outputsOfWP6 s in
    set_outputsOfWP6
      (mkOutputs arraylcoe (annualEnergyOfDevices o)
         (annualDownTimeOfDevices o) arrayenergy arraycapex arrayopex
         (error o)
         (if corrective_maintenance inp
          then UnCoMa_dictEnvAssess s else env_assess_UnCoMa o)
         (if calendar_based_maintenance inp
          then CaBaMa_dictEnvAssess s else env_assess_CaBaMa o)
         (if condition_based_maintenance inp
          then CoBaMa_dictEnvAssess s else env_assess_CoBaMa o)
         (* for maintenance plans: the tables themselves *)
         (Some Ref_UnCoMa_outputEventsTable)
         (Some Ref_CoBaMa_outputEventsTable)
         (Some Ref_CaBaMa_outputEventsTable)) s).

(** *** The driver: [executeCalc] *)

(** [__initCalc], which asks the reliability module and the array model
    for the tables, and [__initCheck], which asks the logistics module
    for the ports and the feasibility of every action. *)
Variable initCalc : M unit.
Variable initCheck : M unit.

(** [__calcLCOE_OfArray]; [None] is a simulation loop still running when
    [fuel] is used up. *)
Definition calcLCOE_OfArray (fuel : nat) : M (option unit) :=
  (* calculation of costs *)
  done <- calcLCOE_OfOM fuel ;;
  match done with
  | Some _ =>
      (* Calculation after the end of simulation *)
      postCalculation ;; ret (Some tt)
  | None => ret None
  end.

Definition set_error (e : DataFrame.t (option ErrorRow)) (o : Outputs)
    : Outputs :=
  mkOutputs (lcoeOfArray o) (annualEnergyOfDevices o)
    (annualDownTimeOfDevices o) (annualEnergyOfArray o) (CapexOfArray o)
    (annualOpexOfArray o) (Some e) (env_assess_UnCoMa o) (env_assess_CaBaMa o)
    (env_assess_CoBaMa o) (eventTables_UnCoMa o)
    (eventTables_CoBaMa o) (eventTables_CaBaMa o).

(** [self.__errorTable.ix[0] = ['NoError', '', ...]] followed by
    [self.__outputsOfWP6['error [-]'] = self.__errorTable]. *)
Definition report_noError : M unit :=
  modify (fun s => set_errorTable
            (DataFrame.ix_set (errorTable s) 0 (Some noError)) s) ;;
  modify (fun s => set_outputsOfWP6
                     (set_error (errorTable s) (outputsOfWP6 s)) s).

Definition executeCalc (fuel : nat) : M (option Outputs) :=
  (* Initialisation *)
  initCalc ;;
  if integrateSelectPort inp || checkNoSolution inp then
    initCheck ;;
    s <- get ;;
    (if errorFlag s then
       (* error handling *)
       modify (fun s => set_outputsOfWP6
                          (set_error (errorTable s) (outputsOfWP6 s)) s)
     else
       (* noError *)
       report_noError) ;;
    s <- get ;;
    ret (Some (outputsOfWP6 s))
  else
    (* noError *)
    report_noError ;;
    (* calc LCOE of array *)
    done <- calcLCOE_OfArray fuel ;;
    match done with
    | Some _ => s <- get ;; ret (Some (outputsOfWP6 s))
    | None => ret None
    end.

End Scheduler.

(* ===================================================================== *)
(** ** Initialisation: [__initCalc] *)

Section InitCalc.

Variable inp : Inputs.

(** The [while] loop of lines 1541-1568, for one row of
    [self.__eventsTableNoPoisson]: the rows written to
    [self.__CaBaMa_eventsTable].  Each turn takes the product
    [interval * self.__yearDays] in floating point and adds
    [timedelta(days=n_days)] to both dates.  [fuel] bounds the number of
    iterations; [None] is a loop still running when it is used up. *)
Fixpoint calendar_while (fuel : nat) (id : Ident) (belongsToSort : string)
    (interval : float) (startActionDateDummy endActionDateDummy : datetime)
    : Py.exn + option (list CaBaMa.row) :=
  match fuel with
  | O => inr None
  | S fuel' =>
      if Qltb startActionDateDummy (endOperationDate inp) then
        let values :=
          CaBaMa.mk id belongsToSort
            startActionDateDummy endActionDateDummy
            startActionDateDummy endActionDateDummy 0 0 in
        let n_days := PrimFloat.mul interval yearDays_float in
        match Py.timedelta_days n_days with
        | inl e => inl e
        | inr step =>
            match plus_timedelta startActionDateDummy step with
            | inl e => inl e
            | inr startActionDateDummy' =>
                match plus_timedelta endActionDateDummy step with
                | inl e => inl e
                | inr endActionDateDummy' =>
                    match calendar_while fuel' id belongsToSort interval
                            startActionDateDummy' endActionDateDummy' with
                    | inl e => inl e
                    | inr rows => inr (option_map (cons values) rows)
                    end
                end
            end
        end
      else inr (Some [])
  end.

(** Lines 1506-1568: [(flagCaBaMa, rows)] for one row of
    [self.__eventsTableNoPoisson] when calendar based maintenance is
    enabled.  A component missing from [self.__Component] is a
    [KeyError]. *)
Definition calendar_rows (fuel : nat) (np : NoPoissonRow)
    : Py.exn + option (bool * list CaBaMa.row) :=
  let id := np_ident np in
  let belongsToSort :=
    if Py.str_in "device" (belongsTo id) then "device"%string
    else belongsTo id in
  match Component inp (ComponentID id) with
  | None => inl (Py.KeyError (ComponentID id))
  | Some comp =>
      let interval := interval_calendar_based_maintenance comp in
      match start_date_calendar_based_maintenance comp,
            end_date_calendar_based_maintenance comp,
            PrimFloat.is_nan interval with
      | Some startActionDate, Some endActionDate, false =>
          (* flagDummy == False *)
          if Qle_bool (startOperationDate inp) startActionDate
             && Qle_bool startActionDate (endOperationDate inp) then
            match calendar_while fuel id belongsToSort interval
                                 startActionDate endActionDate with
            | inl e => inl e
            | inr rows => inr (option_map (pair true) rows)
            end
          else inr (Some (true, []))
      | _, _, _ =>
          (* flagDummy == True *)
          inr (Some (false, []))
      end
  end.

(** Lines 1660-1669: the condition table sorted by alarm date, its index
    reset. *)
Definition sort_condition (CoBaMa_eventsTable : DataFrame.t CoBaMa.row)
    : DataFrame.t CoBaMa.row :=
  if condition_based_maintenance inp
     && (0 <? DataFrame.len CoBaMa_eventsTable)%Z then
    DataFrame.reset_index
      (DataFrame.sort CoBaMa.currentAlarmDate CoBaMa_eventsTable)
  else CoBaMa_eventsTable.

(** Lines 1692-1704, one turn of the loop: the rows of the corrective
    table that have the identity of the row of the condition table are
    dropped. *)
Definition drop_matching (CoBaMa_row : CoBaMa.row)
    (UnCoMa_eventsTable : DataFrame.t UnCoMa.row) : DataFrame.t UnCoMa.row :=
  let tempdf :=
    DataFrame.select
      (fun u => ident_eqb (UnCoMa.ident u) (CoBaMa.ident CoBaMa_row))
      UnCoMa_eventsTable in
  DataFrame.drop (DataFrame.index tempdf) UnCoMa_eventsTable.

(** Lines 1677-1708.  The rows of the condition table are read by the
    labels [0 .. len-1]; a label that is missing is a [KeyError]. *)
Definition remove_condition_entries
    (CoBaMa_eventsTable : DataFrame.t CoBaMa.row)
    (UnCoMa_eventsTable : DataFrame.t UnCoMa.row)
    : Py.exn + DataFrame.t UnCoMa.row :=
  if condition_based_maintenance inp
     && (0 <? DataFrame.len CoBaMa_eventsTable)%Z then
    match
      fold_left
        (fun acc iCnt =>
           match acc with
           | inl e => inl e
           | inr df =>
               match DataFrame.at_label CoBaMa_eventsTable iCnt with
               | None => inl (Py.KeyError "CoBaMa_eventsTable")
               | Some c => inr (drop_matching c df)
               end
           end)
        (range 0 (DataFrame.len CoBaMa_eventsTable))
        (inr UnCoMa_eventsTable)
    with
    | inl e => inl e
    | inr df => inr (DataFrame.reset_index df)
    end
  else inr UnCoMa_eventsTable.

(** Lines 1710-1750: the request date of a corrective row. *)
Definition shift_repairActionEvents (u : UnCoMa.row)
    : Py.exn + UnCoMa.row :=
  let id := UnCoMa.ident u in
  let cid := compIDWithIndex id in
  let shifted (shiftHoursDummy1 shiftHoursDummy2 : Q) :=
    let shiftHours :=
      if Qle_bool shiftHoursDummy2 shiftHoursDummy1
      then shiftHoursDummy1 else shiftHoursDummy2 in
    UnCoMa.set_repairActionEvents
      (plus_hours (UnCoMa.failureEvents u) shiftHours) u in
  if negb (Py.str_in "Insp" (FM_ID id)) then
    match Repair_Action inp cid with
    | Some a => inr (shifted (delay_spare a)
                             (delay_crew a + delay_organisation a))
    | None => inl (Py.KeyError "Repair_Action")
    end
  else
    match Inspection inp cid with
    | Some a => inr (shifted 0 (delay_crew a + delay_organisation a))
    | None => inl (Py.KeyError "Inspection")
    end.

(** The record that lines 1726-1744 read for a row with this identity is
    in [self.__Repair_Action], respectively [self.__Inspection]. *)
Definition has_delays (id : Ident) : bool :=
  if negb (Py.str_in "Insp" (FM_ID id)) then
    match Repair_Action inp (compIDWithIndex id) with
    | Some _ => true
    | None => false
    end
  else
    match Inspection inp (compIDWithIndex id) with
    | Some _ => true
    | None => false
    end.

(** One turn of the loop of lines 1711-1750. *)
Definition shift_step (acc : Py.exn + DataFrame.t UnCoMa.row) (iCnt : Z)
    : Py.exn + DataFrame.t UnCoMa.row :=
  match acc with
  | inl e => inl e
  | inr df =>
      match DataFrame.at_label df iCnt with
      | None => inl (Py.KeyError "UnCoMa_eventsTable")
      | Some u =>
          match shift_repairActionEvents u with
          | inl e => inl e
          | inr u' =>
              inr (DataFrame.set_loc df iCnt
                     (UnCoMa.set_repairActionEvents
                        (UnCoMa.repairActionEvents u')))
          end
      end
  end.

Definition shift_all (df : DataFrame.t UnCoMa.row)
    : Py.exn + DataFrame.t UnCoMa.row :=
  fold_left shift_step (range 0 (DataFrame.len df)) (inr df).

(** Lines 1660-1758: the condition table is sorted, the corrective table
    is coordinated with it, its request dates are set and it is sorted by
    them.  Returns both tables. *)
Definition coordinate (CoBaMa_eventsTable : DataFrame.t CoBaMa.row)
    (UnCoMa_eventsTable : DataFrame.t UnCoMa.row)
    : Py.exn + (DataFrame.t CoBaMa.row * DataFrame.t UnCoMa.row) :=
  let CoBaMa_eventsTable := sort_condition CoBaMa_eventsTable in
  if corrective_maintenance inp
     && (0 <? DataFrame.len UnCoMa_eventsTable)%Z then
    match remove_condition_entries CoBaMa_eventsTable
                                   UnCoMa_eventsTable with
    | inl e => inl e
    | inr df =>
        match shift_all df with
        | inl e => inl e
        | inr df =>
            inr (CoBaMa_eventsTable,
                 DataFrame.reset_index
                   (DataFrame.sort UnCoMa.repairActionEvents df))
        end
    end
  else inr (CoBaMa_eventsTable, UnCoMa_eventsTable).

End InitCalc.

(* ===================================================================== *)
(** ** [__changeOfLabels]: the labels of the columns *)

(** [str(n)] on an [int]. *)
Definition py_str (n : Z) : string := NilZero.string_of_int (Z.to_int n).

(** The cells ['Component_ID'] and ['FM_ID'] of the columns of
    [self.__Failure_Mode], [self.__Repair_Action] or [self.__Inspection],
    in column order. *)
Definition Header : Type := list (string * string).

(** Lines 1270-1282: the label of the next column of
    [self.__Failure_Mode], after the labels [newColumns]. *)
Definition next_column (newColumns : list string) (id : string) : string :=
  if (Z.of_nat (List.length newColumns) =? 0)%Z then (id ++ "_1")%string
  else
    let index :=
      fold_left
        (fun index column =>
           (* string.rsplit(newColumns[iCnt1], '_')[0] *)
           if String.eqb id (Py.upto "_" column) then (index + 1)%Z
           else index)
        newColumns 0%Z in
    if (index =? 0)%Z then (id ++ "_1")%string
    else (id ++ "_" ++ py_str (index + 1))%string.

(** [idListX[iCnt1] == idList[iCnt] and fmListX[iCnt1] == fmList[iCnt]] *)
Definition same_cells (id fm : string) (cells : string * string) : bool :=
  String.eqb (fst cells) id && String.eqb (snd cells) fm.

(** Lines 1284-1295 and 1297-1308: the first column of [header] with the
    cells [(id, fm)] gets the label [newColumns[-1]]. *)
Definition label_first_match (header : Header) (id fm : string)
    (newColumns newColumnsX : list string) : Py.exn + list string :=
  match find_index (same_cells id fm) header with
  | None => inr newColumnsX
  | Some indexList =>
      match py_nth newColumns (-1) with
      | None => inl Py.IndexError
      | Some label =>
          match py_set_nth newColumnsX indexList label with
          | None => inl Py.IndexError
          | Some newColumnsX => inr newColumnsX
          end
      end
  end.

(** One turn of the loop of lines 1269-1308, on
    [(newColumns, newColumnsRA, newColumnsInsp)]. *)
Definition changeOfLabels_turn (RA Insp : Header)
    (acc : Py.exn + (list string * list string * list string))
    (cells : string * string)
    : Py.exn + (list string * list string * list string) :=
  match acc with
  | inl e => inl e
  | inr (newColumns, newColumnsRA, newColumnsInsp) =>
      let '(id, fm) := cells in
      let newColumns := newColumns ++ [next_column newColumns id] in
      match label_first_match RA id fm newColumns newColumnsRA with
      | inl e => inl e
      | inr newColumnsRA =>
          match label_first_match Insp id fm newColumns newColumnsInsp with
          | inl e => inl e
          | inr newColumnsInsp =>
              inr (newColumns, newColumnsRA, newColumnsInsp)
          end
      end
  end.

(** Lines 1246-1308 of [__changeOfLabels]: the new labels
    [(newColumns, newColumnsRA, newColumnsInsp)] of the columns of the
    failure-mode, the repair-action and the inspection table. *)
Definition changeOfLabels (FM RA Insp : Header)
    : Py.exn + (list string * list string * list string) :=
  fold_left (changeOfLabels_turn RA Insp) FM
    (inr ([], repeat "dummy"%string (List.length RA),
          repeat "dummy"%string (List.length Insp))).

(* ===================================================================== *)
(** ** [__init__]: the result record *)

(** Lines 853-868: [self.__outputsOfWP6['CapexOfArray [Euro]']].  [CAPEX]
    holds the cells ['CAPEX_condition_based_maintenance'] of the columns
    of [self.__Failure_Mode], in column order; [None] is [nan]. *)
Definition init_CapexOfArray (inp : Inputs) (CAPEX : list (option Q)) : Q :=
  if condition_based_maintenance inp then
    fold_left
      (fun CapexOfArray cell =>
         match cell with
         | Some capex_condition =>
             if Qltb 0 capex_condition
             then CapexOfArray + capex_condition else CapexOfArray
         | None => CapexOfArray
         end)
      CAPEX 0
  else 0.

(** Lines 825-878: [self.__outputsOfWP6] as [__init__] leaves it. *)
Definition init_outputsOfWP6 (inp : Inputs) (CAPEX : list (option Q))
    : Outputs :=
  mkOutputs 0
    (map (fun _ => 0) (range 0 (NrOfDevices inp)))
    (map (fun _ => 0) (range 0 (NrOfDevices inp)))
    0 (init_CapexOfArray inp CAPEX) 0 None [] [] [] None None None.

(* ===================================================================== *)
(** * Properties *)

(** ** Dates *)

(** The months of 1970-01-01, -01-31, -02-01, -02-28, -03-01, -12-31, of
    1971-01-01, 1972-02-29, 1972-03-01, 1969-12-31 and of 2017-01-01,
    2017-02-28, 2017-03-01. *)
Example month_of_day_samples :
  map Py.month_of_day
      [0; 30; 31; 58; 59; 364; 365; 789; 790; -1; 17167; 17225; 17226]%Z
  = [1; 1; 2; 2; 3; 12; 1; 2; 3; 12; 1; 2; 3]%Z.
Proof. reflexivity. Qed.

(** ** Data frames *)

Section FrameFacts.
Variable R : Type.
Implicit Types df : DataFrame.t R.

Lemma rows_reset_index df :
  DataFrame.rows (DataFrame.reset_index df) = DataFrame.rows df.
Proof.
  unfold DataFrame.rows, DataFrame.reset_index.
  assert (H : forall (l1 : list Z) (l2 : list R),
             List.length l1 = List.length l2 ->
             map snd (combine l1 l2) = l2).
  { induction l1 as [|a l1 IH]; intros [|b l2] Hl; simpl in *;
      try discriminate; try reflexivity.
    f_equal. apply IH. congruence. }
  apply H. now rewrite !length_map, length_seq.
Qed.

Lemma length_reset_index df :
  List.length (DataFrame.reset_index df) = List.length df.
Proof.
  unfold DataFrame.reset_index.
  rewrite length_combine, !length_map, length_seq. apply Nat.min_id.
Qed.

Lemma index_reset_index df :
  DataFrame.index (DataFrame.reset_index df)
  = map Z.of_nat (seq 0 (List.length (DataFrame.reset_index df))).
Proof.
  rewrite length_reset_index.
  unfold DataFrame.index, DataFrame.reset_index.
  assert (H : forall (l1 : list Z) (l2 : list R),
             List.length l1 = List.length l2 ->
             map fst (combine l1 l2) = l1).
  { induction l1 as [|a l1 IH]; intros [|b l2] Hl; simpl in *;
      try discriminate; try reflexivity.
    f_equal. apply IH. congruence. }
  apply H. now rewrite !length_map, length_seq.
Qed.

Lemma in_rows_drop labels df r :
  In r (DataFrame.rows (DataFrame.drop labels df)) ->
  In r (DataFrame.rows df).
Proof.
  unfold DataFrame.rows, DataFrame.drop. rewrite !in_map_iff.
  intros [x [Hx Hin]]. exists x. split; [exact Hx|].
  apply filter_In in Hin. tauto.
Qed.

(** Dropping the labels of a selection leaves no selected row. *)
Lemma drop_select (p : R -> bool) df r :
  In r (DataFrame.rows
          (DataFrame.drop (DataFrame.index (DataFrame.select p df)) df)) ->
  p r = false.
Proof.
  unfold DataFrame.rows, DataFrame.drop, DataFrame.index, DataFrame.select.
  rewrite in_map_iff. intros [[l x] [Hx Hin]]. simpl in Hx. subst x.
  apply filter_In in Hin. destruct Hin as [Hin Hkeep]. simpl in Hkeep.
  destruct (p r) eqn:Hp; [|reflexivity].
  exfalso. apply negb_true_iff in Hkeep.
  assert (Hex : existsb (Z.eqb l)
                  (map fst (filter (fun lr => p (snd lr)) df)) = true).
  { apply existsb_exists. exists l. split; [|apply Z.eqb_refl].
    apply in_map_iff. exists (l, r). split; [reflexivity|].
    apply filter_In. split; [exact Hin|exact Hp]. }
  congruence.
Qed.

Lemma insert_by_perm (key : R -> Q) x df :
  Permutation (DataFrame.insert_by key x df) (x :: df).
Proof.
  induction df as [|y rest IH]; simpl.
  - apply Permutation_refl.
  - destruct (Qle_bool (key (snd x)) (key (snd y))).
    + apply Permutation_refl.
    + eapply perm_trans; [apply perm_skip, IH | apply perm_swap].
Qed.

Lemma sort_perm (key : R -> Q) df :
  Permutation (DataFrame.sort key df) df.
Proof.
  induction df as [|x rest IH]; simpl.
  - apply perm_nil.
  - eapply perm_trans; [apply insert_by_perm | apply perm_skip, IH].
Qed.

Definition key_le (key : R -> Q) (a b : Z * R) : Prop :=
  key (snd a) <= key (snd b).

Lemma insert_by_sorted (key : R -> Q) x df :
  Sorted (key_le key) df -> Sorted (key_le key) (DataFrame.insert_by key x df).
Proof.
  induction df as [|y rest IH]; simpl; intro Hs.
  - repeat constructor.
  - destruct (Qle_bool (key (snd x)) (key (snd y))) eqn:Hle.
    + constructor; [exact Hs|]. constructor. apply Qle_bool_iff, Hle.
    + inversion Hs as [|? ? Hrest Hhd]; subst.
      constructor; [apply IH, Hrest|].
      assert (Hyx : key (snd y) <= key (snd x)).
      { apply Qlt_le_weak, Qnot_le_lt. intro H.
        apply Qle_bool_iff in H. congruence. }
      destruct rest as [|z rest']; simpl.
      * constructor. exact Hyx.
      * destruct (Qle_bool (key (snd x)) (key (snd z))).
        -- constructor. exact Hyx.
        -- inversion Hhd; subst. constructor. assumption.
Qed.

Lemma sort_sorted (key : R -> Q) df :
  Sorted (key_le key) (DataFrame.sort key df).
Proof.
  induction df as [|x rest IH]; simpl.
  - constructor.
  - apply insert_by_sorted, IH.
Qed.

End FrameFacts.

Lemma range_0 (n : nat) : range 0 (Z.of_nat n) = map Z.of_nat (seq 0 n).
Proof.
  unfold range. rewrite Z.sub_0_r, Nat2Z.id. apply map_ext. intro k. lia.
Qed.

Section LabelFacts.
Variable R : Type.
Implicit Types df : DataFrame.t R.

Lemma at_label_set_loc df l (f : R -> R) l' :
  DataFrame.at_label (DataFrame.set_loc df l f) l'
  = if (l =? l')%Z then option_map f (DataFrame.at_label df l')
    else DataFrame.at_label df l'.
Proof.
  induction df as [|[l0 r0] rest IH]; simpl.
  - now destruct (l =? l')%Z.
  - destruct (l0 =? l)%Z eqn:E1; simpl.
    + apply Z.eqb_eq in E1. subst l0.
      destruct (l =? l')%Z eqn:E2; [reflexivity|]. exact IH.
    + destruct (l0 =? l')%Z eqn:E2.
      * destruct (l =? l')%Z eqn:E3; [|reflexivity].
        apply Z.eqb_eq in E2, E3. subst.
        rewrite Z.eqb_refl in E1. discriminate.
      * exact IH.
Qed.

Lemma has_label_set_loc df l (f : R -> R) l' :
  DataFrame.has_label (DataFrame.set_loc df l f) l'
  = DataFrame.has_label df l'.
Proof.
  unfold DataFrame.has_label, DataFrame.set_loc.
  induction df as [|[l0 r0] rest IH]; simpl; [reflexivity|].
  rewrite IH. now destruct (l0 =? l)%Z.
Qed.

Lemma has_label_index df l :
  In l (DataFrame.index df) -> DataFrame.has_label df l = true.
Proof.
  unfold DataFrame.index, DataFrame.has_label. intro H.
  apply in_map_iff in H. destruct H as [lr [<- Hin]].
  apply existsb_exists. exists lr. split; [exact Hin|apply Z.eqb_refl].
Qed.

(** A label of the frame gives a row of the frame. *)
Lemma has_label_at df l :
  DataFrame.has_label df l = true ->
  exists r, DataFrame.at_label df l = Some r /\ In r (DataFrame.rows df).
Proof.
  unfold DataFrame.has_label, DataFrame.rows.
  induction df as [|[l0 r0] rest IH]; simpl; intro H; [discriminate|].
  destruct (l0 =? l)%Z.
  - exists r0. split; [reflexivity|now left].
  - destruct (IH H) as [r [Hr Hin]]. exists r. split; [exact Hr|now right].
Qed.

(** After [reset_index] the label [j] is the row at position [j]. *)
Lemma at_label_combine_seq (l : list R) : forall k j,
  DataFrame.at_label (combine (map Z.of_nat (seq k (List.length l))) l)
                     (Z.of_nat (k + j))
  = nth_error l j.
Proof.
  induction l as [|a l IH]; intros k j; simpl.
  - now destruct j.
  - destruct j as [|j].
    + rewrite Nat.add_0_r, Z.eqb_refl. reflexivity.
    + replace (Z.of_nat k =? Z.of_nat (k + S j))%Z with false
        by (symmetry; apply Z.eqb_neq; lia).
      replace (k + S j)%nat with (S k + j)%nat by lia. apply IH.
Qed.

Lemma at_label_reset_index df j :
  DataFrame.at_label (DataFrame.reset_index df) (Z.of_nat j)
  = nth_error (DataFrame.rows df) j.
Proof.
  unfold DataFrame.reset_index, DataFrame.rows.
  rewrite <- (length_map snd df).
  apply (at_label_combine_seq (map snd df) 0 j).
Qed.

Lemma labels_of_positions (T : DataFrame.t R) (l : list R) : forall k,
  (forall j, DataFrame.at_label T (Z.of_nat (k + j)) = nth_error l j) ->
  Forall2 (fun i r => DataFrame.at_label T i = Some r)
          (map Z.of_nat (seq k (List.length l))) l.
Proof.
  induction l as [|a l IH]; intros k H; simpl; constructor.
  - specialize (H 0%nat). rewrite Nat.add_0_r in H. exact H.
  - apply IH. intro j.
    replace (S k + j)%nat with (k + S j)%nat by lia. apply (H (S j)).
Qed.

(** Reading a frame by the labels [0 .. len-1] after [reset_index] reads
    its rows in order. *)
Lemma labels_reset_index df :
  Forall2 (fun i r => DataFrame.at_label (DataFrame.reset_index df) i
                      = Some r)
          (range 0 (DataFrame.len (DataFrame.reset_index df)))
          (DataFrame.rows df).
Proof.
  unfold DataFrame.len. rewrite range_0, length_reset_index.
  replace (List.length df) with (List.length (DataFrame.rows df))
    by apply length_map.
  apply labels_of_positions. intro j. apply at_label_reset_index.
Qed.

Lemma rows_sort (key : R -> Q) df :
  Permutation (DataFrame.rows (DataFrame.sort key df)) (DataFrame.rows df).
Proof. apply Permutation_map, sort_perm. Qed.

End LabelFacts.

Section UniqueLabels.
Variable R : Type.
Implicit Types df : DataFrame.t R.

Lemma index_set_loc df l (f : R -> R) :
  DataFrame.index (DataFrame.set_loc df l f) = DataFrame.index df.
Proof.
  unfold DataFrame.index, DataFrame.set_loc. rewrite map_map.
  apply map_ext. intros [l0 r0]. simpl. now destruct (l0 =? l)%Z.
Qed.

Lemma in_set_loc_other df l (f : R -> R) l' r :
  l' <> l -> In (l', r) df -> In (l', r) (DataFrame.set_loc df l f).
Proof.
  intros Hne Hin. unfold DataFrame.set_loc. apply in_map_iff.
  exists (l', r). split; [|exact Hin]. simpl.
  now replace (l' =? l)%Z with false by (symmetry; apply Z.eqb_neq; lia).
Qed.

(** With unique labels, the row read at a label is the only one there. *)
Lemma at_label_unique df l r r' :
  NoDup (DataFrame.index df) ->
  DataFrame.at_label df l = Some r -> In (l, r') df -> r' = r.
Proof.
  unfold DataFrame.index.
  induction df as [|[l0 r0] rest IH]; simpl; intros Hnd Hat Hin;
    [contradiction|].
  inversion Hnd as [|? ? Hnotin Hnd']; subst.
  destruct (l0 =? l)%Z eqn:E.
  - apply Z.eqb_eq in E. subst l0.
    destruct Hin as [Heq|Hin]; [congruence|].
    exfalso. apply Hnotin. apply in_map_iff. now exists (l, r').
  - destruct Hin as [Heq|Hin].
    + inversion Heq; subst. rewrite Z.eqb_refl in E. discriminate.
    + now apply IH.
Qed.

End UniqueLabels.

(** ** Identities *)

Lemma ident_eqb_eq (a b : Ident) : ident_eqb a b = true <-> a = b.
Proof.
  unfold ident_eqb. split.
  - intro H. repeat (apply andb_true_iff in H; destruct H as [H ?]).
    destruct a, b; simpl in *.
    repeat match goal with
           | E : String.eqb _ _ = true |- _ => apply String.eqb_eq in E
           | E : Z.eqb _ _ = true |- _ => apply Z.eqb_eq in E
           end.
    subst. reflexivity.
  - intros <-. rewrite !String.eqb_refl, Z.eqb_refl. reflexivity.
Qed.

(** ** Coordination of the corrective and the condition table (C3) *)

Section Coordination.
Variable inp : Inputs.

Lemma drop_matching_incl c df u :
  In u (DataFrame.rows (drop_matching c df)) -> In u (DataFrame.rows df).
Proof. apply in_rows_drop. Qed.

Lemma drop_matching_clears c df u :
  In u (DataFrame.rows (drop_matching c df)) ->
  ident_eqb (UnCoMa.ident u) (CoBaMa.ident c) = false.
Proof.
  unfold drop_matching. intro H.
  apply (drop_select
           (fun u => ident_eqb (UnCoMa.ident u) (CoBaMa.ident c)) _ _ H).
Qed.

Lemma fold_drop_matching_incl cs : forall df u,
  In u (DataFrame.rows (fold_left (fun df c => drop_matching c df) cs df)) ->
  In u (DataFrame.rows df).
Proof.
  induction cs as [|c cs IH]; simpl; intros df u H; [exact H|].
  apply (drop_matching_incl c), IH, H.
Qed.

Lemma fold_drop_matching_clears cs : forall df c u,
  In c cs ->
  In u (DataFrame.rows (fold_left (fun df c => drop_matching c df) cs df)) ->
  ident_eqb (UnCoMa.ident u) (CoBaMa.ident c) = false.
Proof.
  induction cs as [|c0 cs IH]; simpl; intros df c u Hc Hu; [contradiction|].
  destruct Hc as [<-|Hc].
  - apply fold_drop_matching_incl in Hu.
    apply (drop_matching_clears _ _ _ Hu).
  - apply (IH _ _ _ Hc Hu).
Qed.

(** The loop of lines 1680-1704 over labels that give the rows [cs]. *)
Lemma remove_by_labels (T : DataFrame.t CoBaMa.row) labels cs :
  Forall2 (fun i c => DataFrame.at_label T i = Some c) labels cs ->
  forall df,
    fold_left
      (fun acc iCnt =>
         match acc with
         | inl e => inl e
         | inr df =>
             match DataFrame.at_label T iCnt with
             | None => inl (Py.KeyError "CoBaMa_eventsTable")
             | Some c => inr (drop_matching c df)
             end
         end) labels (inr df)
    = inr (fold_left (fun df c => drop_matching c df) cs df).
Proof.
  induction 1 as [|i c labels cs Hi _ IH]; intro df; simpl.
  - reflexivity.
  - rewrite Hi. apply IH.
Qed.

(** The identities of the rows, in row order. *)
Definition idents (df : DataFrame.t UnCoMa.row) : list Ident :=
  map UnCoMa.ident (DataFrame.rows df).

Lemma idents_set_repairActionEvents df l d :
  idents (DataFrame.set_loc df l (UnCoMa.set_repairActionEvents d))
  = idents df.
Proof.
  unfold idents, DataFrame.rows, DataFrame.set_loc.
  rewrite !map_map. apply map_ext. intros [l0 r0]. simpl.
  now destruct (l0 =? l)%Z.
Qed.

Lemma shift_repairActionEvents_ok u :
  has_delays inp (UnCoMa.ident u) = true ->
  exists u', shift_repairActionEvents inp u = inr u'.
Proof.
  unfold has_delays, shift_repairActionEvents.
  destruct (negb (Py.str_in "Insp" (FM_ID (UnCoMa.ident u)))).
  - destruct (Repair_Action inp (compIDWithIndex (UnCoMa.ident u)));
      [eauto|discriminate].
  - destruct (Inspection inp (compIDWithIndex (UnCoMa.ident u)));
      [eauto|discriminate].
Qed.

(** The loop of lines 1711-1750 ends without error when its labels are in
    the table and the records it reads exist; it keeps the identities. *)
Lemma shift_steps_ok labels : forall df,
  (forall i, In i labels -> DataFrame.has_label df i = true) ->
  (forall id, In id (idents df) -> has_delays inp id = true) ->
  exists df', fold_left (shift_step inp) labels (inr df) = inr df'
              /\ idents df' = idents df.
Proof.
  induction labels as [|i labels IH]; intros df Hl Hd; simpl.
  - exists df. split; reflexivity.
  - destruct (has_label_at df i (Hl i (or_introl eq_refl)))
      as [u [Hu Hin]].
    rewrite Hu.
    destruct (shift_repairActionEvents_ok u) as [u' Hu'].
    { apply Hd. unfold idents. apply in_map, Hin. }
    rewrite Hu'.
    destruct (IH (DataFrame.set_loc df i
                    (UnCoMa.set_repairActionEvents
                       (UnCoMa.repairActionEvents u'))))
      as [df' [Hf Hi]].
    + intros j Hj. rewrite has_label_set_loc. apply Hl. now right.
    + intros id Hid. rewrite idents_set_repairActionEvents in Hid.
      apply Hd, Hid.
    + exists df'. split; [exact Hf|].
      rewrite Hi. apply idents_set_repairActionEvents.
Qed.

Lemma shift_steps_stuck labels e :
  fold_left (shift_step inp) labels (inl e) = inl e.
Proof. induction labels as [|i labels IH]; [reflexivity|exact IH]. Qed.

(** Whenever the loop of lines 1711-1750 ends without error, it has kept
    the identities. *)
Lemma shift_steps_idents labels : forall df df',
  fold_left (shift_step inp) labels (inr df) = inr df' ->
  idents df' = idents df.
Proof.
  induction labels as [|i labels IH]; intros df df' Hrun; simpl in Hrun.
  - now inversion Hrun.
  - destruct (DataFrame.at_label df i) as [u|];
      [|rewrite shift_steps_stuck in Hrun; discriminate].
    destruct (shift_repairActionEvents inp u) as [e|u'];
      [rewrite shift_steps_stuck in Hrun; discriminate|].
    rewrite (@IH _ _ Hrun). apply idents_set_repairActionEvents.
Qed.

Lemma sort_condition_rows T :
  Permutation (DataFrame.rows (sort_condition inp T)) (DataFrame.rows T).
Proof.
  unfold sort_condition.
  destruct (condition_based_maintenance inp
            && (0 <? DataFrame.len T)%Z); [|apply Permutation_refl].
  rewrite rows_reset_index. apply rows_sort.
Qed.

(** The removal (lines 1677-1708) on a condition table as
    [sort_condition] leaves it. *)
Lemma remove_condition_entries_clears T U U1 c u :
  condition_based_maintenance inp = true ->
  remove_condition_entries inp (sort_condition inp T) U = inr U1 ->
  In c (DataFrame.rows (sort_condition inp T)) ->
  In u (DataFrame.rows U1) ->
  In u (DataFrame.rows U)
  /\ ident_eqb (UnCoMa.ident u) (CoBaMa.ident c) = false.
Proof.
  intros Hcond Hrem Hc Hu.
  destruct (0 <? DataFrame.len T)%Z eqn:HT.
  - assert (Hs : sort_condition inp T
                 = DataFrame.reset_index
                     (DataFrame.sort CoBaMa.currentAlarmDate T)).
    { unfold sort_condition. now rewrite Hcond, HT. }
    rewrite Hs in Hrem, Hc. clear Hs.
    set (S := DataFrame.sort CoBaMa.currentAlarmDate T) in *.
    unfold remove_condition_entries in Hrem. rewrite Hcond in Hrem.
    assert (Hl : (0 <? DataFrame.len (DataFrame.reset_index S))%Z = true).
    { apply Z.ltb_lt. apply Z.ltb_lt in HT. unfold DataFrame.len in *.
      rewrite length_reset_index.
      unfold S. now rewrite (Permutation_length (sort_perm _ _)). }
    rewrite Hl in Hrem. cbn [andb] in Hrem.
    rewrite (@remove_by_labels _ _ _ (labels_reset_index S)) in Hrem.
    inversion Hrem; subst U1. clear Hrem.
    rewrite rows_reset_index in Hc, Hu. split.
    + apply (fold_drop_matching_incl _ _ _ Hu).
    + apply (fold_drop_matching_clears _ _ _ _ Hc Hu).
  - exfalso. unfold sort_condition in Hc. rewrite HT, andb_false_r in Hc.
    apply Z.ltb_ge in HT. unfold DataFrame.len in HT.
    destruct T; [contradiction|simpl in HT; lia].
Qed.

(** Whenever the coordination step ends without error, the two tables
    share no identity. *)
Lemma coordinate_clears T U T' U' :
  corrective_maintenance inp = true ->
  condition_based_maintenance inp = true ->
  coordinate inp T U = inr (T', U') ->
  Permutation (DataFrame.rows T') (DataFrame.rows T)
  /\ (forall c u,
        In c (DataFrame.rows T') -> In u (DataFrame.rows U') ->
        UnCoMa.ident u <> CoBaMa.ident c)
  /\ DataFrame.index U' = map Z.of_nat (seq 0 (List.length U')).
Proof.
  intros Hcorr Hcond Hrun. unfold coordinate in Hrun.
  rewrite Hcorr in Hrun. cbn [andb] in Hrun.
  destruct (0 <? DataFrame.len U)%Z eqn:HU.
  - destruct (remove_condition_entries inp (sort_condition inp T) U)
      as [e|U1] eqn:Hrem; [discriminate|].
    destruct (shift_all inp U1) as [e|U2] eqn:Hshift; [discriminate|].
    inversion Hrun; subst T' U'. clear Hrun.
    split; [apply sort_condition_rows|]. split.
    + intros c u Hc Hu Heq. rewrite rows_reset_index in Hu.
      apply (Permutation_in _ (rows_sort _ _)) in Hu.
      assert (Hu1 : In (UnCoMa.ident u) (idents U1)).
      { rewrite <- (@shift_steps_idents _ _ _ Hshift).
        unfold idents. apply in_map, Hu. }
      unfold idents in Hu1. apply in_map_iff in Hu1.
      destruct Hu1 as [u1 [Hu1 Hin1]].
      destruct (@remove_condition_entries_clears _ _ _ _ _ Hcond Hrem Hc
                  Hin1) as [_ Hf].
      rewrite Hu1, Heq in Hf.
      assert (Ht : ident_eqb (CoBaMa.ident c) (CoBaMa.ident c) = true)
        by now apply ident_eqb_eq.
      congruence.
    + apply index_reset_index.
  - inversion Hrun; subst T' U'. clear Hrun.
    assert (HU0 : U = []).
    { apply Z.ltb_ge in HU. unfold DataFrame.len in HU.
      destruct U; [reflexivity|simpl in HU; lia]. }
    subst U. split; [apply sort_condition_rows|].
    split; [intros c u _ []|reflexivity].
Qed.

(** With a condition table that is not empty and the delay records of the
    corrective rows in place, the coordination step ends without error. *)
Lemma coordinate_returns T U :
  condition_based_maintenance inp = true ->
  (0 < DataFrame.len T)%Z ->
  (forall u, In u (DataFrame.rows U) ->
             has_delays inp (UnCoMa.ident u) = true) ->
  exists T' U', coordinate inp T U = inr (T', U').
Proof.
  intros Hcond Hlen Hdel. unfold coordinate.
  destruct (corrective_maintenance inp && (0 <? DataFrame.len U)%Z);
    [|eauto].
  set (S := DataFrame.sort CoBaMa.currentAlarmDate T).
  assert (HT : sort_condition inp T = DataFrame.reset_index S).
  { unfold sort_condition. rewrite Hcond.
    apply Z.ltb_lt in Hlen. now rewrite Hlen. }
  rewrite HT.
  (* the removal *)
  set (U1 := fold_left (fun df c => drop_matching c df)
                       (DataFrame.rows S) U).
  assert (Hrem : remove_condition_entries inp (DataFrame.reset_index S) U
                 = inr (DataFrame.reset_index U1)).
  { unfold remove_condition_entries. rewrite Hcond.
    assert (Hl : (0 <? DataFrame.len (DataFrame.reset_index S))%Z = true).
    { apply Z.ltb_lt. unfold DataFrame.len in *.
      rewrite length_reset_index.
      unfold S. rewrite (Permutation_length (sort_perm _ _)). exact Hlen. }
    rewrite Hl. cbn [andb].
    now rewrite (@remove_by_labels _ _ _ (labels_reset_index S)). }
  rewrite Hrem.
  (* the request dates *)
  destruct (shift_steps_ok
              (range 0 (DataFrame.len (DataFrame.reset_index U1)))
              (DataFrame.reset_index U1)) as [U2 [Hshift _]].
  { intros i Hi. apply has_label_index.
    rewrite index_reset_index. unfold DataFrame.len in Hi.
    now rewrite range_0 in Hi. }
  { intros id Hin. unfold idents in Hin. rewrite rows_reset_index in Hin.
    apply in_map_iff in Hin. destruct Hin as [u [<- Hu]].
    apply Hdel. apply (fold_drop_matching_incl _ _ _ Hu). }
  unfold shift_all. rewrite Hshift. eauto.
Qed.

(** C3.  With corrective and condition based maintenance enabled, after
    the coordination step of [__initCalc] (lines 1660-1758) no row of the
    corrective table has the identity (belongsTo, component type, subtype,
    id, failure-mode index, FM id, RA id) of a row of the condition table,
    which holds the rows it held before, and the index of the corrective
    table is [0, 1, ..., n-1].  The step ends without error when the
    condition table is not empty and the delay records of the corrective
    rows are in place. *)
Theorem coordination_removes_condition_keys
    (CoBaMa_eventsTable : DataFrame.t CoBaMa.row)
    (UnCoMa_eventsTable : DataFrame.t UnCoMa.row) :
  corrective_maintenance inp = true ->
  condition_based_maintenance inp = true ->
  (forall CoBaMa' UnCoMa',
      coordinate inp CoBaMa_eventsTable UnCoMa_eventsTable
      = inr (CoBaMa', UnCoMa') ->
      Permutation (DataFrame.rows CoBaMa')
                  (DataFrame.rows CoBaMa_eventsTable)
      /\ (forall c u,
            In c (DataFrame.rows CoBaMa') ->
            In u (DataFrame.rows UnCoMa') ->
            UnCoMa.ident u <> CoBaMa.ident c)
      /\ DataFrame.index UnCoMa'
         = map Z.of_nat (seq 0 (List.length UnCoMa')))
  /\ ((0 < DataFrame.len CoBaMa_eventsTable)%Z ->
      (forall u, In u (DataFrame.rows UnCoMa_eventsTable) ->
                 has_delays inp (UnCoMa.ident u) = true) ->
      exists CoBaMa' UnCoMa',
        coordinate inp CoBaMa_eventsTable UnCoMa_eventsTable
        = inr (CoBaMa', UnCoMa')).
Proof.
  intros Hcorr Hcond. split.
  - intros T' U' Hrun. exact (@coordinate_clears _ _ _ _ Hcorr Hcond Hrun).
  - intros Hlen Hdel. exact (@coordinate_returns _ _ Hcond Hlen Hdel).
Qed.

End Coordination.

(** ** The calendar builder (C9) *)

Section CalendarBuilder.
Variable inp : Inputs.

(** The date after [k] additions of [n_hours]. *)
Definition advance (n_hours : Q) (k : nat) (d : datetime) : datetime :=
  Nat.iter k (fun d => d + n_hours) d.



(** The [k]-th window of a component: both dates advanced [k] times. *)
Definition window (id : Ident) (belongsToSort : string) (n_hours : Q)
    (startActionDate endActionDate : datetime) (k : nat) : CaBaMa.row :=
  CaBaMa.mk id belongsToSort
    (advance n_hours k startActionDate) (advance n_hours k endActionDate)
    (advance n_hours k startActionDate) (advance n_hours k endActionDate)
    0 0.












End CalendarBuilder.

(** ** Reasoning about methods *)

Lemma bind_inr_inv {A B} (m : M A) (k : A -> M B) s s' b :
  bind m k s = (s', inr b) ->
  exists s1 a, m s = (s1, inr a) /\ k a s1 = (s', inr b).
Proof.
  unfold bind. destruct (m s) as [s1 [e|a]]; intro H.
  - discriminate.
  - exists s1, a. split; [reflexivity | exact H].
Qed.

Lemma bind_inl {A B} (m : M A) (k : A -> M B) s s1 e :
  m s = (s1, inl e) -> bind m k s = (s1, inl e).
Proof. unfold bind. now intros ->. Qed.

Lemma bind_inr {A B} (m : M A) (k : A -> M B) s s1 a :
  m s = (s1, inr a) -> bind m k s = k a s1.
Proof. unfold bind. now intros ->. Qed.

(** A method that raises whatever its first part returns. *)
Definition raises {A} (m : M A) : Prop :=
  forall s, exists e, outcome_of (m s) = inl e.

Lemma raises_bind {A B} (m : M A) (k : A -> M B) :
  (forall a, raises (k a)) -> raises (bind m k).
Proof.
  intros Hk s. unfold bind, outcome_of.
  destruct (m s) as [s1 [e|a]]; simpl.
  - now exists e.
  - apply Hk.
Qed.

Lemma raises_raise {A} e : raises (@raise A e).
Proof. intro s. now exists e. Qed.

Lemma raises_need_None {A B} e (k : A -> M B) :
  raises (bind (need None e) k).
Proof. intro s. now exists e. Qed.

Lemma need_inr_inv {A} (o : option A) e s s' a :
  need o e s = (s', inr a) -> o = Some a /\ s' = s.
Proof.
  destruct o as [x|]; simpl; unfold ret, raise; intro H; inversion H.
  now subst.
Qed.

Lemma get_inr_inv s s1 a : get s = (s1, inr a) -> s1 = s /\ a = s.
Proof. unfold get. intro H. inversion H. now subst. Qed.

Lemma arrayDict_at_inv k s s' c :
  arrayDict_at k s = (s', inr c) -> s' = s.
Proof.
  unfold arrayDict_at. intro H.
  apply bind_inr_inv in H. destruct H as [s1 [s0 [Hg H]]].
  apply get_inr_inv in Hg. destruct Hg as [-> ->].
  apply need_inr_inv in H. tauto.
Qed.

Lemma returns_not_raises {A} (m : M A) s s' a :
  raises m -> m s = (s', inr a) -> False.
Proof.
  intros Hr Hm. destruct (Hr s) as [e He]. rewrite Hm in He. discriminate.
Qed.

Lemma modify_inr_inv f s s1 u : modify f s = (s1, inr u) -> s1 = f s.
Proof. unfold modify. intro H. now inversion H. Qed.

(** A property of the attributes that every turn of a loop keeps holds
    after the loop. *)
Lemma for_each_invariant {A} (P : Calc -> Prop) (body : A -> M unit) :
  (forall x s s', P s -> body x s = (s', inr tt) -> P s') ->
  forall l s s', P s -> for_each l body s = (s', inr tt) -> P s'.
Proof.
  intros Hbody. induction l as [|x l IH]; intros s s' HP Hrun.
  - simpl in Hrun. unfold ret in Hrun. inversion Hrun. now subst.
  - simpl in Hrun. apply bind_inr_inv in Hrun.
    destruct Hrun as [s1 [[] [Hx Hrun]]].
    eapply IH; [|exact Hrun]. eapply Hbody; eassumption.
Qed.

(** ** The calendar track never returns (C10) *)

Section CalendarReturn.
Variable inp : Inputs.
Variable om_logistics_main : DataFrame.t (option Request) -> OmLogistic.

(** The loop over the blocks binds at most one of [flagCalcCoBaMa] and
    [flagCalcUnCoMa]: both are assigned in the branch that leaves the
    loop, one under [if], the other under [elif]. *)
Lemma calendar_blocks_flags shortid dummy blocks :
  forall L F s s' L' F',
    cf_flagCalcCoBaMa F = None ->
    cf_flagCalcUnCoMa F = None ->
    calendar_blocks inp om_logistics_main shortid dummy
                    blocks L F s = (s', inr (L', F')) ->
    cf_flagCalcCoBaMa F' = None \/ cf_flagCalcUnCoMa F' = None.
Proof.
  induction blocks as [|[iCnt blockNumber] rest IH];
    intros L F s s' L' F' HCo HUn Hrun.
  - simpl in Hrun. unfold ret in Hrun. inversion Hrun; subst. now left.
  - simpl in Hrun.
    apply bind_inr_inv in Hrun. destruct Hrun as [s1 [drow [_ Hrun]]].
    apply bind_inr_inv in Hrun. destruct Hrun as [s2 [[] [_ Hrun]]].
    destruct (Qltb (endOperationDate inp)
                   (CaBaMa.currentStartActionDate drow)).
    + unfold ret in Hrun. inversion Hrun; subst.
      destruct (corrective_maintenance inp); simpl; [now left|].
      destruct (condition_based_maintenance inp); simpl; [now right|].
      now left.
    + apply bind_inr_inv in Hrun. destruct Hrun as [s3 [L1 [_ Hrun]]].
      eapply IH; eassumption.
Qed.

(** A return of [__get_lcoe_calendar] would have read three bound flags. *)
Lemma get_lcoe_calendar_no_return
    (loop loopValuesForOutput_CaBaMa : Z) (s s' : Calc)
    (v : Z * Z * bool * bool * bool) :
  get_lcoe_calendar inp om_logistics_main loop loopValuesForOutput_CaBaMa s
  = (s', inr v) -> False.
Proof.
  intro Hrun. unfold get_lcoe_calendar in Hrun.
  apply bind_inr_inv in Hrun. destruct Hrun as [s1 [s0 [_ Hrun]]].
  apply bind_inr_inv in Hrun. destruct Hrun as [s2 [r [_ Hrun]]].
  apply bind_inr_inv in Hrun. destruct Hrun as [s3 [shortid [_ Hrun]]].
  apply bind_inr_inv in Hrun.
  destruct Hrun as [s4 [[L F] [Hblocks Hrun]]].
  apply calendar_blocks_flags in Hblocks; [|reflexivity|reflexivity].
  apply bind_inr_inv in Hrun. destruct Hrun as [s5 [fCo [HCo Hrun]]].
  apply bind_inr_inv in Hrun. destruct Hrun as [s6 [fCa [_ Hrun]]].
  apply bind_inr_inv in Hrun. destruct Hrun as [s7 [fUn [HUn _]]].
  apply need_inr_inv in HCo. apply need_inr_inv in HUn.
  destruct HCo as [HCo _]. destruct HUn as [HUn _].
  destruct Hblocks as [H|H]; congruence.
Qed.

(** C10, as the code has it.  [__get_lcoe_calendar] never returns its
    5-tuple: whatever the attributes and the arguments, the call ends in an
    exception.  On the exhaustion of all blocks none of the three flags is
    bound, and the branch that leaves the loop early binds only two of
    them, so the [return] raises [UnboundLocalError] when nothing raised
    before. *)
Theorem get_lcoe_calendar_never_returns
    (loop loopValuesForOutput_CaBaMa : Z) (s : Calc) :
  exists e,
    outcome_of (get_lcoe_calendar inp om_logistics_main
                  loop loopValuesForOutput_CaBaMa s) = inl e.
Proof.
  destruct (get_lcoe_calendar inp om_logistics_main
              loop loopValuesForOutput_CaBaMa s) as [s' [e|v]] eqn:Hrun.
  - now exists e.
  - exfalso. exact (get_lcoe_calendar_no_return _ _ _ Hrun).
Qed.

(** With calendar based maintenance enabled, the simulation loop starts
    with the calendar track, so [__calcLCOE_OfOM] ends in an exception in
    its first turn, whatever the tables. *)
Theorem calcLCOE_OfOM_calendar_raises (fuel : nat) (s : Calc) :
  calendar_based_maintenance inp = true ->
  exists e,
    outcome_of (calcLCOE_OfOM inp om_logistics_main (S fuel) s) = inl e.
Proof.
  intro Hcal.
  destruct (calcLCOE_OfOM inp om_logistics_main (S fuel) s)
    as [s' [e|v]] eqn:Hrun.
  - now exists e.
  - exfalso. unfold calcLCOE_OfOM in Hrun. rewrite Hcal in Hrun.
    cbn [negb andb] in Hrun.
    do 5 (apply bind_inr_inv in Hrun;
          destruct Hrun as [? [[] [_ Hrun]]]).
    cbn [calcLCOE_while lp_flagCalcUnCoMa lp_flagCalcCaBaMa
                        lp_flagCalcCoBaMa orb] in Hrun.
    apply bind_inr_inv in Hrun. destruct Hrun as [s1 [L1 [Hturn _]]].
    unfold calcLCOE_turn in Hturn.
    apply bind_inr_inv in Hturn. destruct Hturn as [s2 [c1 [Hc Hturn]]].
    unfold calcLCOE_condition in Hc.
    cbn [lp_flagCalcCoBaMa] in Hc. rewrite andb_false_r in Hc.
    unfold ret in Hc. inversion Hc; subst s2 c1. clear Hc.
    apply bind_inr_inv in Hturn. destruct Hturn as [s3 [c2 [Hc _]]].
    unfold calcLCOE_calendar in Hc. rewrite Hcal in Hc.
    cbn [lp_flagCalcCaBaMa andb] in Hc.
    apply bind_inr_inv in Hc. destruct Hc as [s4 [v4 [Hc _]]].
    exact (get_lcoe_calendar_no_return _ _ _ Hc).
Qed.

End CalendarReturn.

(** ** The condition track returns only when it skips *)

Section ConditionReturn.
Variable inp : Inputs.
Variable om_logistics_main : DataFrame.t (option Request) -> OmLogistic.

(** The end of the step (lines 3050-3159) reads [flagCalcCoBaMa] for the
    [return], which no path that comes there has assigned. *)
Lemma condition_finish_raises r loop lvo sol start devs tdh c1 c2 c3 opt :
  raises (condition_finish inp r loop lvo sol start devs tdh c1 c2 c3 opt).
Proof.
  unfold condition_finish.
  apply raises_bind; intros [loop' lvo'].
  apply raises_bind; intros _.
  apply raises_need_None.
Qed.

(** [__get_lcoe_condition] returns its triple only when it skips the last
    row of the table without simulating it (lines 2545-2553): the logistics
    module was not asked and the condition table is as it was.  On every
    other path, a repair realized or deferred among them, the step ends in
    an exception. *)
Theorem get_lcoe_condition_returns_only_skipped
    (loop loopValuesForOutput_CoBaMa : Z) (s s' : Calc)
    (res : Z * Z * bool) :
  get_lcoe_condition inp om_logistics_main
                     loop loopValuesForOutput_CoBaMa s = (s', inr res) ->
  res = (0%Z, loopValuesForOutput_CoBaMa, false)
  /\ CoBaMa_eventsTable s' = CoBaMa_eventsTable s
  /\ om_logistic s' = om_logistic s
  /\ actIdxOfCoBaMa s' = DataFrame.len (CoBaMa_eventsTable s).
Proof.
  intro Hrun. unfold get_lcoe_condition in Hrun.
  apply bind_inr_inv in Hrun. destruct Hrun as [s1 [s0 [Hg Hrun]]].
  apply get_inr_inv in Hg. destruct Hg as [-> ->].
  apply bind_inr_inv in Hrun. destruct Hrun as [s1 [r [Hr Hrun]]].
  apply need_inr_inv in Hr. destruct Hr as [Hr ->].
  apply bind_inr_inv in Hrun. destruct Hrun as [s1 [c [Hc Hrun]]].
  apply arrayDict_at_inv in Hc. subst s1.
  apply bind_inr_inv in Hrun. destruct Hrun as [s1 [[] [Hm Hrun]]].
  unfold modify in Hm. inversion Hm; subst s1. clear Hm.
  match type of Hrun with
  | (if negb ?f then _ else _) _ = _ => destruct f
  end; cbn [negb] in Hrun.
  - exfalso.
    apply bind_inr_inv in Hrun. destruct Hrun as [s1 [values [_ Hrun]]].
    apply bind_inr_inv in Hrun. destruct Hrun as [s2 [[] [_ Hrun]]].
    apply bind_inr_inv in Hrun. destruct Hrun as [s3 [[] [_ Hrun]]].
    apply bind_inr_inv in Hrun. destruct Hrun as [s4 [lg [_ Hrun]]].
    match type of Hrun with
    | (if ?b then _ else _) _ = _ => destruct b
    end.
    + apply bind_inr_inv in Hrun. destruct Hrun as [s5 [[] [_ Hrun]]].
      apply bind_inr_inv in Hrun. destruct Hrun as [s6 [f [Hf _]]].
      apply need_inr_inv in Hf. destruct Hf as [Hf _]. discriminate.
    + destruct (ignoreWeatherWindow inp).
      * apply bind_inr_inv in Hrun. destruct Hrun as [s5 [[] [_ Hrun]]].
        apply bind_inr_inv in Hrun. destruct Hrun as [s6 [s6' [_ Hrun]]].
        apply bind_inr_inv in Hrun. destruct Hrun as [s7 [devs [_ Hrun]]].
        eapply returns_not_raises; [apply condition_finish_raises | exact Hrun].
      * apply bind_inr_inv in Hrun. destruct Hrun as [s5 [[] [_ Hrun]]].
        apply bind_inr_inv in Hrun. destruct Hrun as [s6 [[] [_ Hrun]]].
        apply bind_inr_inv in Hrun. destruct Hrun as [s7 [[] [_ Hrun]]].
        apply bind_inr_inv in Hrun.
        destruct Hrun as [s8 [[omCostValueSpare omCostValue] [_ Hrun]]].
        apply bind_inr_inv in Hrun. destruct Hrun as [s8' [s8'' [_ Hrun]]].
        apply bind_inr_inv in Hrun.
        destruct Hrun as [s9 [[[sol dummy] enddate] [_ Hrun]]].
        destruct sol.
        -- apply bind_inr_inv in Hrun. destruct Hrun as [s10 [d [_ Hrun]]].
           apply bind_inr_inv in Hrun.
           destruct Hrun as [s11 [[start tdh] [_ Hrun]]].
           eapply returns_not_raises;
             [apply condition_finish_raises | exact Hrun].
        -- apply bind_inr_inv in Hrun. destruct Hrun as [s10 [devs [_ Hrun]]].
           eapply returns_not_raises;
             [apply condition_finish_raises | exact Hrun].
  - apply bind_inr_inv in Hrun. destruct Hrun as [s1 [[] [Hm Hrun]]].
    unfold modify in Hm. inversion Hm; subst s1. clear Hm.
    apply bind_inr_inv in Hrun. destruct Hrun as [s1 [s0 [Hg Hrun]]].
    apply get_inr_inv in Hg. destruct Hg as [-> ->].
    match type of Hrun with
    | (if ?b then _ else _) _ = _ => destruct b eqn:Hend
    end.
    + unfold ret in Hrun. inversion Hrun; subst.
      apply Z.eqb_eq in Hend.
      repeat split; try reflexivity. exact Hend.
    + exfalso.
      apply bind_inr_inv in Hrun. destruct Hrun as [s6 [f [Hf _]]].
      apply need_inr_inv in Hf. destruct Hf as [Hf _]. discriminate.
Qed.

End ConditionReturn.

(* ===================================================================== *)
(** * A small farm

    One device, [device001], with two power take-off components, a
    substation, and a logistics module that always answers the same way.
    Dates are hours after the start of operation; the mission lasts one
    year, 8766 hours. *)

Module Farm.

Open Scope string_scope.

Definition component : ArrayComp :=
  mkArrayComp ["device001"] 0 empty_ledger empty_ledger empty_ledger
    empty_ledger None false false [[200; 400; 900]] 0 0.

Definition device : ArrayComp :=
  mkArrayComp ["device001"] 8766000 empty_ledger empty_ledger empty_ledger
    empty_ledger None false false [] 0 0.

Definition action : ActionRec := mkActionRec 1 2 3 [] 1 1 0 0 0.
Definition spare : FailureModeRec := mkFailureModeRec 1 1 1 1 10 0 0.
Definition site : SiteInfo := mkSiteInfo 10 0 0 "z" 10 "sand".

Definition policy : ComponentRec :=
  mkComponentRec (Some 100) (Some 110) 0.25%float (Some 50).

(** The inputs, by the enabled tracks and the weather-window policy: seven
    workdays a week in both seasons, all wages 1 Euro per hour. *)
Definition inputs (corrective condition calendar ignoreWW preflight : bool)
    : Inputs :=
  mkInputs corrective condition calendar (1 # 10) "No" 7 7 1 1 1 1 ignoreWW
    false preflight 0 1 1 [100; 100]
    (fun _ => Some policy) (fun _ => Some spare) (fun _ => Some action)
    (fun _ => Some action) (fun _ => Some site).

Definition pto (ComponentID : string) : Ident :=
  mkIdent "device001" "device001" "Pto" ComponentID "MoS1" 1 "LpM1".

Definition substation : Ident :=
  mkIdent "Array" "Substation001" "Substation" "Substation001" "MoS1" 1
          "LpM1".

Definition empty_out {A} : DataFrame.t (option A) := [(0%Z, None)].

Definition fresh_outputs : Outputs :=
  mkOutputs 0 [0] [0] 0 0 0 None [] [] [] None None None.

(** The attributes after [__init__], with the given event tables. *)
Definition attributes (dict : ArrayDict)
    (UnCoMa_rows : list UnCoMa.row) (CaBaMa_rows : list CaBaMa.row)
    (CoBaMa_rows : list CoBaMa.row) : Calc :=
  mkCalc 0 dict
    (DataFrame.of_rows UnCoMa_rows) (DataFrame.of_rows CaBaMa_rows)
    (DataFrame.of_rows CoBaMa_rows)
    empty_out empty_out empty_out 0 0 0 0 0 0 None None None None
    empty_out [] [] [] false empty_out (1 # 10, 21%Z) (1 # 10, 21%Z)
    fresh_outputs.

Definition dict : ArrayDict :=
  [("device001", device); ("Pto001", component); ("Pto002", component)].

(** A failure at hour [t], requested a day later. *)
Definition failure (ComponentID : string) (t : Q) : UnCoMa.row :=
  UnCoMa.mk (pto ComponentID) (1 # 2) (t + 24) t.

Definition window (ComponentID : string) : CaBaMa.row :=
  CaBaMa.mk (pto ComponentID) "device" 100 110 100 110 0 0.

Definition alarm (id : Ident) (t : Q) : CoBaMa.row :=
  CoBaMa.mk id 100 110 0 200 t (1 # 2) (1 # 2) false.

(** Logistics: back at hour 150 after 20 hours at sea, for 100 Euro. *)
Definition solution (_ : DataFrame.t (option Request)) : OmLogistic :=
  mkOmLogistic SolutionFound
    (mkOptimal 150 (DepartDate 120) 100 20 [("CTV", 1%Z)]).

Definition no_window (_ : DataFrame.t (option Request)) : OmLogistic :=
  mkOmLogistic NoWeatherWindowFound
    (mkOptimal 0 (DepartDate 0) 0 0 []).

(** The inputs of the calendar track with the policy [p] for every
    component. *)
Definition calendar_inputs (p : ComponentRec) : Inputs :=
  mkInputs false false true (1 # 10) "No" 7 7 1 1 1 1 false false false 0 1 1
    [100; 100]
    (fun _ => Some p) (fun _ => Some spare) (fun _ => Some action)
    (fun _ => Some action) (fun _ => Some site).

(** A calendar policy that starts at the very end of operation, hour
    8766, with an interval of one year. *)
Definition late_policy : ComponentRec :=
  mkComponentRec (Some 8766) (Some 8790) 1%float (Some 50).

(** An interval of 0 years. *)
Definition still_policy : ComponentRec :=
  mkComponentRec (Some 100) (Some 110) 0%float (Some 50).

(** An interval of a third of a year, [1.0 / 3], from the start of
    operation. *)
Definition thirds_policy : ComponentRec :=
  mkComponentRec (Some 0) (Some 10) (1 / 3)%float (Some 50).

(** An interval of 10000 years. *)
Definition far_policy : ComponentRec :=
  mkComponentRec (Some 100) (Some 110) 10000%float (Some 50).

Definition pto001 : NoPoissonRow := mkNoPoisson (pto "Pto001") (1 # 2).

(** Delays: a repair of [Pto001] waits 50 hours for the spare part and 15
    for crew and organisation, any other repair 5 hours for the part and
    30 for crew and organisation; an inspection waits 15 hours for crew
    and organisation, whatever delay is entered for a part. *)
Definition delayed_repair (cid : CompIDWithIndex) : option ActionRec :=
  if String.eqb (fst cid) "Pto001"
  then Some (mkActionRec 1 2 3 [] 1 1 50 10 5)
  else Some (mkActionRec 1 2 3 [] 1 1 5 20 10).

Definition delayed_inspection (_ : CompIDWithIndex) : option ActionRec :=
  Some (mkActionRec 1 2 3 [] 1 1 50 10 5).

Definition delayed_inputs : Inputs :=
  mkInputs true false false (1 # 10) "No" 7 7 1 1 1 1 false false false 0 1 1
    [100; 100]
    (fun _ => Some policy) (fun _ => Some spare) delayed_repair
    delayed_inspection (fun _ => Some site).

(** The inspection of [Pto003] that is due at hour [t]. *)
Definition inspection (t : Q) : UnCoMa.row :=
  UnCoMa.mk (mkIdent "device001" "device001" "Pto" "Pto003" "Insp1" 1 "LpM1")
            (1 # 2) (t + 24) t.

End Farm.

(** The cost engine on the farm, for an action requested at hour 34 that
    leaves at hour 120 (1970-01-06 00:00) and is back at hour 150 after
    20 hours at sea: 18 of them count as night hours and 2 as day hours,
    all at the week-end rate, for one specialist and one technician at
    1 Euro per hour; the spare part costs 10 Euro. *)
Example calcCostOfOM_on_the_farm :
  let s := set_totalSeaTimeHour 20
             (set_endOpDate (Some 150)
                (set_departOpDate (Some 120)
                   (set_repairActionDate (Some 34)
                      (Farm.attributes Farm.dict [] [] [])))) in
  let r := calcCostOfOM (Farm.inputs true false false false false)
             "MoS1" ("Pto001"%string, 1%Z) s in
  state_of r = s
  /\ match outcome_of r with
     | inr (omCostValueSpare, omCostValue) =>
         omCostValueSpare == 10 /\ omCostValue == 50
     | inl _ => False
     end.
Proof. vm_compute. repeat split. Qed.

(* ===================================================================== *)
(** * The corrective track *)

Lemma dict_get_in (d : ArrayDict) (k : string) :
  In k (dict_keys d) -> exists c, dict_get d k = Some c /\ In (k, c) d.
Proof.
  induction d as [|[k' c'] rest IH]; simpl; intro H; [contradiction|].
  destruct (String.eqb k' k) eqn:E.
  - apply String.eqb_eq in E. subst k'. exists c'. split; [reflexivity|].
    now left.
  - destruct H as [H|H].
    + subst k'. rewrite String.eqb_refl in E. discriminate.
    + destruct (IH H) as [c [Hget Hin]]. exists c. split; [exact Hget|].
      now right.
Qed.

Lemma arrayDict_at_some (s : Calc) (k : string) (c : ArrayComp) :
  dict_get (arrayDict s) k = Some c -> arrayDict_at k s = (s, inr c).
Proof.
  intro H. unfold arrayDict_at, bind, get, need. now rewrite H.
Qed.

(** The rows of [T] of another component than [CID] are in [T'] as they
    were, under the labels of [T]. *)
Definition others_kept (CID : string) (T T' : DataFrame.t UnCoMa.row)
    : Prop :=
  DataFrame.index T' = DataFrame.index T
  /\ forall l r, In (l, r) T -> ComponentID (UnCoMa.ident r) <> CID ->
                 In (l, r) T'.

(** [__updatePoissonEvents] on a table with unique labels whose row
    labelled 0 belongs to a device: whichever action was just realized,
    the rows of every component other than the component of the row
    labelled 0 are after the call what they were before, under the same
    labels. *)
Theorem updatePoissonEvents_shifts_component_of_row_0
    (s s' : Calc) (r0 : UnCoMa.row) :
  NoDup (DataFrame.index (UnCoMa_eventsTable s)) ->
  DataFrame.at_label (UnCoMa_eventsTable s) 0 = Some r0 ->
  belongsTo (UnCoMa.ident r0) <> "Array"%string ->
  updatePoissonEvents s = (s', inr tt) ->
  forall l r,
    In (l, r) (UnCoMa_eventsTable s) ->
    ComponentID (UnCoMa.ident r) <> ComponentID (UnCoMa.ident r0) ->
    In (l, r) (UnCoMa_eventsTable s').
Proof.
  intros Hnd H0 Hdev Hrun.
  set (T := UnCoMa_eventsTable s) in *.
  set (CID := ComponentID (UnCoMa.ident r0)).
  unfold updatePoissonEvents in Hrun.
  apply bind_inr_inv in Hrun. destruct Hrun as [s1 [s0 [Hg Hrun]]].
  apply get_inr_inv in Hg. destruct Hg as [-> ->].
  apply bind_inr_inv in Hrun. destruct Hrun as [s1 [r0' [Hr Hrun]]].
  apply need_inr_inv in Hr. destruct Hr as [Hr ->].
  fold T in Hr. rewrite H0 in Hr. inversion Hr; subst r0'. clear Hr.
  apply String.eqb_neq in Hdev. rewrite Hdev in Hrun.
  apply bind_inr_inv in Hrun. destruct Hrun as [s1 [all [Hall Hrun]]].
  unfold ret in Hall. inversion Hall; subst s1 all. clear Hall.
  apply bind_inr_inv in Hrun. destruct Hrun as [s1 [[] [Hloop Hrun]]].
  apply modify_inr_inv in Hrun. subst s'.
  assert (Hinv : others_kept CID T (UnCoMa_eventsTable s1)).
  { eapply (@for_each_invariant _
              (fun st => others_kept CID T (UnCoMa_eventsTable st)));
      [ | | exact Hloop]; cbv beta.
    2:{ split; [reflexivity|]. intros l r Hin _. exact Hin. }
    clear s1 Hloop. intros iCnt si si' [Hidx Hkeep] Hbody.
    apply bind_inr_inv in Hbody. destruct Hbody as [s1 [s0 [Hg Hbody]]].
    apply get_inr_inv in Hg. destruct Hg as [-> ->].
    apply bind_inr_inv in Hbody. destruct Hbody as [s1 [r [Hr Hbody]]].
    apply need_inr_inv in Hr. destruct Hr as [Hr ->].
    apply bind_inr_inv in Hbody. destruct Hbody as [s1 [hit [Hhit Hbody]]].
    assert (Hs1 : s1 = si
                  /\ (hit = true -> ComponentID (UnCoMa.ident r) = CID)).
    { destruct (String.eqb (ComponentID (UnCoMa.ident r))
                           (ComponentID (UnCoMa.ident r0))) eqn:E.
      - apply bind_inr_inv in Hhit. destruct Hhit as [s2 [c [Hc Hhit]]].
        apply arrayDict_at_inv in Hc. subst s2.
        unfold ret in Hhit. inversion Hhit; subst.
        split; [reflexivity|]. intros _. now apply String.eqb_eq.
      - unfold ret in Hhit. inversion Hhit; subst.
        split; [reflexivity|discriminate]. }
    destruct Hs1 as [-> Hcid].
    destruct hit.
    - (* the row is shifted *)
      apply bind_inr_inv in Hbody. destruct Hbody as [s1 [s0 [Hg Hbody]]].
      apply get_inr_inv in Hg. destruct Hg as [-> ->].
      apply bind_inr_inv in Hbody. destruct Hbody as [s1 [r' [Hr' Hbody]]].
      apply need_inr_inv in Hr'. destruct Hr' as [_ ->].
      apply bind_inr_inv in Hbody. destruct Hbody as [s1 [[] [Hm Hbody]]].
      apply modify_inr_inv in Hm. subst s1.
      apply modify_inr_inv in Hbody. subst si'.
      cbn [UnCoMa_eventsTable set_UnCoMa_eventsTable].
      split.
      + now rewrite !index_set_loc.
      + intros l r1 Hin Hother.
        assert (Hne : l <> iCnt).
        { intros ->. apply Hother.
          rewrite <- (Hcid eq_refl). f_equal. f_equal.
          eapply at_label_unique; [|exact Hr|apply Hkeep; assumption].
          now rewrite Hidx. }
        apply in_set_loc_other; [exact Hne|].
        apply in_set_loc_other; [exact Hne|].
        now apply Hkeep.
    - unfold ret in Hbody. inversion Hbody; subst. now split. }
  cbn [UnCoMa_eventsTable set_UnCoMa_eventsTable].
  intros l r Hin Hother.
  eapply Permutation_in; [apply Permutation_sym, sort_perm|].
  now apply (proj2 Hinv).
Qed.

Section Corrective.
Variable inp : Inputs.
Variable om_logistics_main : DataFrame.t (option Request) -> OmLogistic.

(** C4, as the code has it.  The loop that writes the down time of a
    corrective action selects the devices whose weather-block flag
    ['UnCoMaNoWeatherWindow'] is set: while no entry of the array
    dictionary carries the flag, the loop writes nothing, whatever the
    breakdown set of the component, and the list of devices it returns is
    empty. *)
Theorem unplanned_downtime_needs_blocked_device
    (id : Ident) (failureDate : datetime) (totalDownTimeHours : Z)
    (s : Calc) (c : ArrayComp) :
  dict_get (arrayDict s) (ComponentID id) = Some c ->
  (forall k kc, In (k, kc) (arrayDict s) ->
                UnCoMaNoWeatherWindow kc = false) ->
  unplanned_record_downtime inp id failureDate totalDownTimeHours s
  = (s, inr []).
Proof.
  intros Hc Hflags. unfold unplanned_record_downtime.
  erewrite bind_inr by reflexivity.
  erewrite bind_inr by (apply arrayDict_at_some; exact Hc).
  match goal with
  | |- for_fold _ _ ?body _ = _ =>
      assert (Hloop : forall keys acc,
                 (forall k, In k keys -> In k (dict_keys (arrayDict s))) ->
                 for_fold keys acc body s = (s, inr acc))
  end.
  { induction keys as [|key keys IH]; intros acc Hin; [reflexivity|].
    destruct (dict_get_in (arrayDict s) key (Hin key (or_introl eq_refl)))
      as [kc [Hget Hk]].
    cbn [for_fold].
    match goal with
    | |- bind ?m _ s = _ => assert (Hbody : m s = (s, inr acc))
    end.
    { match goal with
      | |- bind ?m _ s = _ => assert (Hsel : m s = (s, inr false))
      end.
      { destruct (Py.str_in "device" key); [|reflexivity].
        erewrite bind_inr by (apply arrayDict_at_some; exact Hget).
        now rewrite (Hflags _ _ Hk). }
      now rewrite (bind_inr _ _ _ Hsel). }
    rewrite (bind_inr _ _ _ Hbody).
    apply IH. intros k Hk'. apply Hin. now right. }
  apply Hloop. auto.
Qed.

(** After a corrective action of the small farm, found a solution for:
    the step returns, the cost is on the ledger of the device, and the
    device, which is in the breakdown set of the component and not
    weather-blocked, has no op-event and no duration. *)
Example unplanned_solution_records_no_downtime :
  let r := get_lcoe_unplanned (Farm.inputs true false false false false)
             Farm.solution 0 0 false true
             (Farm.attributes Farm.dict [Farm.failure "Pto001" 10] [] []) in
  outcome_of r = inr (1%Z, 1%Z, false, true)
  /\ option_map Breakdown (dict_get Farm.dict "Pto001"%string)
     = Some ["device001"%string]
  /\ option_map (fun c => (UnCoMaNoWeatherWindow c,
                           OpEvents (UnCoMaL c),
                           OpEventsDuration (UnCoMaL c),
                           map Qred (CostLogistic (UnCoMaL c))))
       (dict_get (arrayDict (state_of r)) "device001"%string)
     = Some (false, [], [], [100]).
Proof. vm_compute. repeat split. Qed.

(** C5, at a failing input.  The table holds a row of [Pto001] (label 0,
    done) and three rows of [Pto002]; the action on the row labelled 1
    ([Pto002]) is realized with 20 hours at sea.  The rows of [Pto002]
    that are still to come (labels 2 and 3) keep their failure and
    request dates: the component whose rows would be shifted is read from
    the row labelled 0. *)
Example unplanned_shift_reads_first_row :
  let s := set_actIdxOfUnCoMa 1
             (Farm.attributes Farm.dict
                [Farm.failure "Pto001" 10; Farm.failure "Pto002" 20;
                 Farm.failure "Pto002" 3000; Farm.failure "Pto002" 4000]
                [] []) in
  let r := get_lcoe_unplanned (Farm.inputs true false false false false)
             Farm.solution 0 0 false true s in
  outcome_of r = inr (1%Z, 1%Z, false, true)
  /\ totalSeaTimeHour (state_of r) = 20
  /\ map (fun lr => (fst lr, ComponentID (UnCoMa.ident (snd lr)),
                     Qred (UnCoMa.failureEvents (snd lr)),
                     Qred (UnCoMa.repairActionEvents (snd lr))))
         (UnCoMa_eventsTable (state_of r))
     = [(0%Z, "Pto001"%string, 10, 34); (1%Z, "Pto002"%string, 20, 44);
        (2%Z, "Pto002"%string, 3000, 3024);
        (3%Z, "Pto002"%string, 4000, 4024)].
Proof. vm_compute. repeat split. Qed.

Lemma unplanned_realize_unbound r rq fd loop lvo fCo fUn c1 c2 c3 tdh w :
  raises (unplanned_realize inp r rq fd loop lvo fCo fUn c1 c2 c3 tdh
                            None w).
Proof.
  unfold unplanned_realize.
  apply raises_bind; intros _.
  apply raises_bind; intros devs.
  apply raises_bind; intros _.
  apply raises_need_None.
Qed.

(** C6, as the code has it.  With the ignore-weather-window flag set and
    a logistics module that finds no weather window, the part of the step
    that dispatches the action never returns: it ends in an exception, at
    the latest when it reads [optimal], which only the [SolutionFound]
    branch assigns, before the output row is written. *)
Theorem unplanned_ignored_weather_window_raises
    (r : UnCoMa.row) (repairActionEvents failureDate : datetime)
    (loop loopValuesForOutput_UnCoMa : Z)
    (flagCalcCoBaMa flagCalcUnCoMa : bool) :
  ignoreWeatherWindow inp = true ->
  (forall request,
      findSolution (om_logistics_main request) = NoWeatherWindowFound) ->
  raises (unplanned_dispatch inp om_logistics_main r
            repairActionEvents failureDate loop loopValuesForOutput_UnCoMa
            flagCalcCoBaMa flagCalcUnCoMa).
Proof.
  intros Hignore Hnoww s. unfold unplanned_dispatch.
  unfold bind at 1.
  destruct (logistic_values inp (UnCoMa.ident r) repairActionEvents
              duration_inspection PrepTimeCalcUnCoMa s)
    as [s1 [e|values]].
  - now exists e.
  - unfold bind at 1. unfold modify at 1.
    unfold bind at 1. unfold modify at 1.
    unfold bind at 1. unfold calcLogistic, modify at 1.
    unfold bind at 1. unfold om_logistic_now, bind at 1, get at 1.
    cbn [om_logistic set_om_logistic need ret].
    rewrite Hnoww, Hignore.
    unfold bind at 1. unfold modify at 1.
    apply unplanned_realize_unbound.
Qed.

(** The same step on the small farm: it raises on [optimal]; no output
    row is written, the device is not flagged and the counter of
    turned-out devices stays at 0.  With the flag not set, the event is
    dropped: the index moves on and nothing else changes. *)
Example unplanned_no_window_on_the_farm :
  let s := Farm.attributes Farm.dict [Farm.failure "Pto001" 10] [] [] in
  let ignored :=
    get_lcoe_unplanned (Farm.inputs true false false true false)
      Farm.no_window 0 0 false true s in
  let dropped :=
    get_lcoe_unplanned (Farm.inputs true false false false false)
      Farm.no_window 0 0 false true s in
  outcome_of ignored = inl (Py.UnboundLocalError "optimal")
  /\ UnCoMa_outputEventsTable (state_of ignored) = [(0%Z, None)]
  /\ NrOfTurnOutDevices (state_of ignored) = 0%Z
  /\ option_map UnCoMaNoWeatherWindow
       (dict_get (arrayDict (state_of ignored)) "device001"%string)
     = Some false
  /\ outcome_of dropped = inr (0%Z, 0%Z, false, true)
  /\ actIdxOfUnCoMa (state_of dropped) = 1%Z
  /\ arrayDict (state_of dropped) = arrayDict s
  /\ NrOfTurnOutDevices (state_of dropped) = NrOfTurnOutDevices s
  /\ UnCoMa_eventsTable (state_of dropped) = UnCoMa_eventsTable s.
Proof. vm_compute. repeat split. Qed.

End Corrective.

(* ===================================================================== *)
(** * The roll-up and the driver *)

Lemma fold_left_Qplus (l : list Q) :
  forall a, fold_left Qplus l a == a + Qsum l.
Proof.
  unfold Qsum. induction l as [|x l IH]; intro a; simpl.
  - ring.
  - rewrite IH, (IH (0 + x)). ring.
Qed.

Lemma Qsum_cons x l : Qsum (x :: l) == x + Qsum l.
Proof. unfold Qsum. simpl. rewrite fold_left_Qplus. unfold Qsum. ring. Qed.

Lemma dict_get_update d k f k' :
  dict_get (dict_update d k f) k'
  = if String.eqb k k' then option_map f (dict_get d k') else dict_get d k'.
Proof.
  induction d as [|[k0 c0] rest IH]; simpl.
  - now destruct (String.eqb k k').
  - destruct (String.eqb k0 k) eqn:E1; simpl.
    + apply String.eqb_eq in E1. subst k0.
      destruct (String.eqb k k') eqn:E2; reflexivity.
    + destruct (String.eqb k0 k') eqn:E2.
      * destruct (String.eqb k k') eqn:E3; [|reflexivity].
        apply String.eqb_eq in E2, E3. subst.
        rewrite String.eqb_refl in E1. discriminate.
      * exact IH.
Qed.

Lemma dict_get_unique (d : ArrayDict) k c :
  NoDup (dict_keys d) -> In (k, c) d -> dict_get d k = Some c.
Proof.
  unfold dict_keys.
  induction d as [|[k0 c0] rest IH]; simpl; intros Hnd Hin; [contradiction|].
  inversion Hnd as [|? ? Hnotin Hnd']; subst.
  destruct Hin as [Heq|Hin].
  - inversion Heq; subst. now rewrite String.eqb_refl.
  - destruct (String.eqb k0 k) eqn:E.
    + apply String.eqb_eq in E. subst k0. exfalso. apply Hnotin.
      apply in_map_iff. now exists (k, c).
    + now apply IH.
Qed.

Lemma arrayDict_update_inv k f s s' :
  arrayDict_update k f s = (s', inr tt) ->
  s' = set_arrayDict (dict_update (arrayDict s) k f) s.
Proof.
  unfold arrayDict_update. intro H.
  apply bind_inr_inv in H. destruct H as [s1 [c [Hc H]]].
  apply arrayDict_at_inv in Hc. subst s1.
  now apply modify_inr_inv in H.
Qed.

Section RollUp.
Variable inp : Inputs.

Lemma set_device_outputs_arrayDict index e d s s' :
  set_device_outputs index e d s = (s', inr tt) ->
  arrayDict s' = arrayDict s.
Proof.
  unfold set_device_outputs. intro H.
  apply bind_inr_inv in H. destruct H as [s1 [s0 [Hg H]]].
  apply get_inr_inv in Hg. destruct Hg as [-> ->].
  apply bind_inr_inv in H. destruct H as [s1 [energies [He H]]].
  apply need_inr_inv in He. destruct He as [_ ->].
  apply bind_inr_inv in H. destruct H as [s1 [[] [Hm H]]].
  apply modify_inr_inv in Hm. subst s1.
  apply bind_inr_inv in H. destruct H as [s1 [s0 [Hg H]]].
  apply get_inr_inv in Hg. destruct Hg as [-> ->].
  apply bind_inr_inv in H. destruct H as [s1 [downtimes [He H]]].
  apply need_inr_inv in He. destruct He as [_ ->].
  apply modify_inr_inv in H. subst s'. reflexivity.
Qed.

(** What the roll-up reads of an entry. *)
Definition core (c : ArrayComp) : Q * Q * Q :=
  (opex_of inp c, AnnualEnergyWP2 c, downtime_of inp c).

(** The energy of one device over the mission (lines 4737-4743). *)
Definition energy_of (c : ArrayComp) : Q :=
  AnnualEnergyWP2 c / (dayHours * yearDays)
  * (operationTimeDay inp * dayHours - downtime_of inp c).

Definition opex_entries (d : ArrayDict) : list Q :=
  map (fun kc => opex_of inp (snd kc))
      (filter (fun kc => negb (is_subsystem_key (fst kc))) d).

Definition energy_entries (d : ArrayDict) : list Q :=
  map (fun kc => energy_of (snd kc))
      (filter (fun kc => Py.str_in "device" (fst kc)) d).

(** The loop over the entries [rest] that are still to come, from the sums
    [o] and [e]: the entries already seen may have been written, their
    ledgers have not. *)
Lemma postCalculation_loop :
  forall (rest : ArrayDict) (o e : Q) (s s1 : Calc) (opex energy : Q),
    (forall k c, In (k, c) rest ->
       option_map core (dict_get (arrayDict s) k) = Some (core c)) ->
    NoDup (dict_keys rest) ->
    for_fold (dict_keys rest) (o, e) (postCalculation_entry inp) s
    = (s1, inr (opex, energy)) ->
    opex == o + Qsum (opex_entries rest)
    /\ energy == e + Qsum (energy_entries rest).
Proof.
  induction rest as [|[k c] rest IH];
    intros o e s s1 opex energy Hcore Hnd Hrun.
  - simpl in Hrun. unfold ret in Hrun. inversion Hrun; subst.
    unfold opex_entries, energy_entries, Qsum. simpl. split; ring.
  - inversion Hnd as [|? ? Hnotin Hnd']; subst.
    cbn [dict_keys map fst for_fold] in Hrun.
    apply bind_inr_inv in Hrun. destruct Hrun as [s2 [[o2 e2] [Hbody Hrun]]].
    unfold postCalculation_entry in Hbody.
    apply bind_inr_inv in Hbody. destruct Hbody as [s3 [c' [Hc' Hbody]]].
    pose proof (arrayDict_at_inv _ _ Hc') as ->.
    unfold arrayDict_at in Hc'.
    apply bind_inr_inv in Hc'. destruct Hc' as [s4 [s0 [Hg Hc']]].
    apply get_inr_inv in Hg. destruct Hg as [-> ->].
    apply need_inr_inv in Hc'. destruct Hc' as [Hget _].
    pose proof (Hcore k c (or_introl eq_refl)) as Hk.
    rewrite Hget in Hk. cbn [option_map] in Hk.
    assert (Hk' : core c' = core c) by congruence. clear Hk.
    unfold core in Hk'.
    pose proof (f_equal (fun t => fst (fst t)) Hk') as Hopex.
    pose proof (f_equal (fun t => snd (fst t)) Hk') as Hwp2.
    pose proof (f_equal snd Hk') as Hdown.
    cbn [fst snd] in Hopex, Hwp2, Hdown. clear Hk'.
    assert (Hstep : (forall k1 c1, In (k1, c1) rest ->
                       option_map core (dict_get (arrayDict s2) k1)
                       = Some (core c1))
                    /\ o2 = (if negb (is_subsystem_key k)
                             then o + opex_of inp c else o)
                    /\ e2 = (if Py.str_in "device" k
                             then e + energy_of c else e)).
    { destruct (Py.str_in "device" k).
      - apply bind_inr_inv in Hbody. destruct Hbody as [s5 [[] [Hu1 Hbody]]].
        apply arrayDict_update_inv in Hu1. subst s5.
        apply bind_inr_inv in Hbody. destruct Hbody as [s5 [[] [Hu2 Hbody]]].
        apply arrayDict_update_inv in Hu2. subst s5.
        apply bind_inr_inv in Hbody. destruct Hbody as [s5 [piece [Hp Hbody]]].
        apply need_inr_inv in Hp. destruct Hp as [_ ->].
        apply bind_inr_inv in Hbody. destruct Hbody as [s5 [n [Hn Hbody]]].
        apply need_inr_inv in Hn. destruct Hn as [_ ->].
        apply bind_inr_inv in Hbody. destruct Hbody as [s5 [[] [Hout Hbody]]].
        apply set_device_outputs_arrayDict in Hout.
        unfold ret in Hbody. inversion Hbody; subst s2 o2 e2. clear Hbody.
        split; [|split].
        + intros k1 c1 Hin1. rewrite Hout.
          cbn [arrayDict set_arrayDict]. rewrite !dict_get_update.
          destruct (String.eqb k k1) eqn:E.
          * apply String.eqb_eq in E. subst k1. exfalso. apply Hnotin.
            unfold dict_keys. apply in_map_iff. now exists (k, c1).
          * apply Hcore. now right.
        + now rewrite Hopex.
        + unfold energy_of. now rewrite Hwp2, Hdown.
      - unfold ret in Hbody. inversion Hbody; subst s2 o2 e2.
        split; [|split].
        + intros k1 c1 Hin1. apply Hcore. now right.
        + now rewrite Hopex.
        + reflexivity. }
    destruct Hstep as [Hcore2 [-> ->]].
    destruct (IH _ _ _ _ _ _ Hcore2 Hnd' Hrun) as [Ho He].
    rewrite Ho, He. unfold opex_entries, energy_entries.
    cbn [filter fst snd].
    destruct (negb (is_subsystem_key k)); destruct (Py.str_in "device" k);
      cbn [map snd]; rewrite ?Qsum_cons; split; ring.
Qed.

(** The two sums of the roll-up: the cost entries of the devices and of
    the components of the array (the sub-systems of the devices left out),
    and the energy of the devices over the mission. *)
Theorem postCalculation_sums_spec (s s1 : Calc) (opex energy : Q) :
  NoDup (dict_keys (arrayDict s)) ->
  postCalculation_sums inp s = (s1, inr (opex, energy)) ->
  opex == Qsum (opex_entries (arrayDict s))
  /\ energy == Qsum (energy_entries (arrayDict s)).
Proof.
  intros Hnd Hrun. unfold postCalculation_sums in Hrun.
  apply bind_inr_inv in Hrun. destruct Hrun as [s2 [s0 [Hg Hrun]]].
  apply get_inr_inv in Hg. destruct Hg as [-> ->].
  destruct (@postCalculation_loop (arrayDict s) 0 0 s s1
              opex energy) as [Ho He].
  - intros k c Hin. now rewrite (@dict_get_unique _ _ _ Hnd Hin).
  - exact Hnd.
  - exact Hrun.
  - split; [rewrite Ho | rewrite He]; ring.
Qed.

(** C1, as the code has it.  The LCOE is guarded by the annual array
    energy of this pass and divided by the annual array energy stored in
    the outputs, which this pass writes only afterwards.  On the outputs
    of [__init__], where that entry is 0, a pass whose array energy is
    not close to 0 ends in [ZeroDivisionError]: no LCOE is written. *)
Theorem postCalculation_divides_by_stored_energy
    (s s1 : Calc) (dummyOpexAll dummyEnergyAll : Q) :
  postCalculation_sums inp s = (s1, inr (dummyOpexAll, dummyEnergyAll)) ->
  Qeq_bool (operationTimeYear inp) 0 = false ->
  Py.isclose0 (dummyEnergyAll / operationTimeYear inp) = false ->
  annualEnergyOfArray (outputsOfWP6 s1) == 0 ->
  postCalculation inp s = (s1, inl Py.ZeroDivisionError).
Proof.
  intros Hsums Hyear Hfar Hstored. unfold postCalculation.
  rewrite (bind_inr _ _ _ Hsums). cbn beta iota. rewrite Hyear.
  cbn [negb]. rewrite Hfar. cbn [negb].
  erewrite bind_inr by reflexivity.
  unfold py_div.
  assert (Hz : Qeq_bool (annualEnergyOfArray (outputsOfWP6 s1) / 1000) 0
               = true).
  { apply Qeq_bool_iff. rewrite Hstored. reflexivity. }
  rewrite Hz. reflexivity.
Qed.

(** When the array energy of the pass is close to 0, the LCOE written
    is 0. *)
Lemma postCalculation_no_energy
    (s s1 : Calc) (dummyOpexAll dummyEnergyAll : Q) :
  postCalculation_sums inp s = (s1, inr (dummyOpexAll, dummyEnergyAll)) ->
  Qeq_bool (operationTimeYear inp) 0 = false ->
  Py.isclose0 (dummyEnergyAll / operationTimeYear inp) = true ->
  exists s2,
    postCalculation inp s = (s2, inr tt)
    /\ lcoeOfArray (outputsOfWP6 s2) == 0.
Proof.
  intros Hsums Hyear Hclose. unfold postCalculation.
  rewrite (bind_inr _ _ _ Hsums). cbn beta iota. rewrite Hyear.
  cbn [negb]. rewrite Hclose. cbn [negb].
  erewrite bind_inr by reflexivity.
  erewrite bind_inr by reflexivity.
  eexists. split; [reflexivity|]. reflexivity.
Qed.

(** The roll-up of the small farm before any maintenance action: one
    device, no cost entry.  The annual opex is 0 and the annual energy is
    8766000 Wh, so the LCOE is 0 by the formula; the pass raises. *)
Example postCalculation_on_the_farm :
  let inp := Farm.inputs true false false false false in
  let s := Farm.attributes Farm.dict [] [] [] in
  (exists opex energy,
      outcome_of (postCalculation_sums inp s) = inr (opex, energy)
      /\ opex == 0 /\ energy / operationTimeYear inp == 8766000)
  /\ outcome_of (postCalculation inp s) = inl Py.ZeroDivisionError
  /\ lcoeOfArray (outputsOfWP6 (state_of (postCalculation inp s))) = 0
  /\ eventTables_UnCoMa (outputsOfWP6 (state_of (postCalculation inp s)))
     = None.
Proof.
  split; [|vm_compute; repeat split].
  eexists. eexists. split; [vm_compute; reflexivity|].
  split; vm_compute; reflexivity.
Qed.

End RollUp.

Section Driver.
Variable inp : Inputs.
Variable om_logistics_main : DataFrame.t (option Request) -> OmLogistic.
Variable initCalc initCheck : M unit.

(** C2, as the code has it.  With [integrateSelectPort] or
    [checkNoSolution] set and no infeasibility found, [executeCalc]
    returns after [__initCheck]: the record it returns is the record as it
    was after the check, with the error table holding ['NoError'];
    [__calcLCOE_OfArray] is not run, whatever the bound on its loop. *)
Theorem executeCalc_preflight_returns_before_simulation
    (fuel : nat) (s s1 s2 : Calc) :
  integrateSelectPort inp || checkNoSolution inp = true ->
  initCalc s = (s1, inr tt) ->
  initCheck s1 = (s2, inr tt) ->
  errorFlag s2 = false ->
  let table := DataFrame.ix_set (errorTable s2) 0 (Some noError) in
  let record := set_error table (outputsOfWP6 s2) in
  executeCalc inp om_logistics_main initCalc initCheck fuel s
  = (set_outputsOfWP6 record (set_errorTable table s2), inr (Some record)).
Proof.
  intros Hpre Hcalc Hcheck Hflag table record. unfold executeCalc.
  rewrite (bind_inr _ _ _ Hcalc). rewrite Hpre.
  rewrite (bind_inr _ _ _ Hcheck).
  erewrite bind_inr by reflexivity. rewrite Hflag.
  reflexivity.
Qed.

(** What a finished roll-up always leaves in the record: under each of
    the three keys of ['eventTables [-]'], the output event table of that
    track. *)
Definition full_result_record (o : Outputs) : Prop :=
  eventTables_UnCoMa o = Some Ref_UnCoMa_outputEventsTable
  /\ eventTables_CoBaMa o = Some Ref_CoBaMa_outputEventsTable
  /\ eventTables_CaBaMa o = Some Ref_CaBaMa_outputEventsTable.

End Driver.

(** On the small farm, with the pre-flight check enabled and nothing
    infeasible: the record returned says ['NoError'] and holds the values
    of [__init__], no event table and an LCOE of 0; even a simulation and a
    roll-up that do nothing but succeed are not run. *)
Example executeCalc_preflight_on_the_farm :
  let inp := Farm.inputs true false false false true in
  let r := executeCalc inp Farm.solution (ret tt) (ret tt) 100
             (Farm.attributes Farm.dict [Farm.failure "Pto001" 10] [] []) in
  outcome_of r
  = inr (Some (set_error [(0%Z, Some noError)] Farm.fresh_outputs))
  /\ ~ (forall o, outcome_of r = inr (Some o) -> full_result_record o).
Proof.
  split; [vm_compute; reflexivity|].
  intro H. destruct (H _ eq_refl) as [Hu _]. discriminate Hu.
Qed.

(** The whole run of the small farm, corrective maintenance only, one
    failure: the simulation loop ends after one action, whose cost is on
    the ledger of the device, and the roll-up raises on the division
    (C1). *)
Example executeCalc_corrective_on_the_farm :
  let inp := Farm.inputs true false false false false in
  let s := Farm.attributes Farm.dict [Farm.failure "Pto001" 10] [] [] in
  let sim := calcLCOE_OfOM inp Farm.solution 100 s in
  let r := executeCalc inp Farm.solution (ret tt) (ret tt) 100 s in
  outcome_of sim = inr (Some tt)
  /\ actIdxOfUnCoMa (state_of sim) = 1%Z
  /\ outcome_of r = inl Py.ZeroDivisionError
  /\ lcoeOfArray (outputsOfWP6 (state_of r)) = 0
  /\ option_map (fun c => map Qred (CostLogistic (UnCoMaL c)))
       (dict_get (arrayDict (state_of r)) "device001"%string)
     = Some [100].
Proof. vm_compute. repeat split. Qed.

(* ===================================================================== *)
(** * The condition track *)

(** C8, at a failing input.  The condition table of the small farm holds an
    alarm of [Pto001] at hour 100 and one of [Pto002] at hour 300, and the
    logistics module finds a solution for the first.  The step raises in
    the loop over the devices, on [breakdown], which only the deferred
    branch assigns: no continuation row is appended and the table is as it
    was. *)
Example condition_solution_appends_nothing :
  let s := Farm.attributes Farm.dict [] []
             [Farm.alarm (Farm.pto "Pto001") 100;
              Farm.alarm (Farm.pto "Pto002") 300] in
  let r := get_lcoe_condition (Farm.inputs false true false false false)
             Farm.solution 0 0 s in
  outcome_of r = inl (Py.UnboundLocalError "breakdown")
  /\ CoBaMa_eventsTable (state_of r) = CoBaMa_eventsTable s.
Proof. vm_compute. split; reflexivity. Qed.

(** The continuation itself, on an array dictionary without a device entry,
    where the loop over the devices does not read [breakdown].  The alarm of
    the substation at hour 100 is realized, back at hour 150; the pending
    draws of the substation are at hours 200, 400 and 900, the threshold is
    1/2.  The continuation is (start 150, end 400, alarm 275).  The row
    appended for it, a copy of the current row, keeps the dates of the
    current row (0, 200, 100); the new dates are written to the row that was
    last before, the pending alarm of [Pto002], which is lost. *)
Example condition_continuation_overwrites_last_row :
  let s := Farm.attributes [("Substation001"%string, Farm.component)] [] []
             [Farm.alarm Farm.substation 100;
              Farm.alarm (Farm.pto "Pto002") 300] in
  let r := get_lcoe_condition (Farm.inputs false true false false false)
             Farm.solution 0 0 s in
  outcome_of r = inl (Py.UnboundLocalError "flagCalcCoBaMa")
  /\ map (fun lr => (fst lr, ComponentID (CoBaMa.ident (snd lr)),
                     Qred (CoBaMa.currentStartDate (snd lr)),
                     Qred (CoBaMa.currentEndDate (snd lr)),
                     Qred (CoBaMa.currentAlarmDate (snd lr))))
         (CoBaMa_eventsTable (state_of r))
     = [(0%Z, "Substation001"%string, 0, 200, 100);
        (1%Z, "Substation001"%string, 0, 200, 100);
        (2%Z, "Pto002"%string, 150, 400, 275)].
Proof. vm_compute. split; reflexivity. Qed.

(** The one way the step returns: all devices are turned out and the row
    is the last of the table. *)
Example condition_skipped_on_the_farm :
  let s := set_NrOfTurnOutDevices 1
             (Farm.attributes Farm.dict [] []
                [Farm.alarm (Farm.pto "Pto001") 100]) in
  let r := get_lcoe_condition (Farm.inputs false true false false false)
             Farm.solution 5 7 s in
  outcome_of r = inr (0%Z, 7%Z, false)
  /\ CoBaMa_eventsTable (state_of r) = CoBaMa_eventsTable s.
Proof. vm_compute. split; reflexivity. Qed.

(* ===================================================================== *)
(** * The calendar track: the shares of a block (C7) *)





Section Shares.

(** Block size, the two costs written, first row of the block in the
    table, sea time. *)
Variable b : Z.
Variables lc oc : Q.
Variable a : Z.
Variable sea : Q.









End Shares.







(** A group of exactly 10 actions: the list of blocks is [[10; 0]]; after
    the block of 10 the loop reads row 10 of the 10 selected rows and
    raises. *)
Example calendar_group_of_ten_raises :
  let s := Farm.attributes Farm.dict []
             (map (fun _ => Farm.window "Pto001") (seq 0 10)) [] in
  let r := get_lcoe_calendar (Farm.inputs false false true false false)
             Farm.solution 0 0 s in
  blockNumberList 10 = [10; 0]%Z
  /\ outcome_of r = inl (Py.KeyError "dummyCaBaMaTable")
  /\ actIdxOfCaBaMa (state_of r) = 10%Z.
Proof. vm_compute. repeat split. Qed.

(** The two actions above, one block: all blocks done, the [return] finds
    [flagCalcCoBaMa] unbound. *)
Example calendar_exhaustion_raises :
  let s := Farm.attributes Farm.dict []
             [Farm.window "Pto001"; Farm.window "Pto002"] [] in
  let r := get_lcoe_calendar (Farm.inputs false false true false false)
             Farm.solution 0 0 s in
  outcome_of r = inl (Py.UnboundLocalError "flagCalcCoBaMa")
  /\ actIdxOfCaBaMa (state_of r) = 2%Z.
Proof. vm_compute. split; reflexivity. Qed.


(** The same four policies, run: the rows or the exception of each. *)
Example calendar_builder_on_the_farm :
  let starts (r : Py.exn + option (bool * list CaBaMa.row)) :=
    match r with
    | inl e => inl e
    | inr o =>
        inr (option_map
               (fun fr => map (fun g => Qred (CaBaMa.startActionDate g))
                              (snd fr)) o)
    end in
  let run p fuel :=
    starts (calendar_rows (Farm.calendar_inputs p) fuel Farm.pto001) in
  run Farm.late_policy 10%nat = inr (Some [])
  /\ run Farm.still_policy 50%nat = inr None
  /\ run Farm.thirds_policy 10%nat = inr (Some [0; 2922; 5844])
  /\ run Farm.far_policy 10%nat = inl Py.OverflowError
  /\ run Farm.policy 10%nat
     = inr (Some [100; 4583 # 2; 4483; 13349 # 2]).
Proof. vm_compute. repeat split. Qed.

(* ===================================================================== *)
(** * The cost of an action: labour *)

(** The hours of an action by time of day and by part of the week, as
    [__calcCostOfOM] bills them. *)
Definition billed (total part whole : Q) : Q :=
  if negb (Qeq_bool whole 0) then total * part / whole else 0.

Lemma working_hours_inv e h d s s' x :
  working_hours e h d s = (s', inr x) -> s' = s.
Proof.
  unfold working_hours. intro H.
  apply bind_inr_inv in H. destruct H as [s1 [[q r] [Hd H]]].
  apply need_inr_inv in Hd. destruct Hd as [_ ->].
  unfold ret in H. now inversion H.
Qed.

Lemma weeks_inv (sea workdays : Q) s s' (x : Q * Q) :
  (' (q, _) <- need (Py.fdivmod (sea / dayHours) workdays)
                    Py.ZeroDivisionError ;;
   ret (sea - q * dayHours, q * dayHours)) s = (s', inr x) ->
  s' = s /\ fst x + snd x == sea.
Proof.
  intro H. apply bind_inr_inv in H. destruct H as [s1 [[q r] [Hd H]]].
  apply need_inr_inv in Hd. destruct Hd as [_ ->].
  unfold ret in H. inversion H; subst. split; [reflexivity|]. simpl. ring.
Qed.

(** What a return of [__calcCostOfOM] was computed from: the split
    [(weekend, notweekend)] of the sea time by the week and the split
    [(day, night)] by the time of day. *)
Lemma calcCostOfOM_inv inp fm cid s s' sp om :
  calcCostOfOM inp fm cid s = (s', inr (sp, om)) ->
  exists (weekend notweekend day night : Q) (act : ActionRec)
         (failure : FailureModeRec) (d : datetime),
    repairActionDate s = Some d
    /\ (let summerTime :=
          existsb (Z.eqb (month d)) [3; 4; 5; 6; 7; 8]%Z in
        if (summerTime && Qle_bool (workdays_summer inp) 7)
           || (negb summerTime && Qle_bool (workdays_winter inp) 7)
        then weekend + notweekend == totalSeaTimeHour s
        else weekend = 0 /\ notweekend = 0)
    /\ day + night == totalSeaTimeHour s
    /\ (if Py.str_in "Insp" fm then Inspection inp cid
        else Repair_Action inp cid) = Some act
    /\ Failure_Mode inp cid = Some failure
    /\ sp = cost_spare failure + cost_spare_transit failure
            + cost_spare_loading failure
    /\ om = sp
            + (inject_Z (number_specialists act) * wage_specialist_day inp
               * billed day notweekend (weekend + notweekend)
               + inject_Z (number_specialists act)
                 * wage_specialist_night inp
                 * billed day weekend (weekend + notweekend)
               + inject_Z (number_specialists act)
                 * wage_specialist_night inp
                 * billed night notweekend (weekend + notweekend)
               + inject_Z (number_specialists act)
                 * wage_specialist_night inp
                 * billed night weekend (weekend + notweekend))
            + (inject_Z (number_technicians act) * wage_technician_day inp
               * billed day notweekend (weekend + notweekend)
               + inject_Z (number_technicians act)
                 * wage_technician_night inp
                 * billed day weekend (weekend + notweekend)
               + inject_Z (number_technicians act)
                 * wage_technician_night inp
                 * billed night notweekend (weekend + notweekend)
               + inject_Z (number_technicians act)
                 * wage_technician_night inp
                 * billed night weekend (weekend + notweekend)).
Proof.
  intro Hrun. unfold calcCostOfOM in Hrun.
  apply bind_inr_inv in Hrun. destruct Hrun as [s1 [s0 [Hg Hrun]]].
  apply get_inr_inv in Hg. destruct Hg as [-> ->].
  apply bind_inr_inv in Hrun. destruct Hrun as [s1 [d [Hd Hrun]]].
  apply need_inr_inv in Hd. destruct Hd as [Hd ->].
  cbv zeta in Hrun.
  apply bind_inr_inv in Hrun. destruct Hrun as [s1 [acc [Hacc Hrun]]].
  apply bind_inr_inv in Hrun.
  destruct Hrun as [s2 [[weekend notweekend] [Hweek Hrun]]].
  apply bind_inr_inv in Hrun. destruct Hrun as [s3 [depart [Hdep Hrun]]].
  apply need_inr_inv in Hdep. destruct Hdep as [Hdep ->].
  apply bind_inr_inv in Hrun. destruct Hrun as [s3 [endOp [Hend Hrun]]].
  apply need_inr_inv in Hend. destruct Hend as [Hend ->].
  apply bind_inr_inv in Hrun.
  destruct Hrun as [s3 [[day night] [Hday Hrun]]].
  apply bind_inr_inv in Hrun. destruct Hrun as [s4 [act [Hact Hrun]]].
  apply bind_inr_inv in Hrun. destruct Hrun as [s5 [failure [Hf Hrun]]].
  apply need_inr_inv in Hf. destruct Hf as [Hf ->].
  unfold ret in Hrun. inversion Hrun; subst s' sp. clear Hrun.
  exists weekend, notweekend, day, night, act, failure, d.
  split; [exact Hd|]. split; [|split; [|split; [|split; [exact Hf|split]]]].
  - cbv zeta.
    destruct (existsb (Z.eqb (month d)) [3; 4; 5; 6; 7; 8]%Z
              && Qle_bool (workdays_summer inp) 7) eqn:G1;
      destruct (negb (existsb (Z.eqb (month d)) [3; 4; 5; 6; 7; 8]%Z)
                && Qle_bool (workdays_winter inp) 7) eqn:G2;
      cbn [orb].
    + apply weeks_inv in Hweek. now destruct Hweek.
    + unfold ret in Hweek. inversion Hweek; subst.
      apply weeks_inv in Hacc. now destruct Hacc.
    + apply weeks_inv in Hweek. now destruct Hweek.
    + unfold ret in Hacc, Hweek. inversion Hacc; subst.
      inversion Hweek; subst. split; reflexivity.
  - match type of Hday with
    | (if ?c then _ else _) _ = _ => destruct c
    end.
    + apply bind_inr_inv in Hday. destruct Hday as [s6 [x [_ Hday]]].
      unfold ret in Hday. inversion Hday; subst. ring.
    + apply bind_inr_inv in Hday. destruct Hday as [s6 [x [_ Hday]]].
      unfold ret in Hday. inversion Hday; subst. ring.
  - destruct (Py.str_in "Insp" fm);
      apply need_inr_inv in Hact; tauto.
  - reflexivity.
  - reflexivity.
Qed.

Lemma billed_whole (a b c d w : Q) :
  c + d == w -> a + b == w ->
  billed a c w + billed a d w + billed b c w + billed b d w == w.
Proof.
  intros Hcd Hab. unfold billed.
  destruct (Qeq_bool w 0) eqn:E; cbn [negb].
  - apply Qeq_bool_iff in E. rewrite E. ring.
  - assert (Hw : ~ w == 0).
    { intro H. apply Qeq_bool_iff in H. congruence. }
    setoid_replace (a * c / w + a * d / w + b * c / w + b * d / w)
      with ((a + b) * (c + d) / w) by (field; exact Hw).
    rewrite Hcd, Hab. field. exact Hw.
Qed.

(** With the week of the season at most seven working days long and the
    same wage by day and by night, the labour is billed by the hour at
    sea: the cost returned is the cost of the spare part plus head count
    times wage times sea time, whatever the time of day of the action and
    the split of the sea time by the week. *)
Theorem calcCostOfOM_flat_wage inp fm cid s s' sp om act :
  calcCostOfOM inp fm cid s = (s', inr (sp, om)) ->
  Qle_bool (workdays_summer inp) 7 = true ->
  Qle_bool (workdays_winter inp) 7 = true ->
  wage_specialist_day inp == wage_specialist_night inp ->
  wage_technician_day inp == wage_technician_night inp ->
  (if Py.str_in "Insp" fm then Inspection inp cid
   else Repair_Action inp cid) = Some act ->
  om == sp
        + (inject_Z (number_specialists act) * wage_specialist_night inp
           + inject_Z (number_technicians act) * wage_technician_night inp)
          * totalSeaTimeHour s.
Proof.
  intros Hrun Hs Hw Hspec Htech Hact.
  apply calcCostOfOM_inv in Hrun.
  destruct Hrun
    as [we [nwe [day [night [act' [failure [d
         [_ [Hweek [Hday [Hact' [_ [_ Hom]]]]]]]]]]]]].
  rewrite Hact in Hact'. inversion Hact'; subst act'. clear Hact'.
  cbv zeta in Hweek. rewrite Hs, Hw, !andb_true_r, orb_negb_r in Hweek.
  rewrite Hom, Hspec, Htech.
  set (w := we + nwe) in *.
  pose proof (@billed_whole day night nwe we w) as Hb.
  assert (Hc : nwe + we == w) by (unfold w; ring).
  specialize (Hb Hc).
  assert (Hd : day + night == w) by (rewrite Hday, Hweek; reflexivity).
  specialize (Hb Hd).
  rewrite <- Hweek.
  set (b1 := billed day nwe w) in *. set (b2 := billed day we w) in *.
  set (b3 := billed night nwe w) in *. set (b4 := billed night we w) in *.
  clearbody b1 b2 b3 b4 w. rewrite <- Hb. ring.
Qed.

Lemma billed_zero a b : billed a b (0 + 0) = 0.
Proof. reflexivity. Qed.

(** With a week of more than seven working days in both seasons, the sea
    time is not split by the week and no labour is billed: the cost
    returned is the cost of the spare part alone, whatever the head count
    and the wages. *)
Theorem calcCostOfOM_long_week_bills_no_labour inp fm cid s s' sp om :
  calcCostOfOM inp fm cid s = (s', inr (sp, om)) ->
  Qle_bool (workdays_summer inp) 7 = false ->
  Qle_bool (workdays_winter inp) 7 = false ->
  om == sp.
Proof.
  intros Hrun Hs Hw. apply calcCostOfOM_inv in Hrun.
  destruct Hrun
    as [we [nwe [day [night [act [failure [d
         [_ [Hweek [_ [_ [_ [_ Hom]]]]]]]]]]]]].
  cbv zeta in Hweek. rewrite Hs, Hw, !andb_false_r in Hweek.
  cbn [orb] in Hweek. destruct Hweek as [-> ->].
  rewrite Hom, !billed_zero. ring.
Qed.

(** A week of zero working days in both seasons: the split of the sea
    time by the week divides by it, and the call ends in
    [ZeroDivisionError], the attributes as they were. *)
Theorem calcCostOfOM_no_workdays_raises inp fm cid s d :
  repairActionDate s = Some d ->
  workdays_summer inp == 0 ->
  workdays_winter inp == 0 ->
  calcCostOfOM inp fm cid s = (s, inl Py.ZeroDivisionError).
Proof.
  intros Hd Hs Hw. unfold calcCostOfOM.
  erewrite bind_inr by reflexivity. rewrite Hd.
  erewrite bind_inr by reflexivity. cbv zeta.
  assert (Hs7 : Qle_bool (workdays_summer inp) 7 = true).
  { apply Qle_bool_iff. rewrite Hs. discriminate. }
  assert (Hw7 : Qle_bool (workdays_winter inp) 7 = true).
  { apply Qle_bool_iff. rewrite Hw. discriminate. }
  assert (Hs0 : Qeq_bool (workdays_summer inp) 0 = true)
    by now apply Qeq_bool_iff.
  assert (Hw0 : Qeq_bool (workdays_winter inp) 0 = true)
    by now apply Qeq_bool_iff.
  rewrite Hs7, Hw7, !andb_true_r. unfold Py.fdivmod. rewrite Hs0, Hw0.
  destruct (existsb (Z.eqb (month d)) [3; 4; 5; 6; 7; 8]%Z); reflexivity.
Qed.

(* ===================================================================== *)
(** * The coordination: request dates *)

Section RequestDates.
Variable inp : Inputs.

(** The request date of a row is the one lines 1714-1750 give it. *)
Definition requested (u : UnCoMa.row) : Prop :=
  shift_repairActionEvents inp u = inr u.

Lemma shift_repairActionEvents_requested u u' :
  shift_repairActionEvents inp u = inr u' ->
  u' = UnCoMa.set_repairActionEvents (UnCoMa.repairActionEvents u') u
  /\ requested u'.
Proof.
  unfold requested, shift_repairActionEvents. intro H.
  destruct (negb (Py.str_in "Insp" (FM_ID (UnCoMa.ident u)))) eqn:E.
  - destruct (Repair_Action inp (compIDWithIndex (UnCoMa.ident u)))
      as [a|] eqn:Ha; [|discriminate].
    inversion H; subst u'. clear H. cbn [UnCoMa.ident
      UnCoMa.set_repairActionEvents UnCoMa.failureEvents
      UnCoMa.repairActionEvents UnCoMa.failureRate].
    rewrite E, Ha. split; reflexivity.
  - destruct (Inspection inp (compIDWithIndex (UnCoMa.ident u)))
      as [a|] eqn:Ha; [|discriminate].
    inversion H; subst u'. clear H. cbn [UnCoMa.ident
      UnCoMa.set_repairActionEvents UnCoMa.failureEvents
      UnCoMa.repairActionEvents UnCoMa.failureRate].
    rewrite E, Ha. split; reflexivity.
Qed.

Lemma in_set_loc_inv (R : Type) (df : DataFrame.t R) l (f : R -> R) l' r :
  In (l', r) (DataFrame.set_loc df l f) ->
  (l' <> l /\ In (l', r) df)
  \/ (l' = l /\ exists r0, In (l, r0) df /\ r = f r0).
Proof.
  unfold DataFrame.set_loc. rewrite in_map_iff.
  intros [[l0 r0] [Heq Hin]]. simpl in Heq.
  destruct (l0 =? l)%Z eqn:E.
  - apply Z.eqb_eq in E. subst l0. inversion Heq; subst.
    right. split; [reflexivity|]. now exists r0.
  - apply Z.eqb_neq in E. inversion Heq; subst. left. now split.
Qed.

(** The loop of lines 1711-1750 over the labels [labels], on a table with
    unique labels: the rows under these labels have their request date,
    the others are as they were. *)
Lemma shift_steps_requested labels : forall df df',
  NoDup (DataFrame.index df) ->
  fold_left (shift_step inp) labels (inr df) = inr df' ->
  DataFrame.index df' = DataFrame.index df
  /\ forall l u, In (l, u) df' ->
       (In l labels -> requested u) /\ (~ In l labels -> In (l, u) df).
Proof.
  induction labels as [|i labels IH]; intros df df' Hnd Hrun;
    simpl in Hrun.
  - inversion Hrun; subst. split; [reflexivity|].
    intros l u Hin. split; [intros []|intros _; exact Hin].
  - destruct (DataFrame.at_label df i) as [u0|] eqn:Hu0;
      [|rewrite shift_steps_stuck in Hrun; discriminate].
    destruct (shift_repairActionEvents inp u0) as [e|u'] eqn:Hu';
      [rewrite shift_steps_stuck in Hrun; discriminate|].
    destruct (@shift_repairActionEvents_requested u0 u' Hu') as [Hset Hreq].
    set (df1 := DataFrame.set_loc df i
                  (UnCoMa.set_repairActionEvents
                     (UnCoMa.repairActionEvents u'))) in *.
    assert (Hidx1 : DataFrame.index df1 = DataFrame.index df)
      by apply index_set_loc.
    destruct (IH df1 df') as [Hidx Hrows];
      [now rewrite Hidx1 | exact Hrun |].
    split; [now rewrite Hidx|].
    intros l u Hin. destruct (Hrows l u Hin) as [Hdone Hkept].
    destruct (in_dec Z.eq_dec l labels) as [Hl|Hl].
    + split; [intros _; now apply Hdone|].
      intro Hno. exfalso. apply Hno. now right.
    + specialize (Hkept Hl).
      apply in_set_loc_inv in Hkept.
      destruct Hkept as [[Hne Hold]|[-> [r0 [Hr0 ->]]]].
      * split; [|intros _; exact Hold].
        intros [Heq|Hl']; [congruence|contradiction].
      * split; [|intro Hno; exfalso; apply Hno; now left].
        intros _.
        rewrite (@at_label_unique _ df i u0 r0 Hnd Hu0 Hr0). now rewrite <- Hset.
Qed.

Lemma fold_shift_step_labels labels : forall df df',
  fold_left (shift_step inp) labels (inr df) = inr df' ->
  incl labels (DataFrame.index df).
Proof.
  induction labels as [|i labels IH]; intros df df' Hrun; simpl in Hrun.
  - intros x [].
  - destruct (DataFrame.at_label df i) as [u0|] eqn:Hu0;
      [|rewrite shift_steps_stuck in Hrun; discriminate].
    destruct (shift_repairActionEvents inp u0) as [e|u'] eqn:Hu';
      [rewrite shift_steps_stuck in Hrun; discriminate|].
    apply IH in Hrun. rewrite index_set_loc in Hrun.
    intros x [<-|Hx]; [|now apply Hrun].
    clear - Hu0. unfold DataFrame.index.
    induction df as [|[l0 r0] rest IHd]; simpl in *; [discriminate|].
    destruct (l0 =? i)%Z eqn:E.
    + left. now apply Z.eqb_eq.
    + right. now apply IHd.
Qed.

(** Whenever the loop of lines 1711-1750 ends without error, every row of
    the table has its request date. *)
Lemma shift_all_requested df df' :
  shift_all inp df = inr df' ->
  forall u, In u (DataFrame.rows df') -> requested u.
Proof.
  unfold shift_all. intros Hrun u Hu.
  pose proof (@fold_shift_step_labels _ _ _ Hrun) as Hincl.
  assert (Hndl : NoDup (range 0 (DataFrame.len df))).
  { unfold DataFrame.len. rewrite range_0.
    apply NoDup_map_NoDup_ForallPairs; [|apply seq_NoDup].
    intros a b _ _. apply Nat2Z.inj. }
  assert (Hlen : (List.length (DataFrame.index df)
                  <= List.length (range 0 (DataFrame.len df)))%nat).
  { unfold DataFrame.len, DataFrame.index.
    rewrite range_0, !length_map, length_seq. lia. }
  pose proof (NoDup_incl_NoDup Hndl Hlen Hincl) as Hnd.
  pose proof (NoDup_length_incl Hndl Hlen Hincl) as Hback.
  destruct (@shift_steps_requested _ _ _ Hnd Hrun) as [Hidx Hrows].
  unfold DataFrame.rows in Hu. apply in_map_iff in Hu.
  destruct Hu as [[l u0] [Heq Hin]]. simpl in Heq. subst u0.
  apply (proj1 (Hrows l u Hin)). apply Hback.
  rewrite <- Hidx. unfold DataFrame.index.
  apply in_map_iff. now exists (l, u).
Qed.

Lemma sorted_rows (R : Type) (key : R -> Q) (df : DataFrame.t R) :
  Sorted (key_le key) df ->
  Sorted (fun a b => key a <= key b) (DataFrame.rows df).
Proof.
  unfold DataFrame.rows. induction 1 as [|x l Hs IH Hhd]; simpl.
  - constructor.
  - constructor; [exact IH|].
    destruct Hhd; simpl; constructor. assumption.
Qed.

(** With corrective maintenance enabled and a corrective table that is
    not empty, whenever the coordination step of [__initCalc] ends without
    error it leaves the corrective table in the order of the request
    dates, and the request date of every row is its failure date plus the
    longer of the delay for the spare part (none for an inspection) and
    the delay for crew and organisation. *)
Theorem coordinate_orders_by_request_date
    (CoBaMa_eventsTable : DataFrame.t CoBaMa.row)
    (UnCoMa_eventsTable : DataFrame.t UnCoMa.row)
    (CoBaMa' : DataFrame.t CoBaMa.row) (UnCoMa' : DataFrame.t UnCoMa.row) :
  corrective_maintenance inp = true ->
  (0 < DataFrame.len UnCoMa_eventsTable)%Z ->
  coordinate inp CoBaMa_eventsTable UnCoMa_eventsTable
  = inr (CoBaMa', UnCoMa') ->
  Sorted (fun a b => UnCoMa.repairActionEvents a
                     <= UnCoMa.repairActionEvents b)
         (DataFrame.rows UnCoMa')
  /\ forall u, In u (DataFrame.rows UnCoMa') ->
       let inspection := Py.str_in "Insp" (FM_ID (UnCoMa.ident u)) in
       exists a : ActionRec,
         (if inspection
          then Inspection inp (compIDWithIndex (UnCoMa.ident u))
          else Repair_Action inp (compIDWithIndex (UnCoMa.ident u)))
         = Some a
         /\ let spare := if inspection then 0 else delay_spare a in
            let crew := delay_crew a + delay_organisation a in
            UnCoMa.repairActionEvents u
            = UnCoMa.failureEvents u
              + (if Qle_bool crew spare then spare else crew).
Proof.
  intros Hcorr Hlen Hrun. unfold coordinate in Hrun.
  apply Z.ltb_lt in Hlen. rewrite Hcorr, Hlen in Hrun. cbn [andb] in Hrun.
  destruct (remove_condition_entries inp (sort_condition inp
              CoBaMa_eventsTable) UnCoMa_eventsTable)
    as [e|U1]; [discriminate|].
  destruct (shift_all inp U1) as [e|U2] eqn:Hshift; [discriminate|].
  inversion Hrun; subst CoBaMa' UnCoMa'. clear Hrun.
  rewrite rows_reset_index. split.
  - apply sorted_rows, sort_sorted.
  - intros u Hu inspection.
    apply (Permutation_in _ (rows_sort _ _)) in Hu.
    pose proof (@shift_all_requested _ _ Hshift u Hu) as Hreq.
    unfold requested, shift_repairActionEvents in Hreq.
    fold inspection in Hreq.
    destruct inspection; cbn [negb] in Hreq.
    + destruct (Inspection inp (compIDWithIndex (UnCoMa.ident u)))
        as [a|]; [|discriminate].
      exists a. split; [reflexivity|]. cbv zeta.
      inversion Hreq as [Hu'].
      pose proof (f_equal UnCoMa.repairActionEvents Hu') as E.
      cbn [UnCoMa.repairActionEvents UnCoMa.set_repairActionEvents] in E.
      rewrite Hu'. symmetry. exact E.
    + destruct (Repair_Action inp (compIDWithIndex (UnCoMa.ident u)))
        as [a|]; [|discriminate].
      exists a. split; [reflexivity|]. cbv zeta.
      inversion Hreq as [Hu'].
      pose proof (f_equal UnCoMa.repairActionEvents Hu') as E.
      cbn [UnCoMa.repairActionEvents UnCoMa.set_repairActionEvents] in E.
      rewrite Hu'. symmetry. exact E.
Qed.

End RequestDates.

(* ===================================================================== *)
(** * The labels of the columns *)

Lemma py_str_inj a b : py_str a = py_str b -> a = b.
Proof.
  unfold py_str. intro H. apply DecimalZ.to_int_inj.
  assert (Hn : forall n, Z.to_int n <> Decimal.Pos Decimal.Nil
                         /\ Z.to_int n <> Decimal.Neg Decimal.Nil).
  { intro n. pose proof (DecimalZ.to_of (Z.to_int n)) as E.
    rewrite DecimalZ.of_to in E.
    split; intro Hc; rewrite Hc in E; discriminate. }
  pose proof (NilZero.isi (Z.to_int a) (proj1 (Hn a)) (proj2 (Hn a))) as Ea.
  pose proof (NilZero.isi (Z.to_int b) (proj1 (Hn b)) (proj2 (Hn b))) as Eb.
  rewrite H in Ea. congruence.
Qed.

Lemma append_inj (a x y : string) : (a ++ x = a ++ y)%string -> x = y.
Proof.
  induction a as [|c a IH]; simpl; intro H; [exact H|].
  inversion H. now apply IH.
Qed.

Lemma prefix_nil (s : string) : String.prefix "" s = true.
Proof. now destruct s. Qed.

Lemma upto_label (id x : string) :
  Py.upto "_" (id ++ String "_" x) = Py.upto "_" id.
Proof.
  induction id as [|c id IH]; [destruct x; reflexivity|].
  cbn [append Py.upto String.prefix].
  destruct (ascii_dec "_" c); [now rewrite !prefix_nil|]. now rewrite IH.
Qed.

Lemma upto_no_underscore (id : string) :
  Py.str_in "_" id = false -> Py.upto "_" id = id.
Proof.
  induction id as [|c id IH]; [reflexivity|].
  cbn [Py.str_in Py.upto String.prefix].
  destruct (ascii_dec "_" c).
  - rewrite prefix_nil. discriminate.
  - intro H. now rewrite IH.
Qed.

Lemma str_in_upto (x : string) : Py.str_in "_" (Py.upto "_" x) = false.
Proof.
  induction x as [|c x IH]; [reflexivity|].
  cbn [Py.upto String.prefix].
  destruct (ascii_dec "_" c) as [E|E]; [now rewrite prefix_nil|].
  cbn [Py.str_in String.prefix].
  destruct (ascii_dec "_" c); [contradiction|exact IH].
Qed.

(** The number of the columns of a header whose component id, cut at its
    first underscore, is [id]. *)
Definition earlier (id : string) (header : Header) : Z :=
  Z.of_nat (List.length
              (filter (fun cells => String.eqb id (Py.upto "_" (fst cells)))
                      header)).

Lemma count_fold (id : string) (cols : list string) : forall a : Z,
  fold_left (fun index column =>
               if String.eqb id (Py.upto "_" column) then (index + 1)%Z
               else index) cols a
  = (a + Z.of_nat (List.length
                     (filter (fun c => String.eqb id (Py.upto "_" c))
                             cols)))%Z.
Proof.
  induction cols as [|c cols IH]; intro a; simpl; [lia|].
  rewrite IH. destruct (String.eqb id (Py.upto "_" c)); simpl; lia.
Qed.

Lemma next_column_spec (cols : list string) (id : string) :
  next_column cols id
  = (id ++ "_"
        ++ py_str (1 + Z.of_nat (List.length
                                   (filter (fun c =>
                                              String.eqb id (Py.upto "_" c))
                                           cols))))%string.
Proof.
  unfold next_column. rewrite count_fold.
  destruct (Z.of_nat (List.length cols) =? 0)%Z eqn:E.
  - apply Z.eqb_eq in E. destruct cols; [reflexivity|simpl in E; lia].
  - set (n := Z.of_nat _). cbn [Z.add].
    destruct (n =? 0)%Z eqn:E0.
    + apply Z.eqb_eq in E0. rewrite E0. reflexivity.
    + now rewrite Z.add_comm.
Qed.

Lemma find_index_some (A : Type) (p : A -> bool) (l : list A) : forall k,
  find_index p l = Some k ->
  (0 <= k < Z.of_nat (List.length l))%Z
  /\ exists x, nth_error l (Z.to_nat k) = Some x /\ p x = true.
Proof.
  induction l as [|a l IH]; intros k H; simpl in H; [discriminate|].
  destruct (p a) eqn:Ea.
  - inversion H; subst. split; [cbn [List.length]; lia|]. exists a. now split.
  - destruct (find_index p l) as [j|]; [|discriminate].
    simpl in H. inversion H; subst.
    destruct (IH j eq_refl) as [Hj [x [Hx Hp]]].
    split; [cbn [List.length]; lia|]. exists x. split; [|exact Hp].
    replace (Z.to_nat (Z.succ j)) with (S (Z.to_nat j)) by lia. exact Hx.
Qed.

Lemma py_set_nth_spec (A : Type) (l : list A) (k : Z) (v : A) :
  (0 <= k < Z.of_nat (List.length l))%Z ->
  exists l', py_set_nth l k v = Some l'
             /\ List.length l' = List.length l
             /\ nth_error l' (Z.to_nat k) = Some v
             /\ forall j, j <> Z.to_nat k -> nth_error l' j = nth_error l j.
Proof.
  intro Hk. unfold py_set_nth.
  replace (0 <=? k)%Z with true by (symmetry; apply Z.leb_le; lia).
  replace ((0 <=? k) && (k <? Z.of_nat (List.length l)))%Z with true
    by (symmetry; apply andb_true_iff; split;
        [apply Z.leb_le|apply Z.ltb_lt]; lia).
  eexists. split; [reflexivity|].
  set (n := Z.to_nat k). assert (Hn : (n < List.length l)%nat) by lia.
  clearbody n. clear Hk k. revert n Hn.
  induction l as [|a l IH]; intros n Hn; [simpl in Hn; lia|].
  destruct n as [|n].
  - simpl. split; [reflexivity|]. split; [reflexivity|].
    intros [|j] Hj; [congruence|reflexivity].
  - simpl in Hn. destruct (IH n ltac:(lia)) as [Hl [Hv Ho]].
    cbn [firstn skipn app List.length nth_error] in *.
    split; [now rewrite Hl|]. split; [exact Hv|].
    intros [|j] Hj; [reflexivity|]. apply Ho. lia.
Qed.

Lemma py_nth_last (A : Type) (l : list A) (x : A) :
  py_nth (l ++ [x]) (-1) = Some x.
Proof.
  unfold py_nth. cbn [Z.leb Z.compare].
  rewrite length_app. cbn [List.length].
  replace (0 <=? Z.of_nat (List.length l + 1) + -1)%Z with true
    by (symmetry; apply Z.leb_le; lia).
  replace (Z.to_nat (Z.of_nat (List.length l + 1) + -1))
    with (List.length l) by lia.
  rewrite nth_error_app2 by lia. now rewrite Nat.sub_diag.
Qed.

Lemma same_cells_eq id fm cells :
  same_cells id fm cells = true <-> cells = (id, fm).
Proof.
  unfold same_cells. destruct cells as [i f]. simpl.
  rewrite andb_true_iff, !String.eqb_eq. split.
  - intros [-> ->]. reflexivity.
  - intro H. inversion H. now split.
Qed.

(** The labels [x] of the columns of the table with the header [X], after
    the columns [P] of the failure-mode table, labelled [cols]. *)
Definition relabelled (X P : Header) (cols x : list string) : Prop :=
  List.length x = List.length X
  /\ (NoDup P ->
      forall i id fm k,
        nth_error P i = Some (id, fm) ->
        find_index (same_cells id fm) X = Some k ->
        nth_error x (Z.to_nat k) = nth_error cols i)
  /\ (forall k cells,
        nth_error X k = Some cells -> ~ In cells P ->
        nth_error x k = Some "dummy"%string).

Lemma label_first_match_step X P cols x id fm label :
  relabelled X P cols x ->
  List.length cols = List.length P ->
  exists x',
    label_first_match X id fm (cols ++ [label]) x = inr x'
    /\ relabelled X (P ++ [(id, fm)]) (cols ++ [label]) x'.
Proof.
  intros [Hlen [Hset Hdummy]] Hcols. unfold label_first_match.
  rewrite py_nth_last.
  assert (Hold : forall i, (i < List.length P)%nat ->
                   nth_error (P ++ [(id, fm)]) i = nth_error P i
                   /\ nth_error (cols ++ [label]) i = nth_error cols i).
  { intros i Hi. split; apply nth_error_app1; lia. }
  assert (Hnew : forall i c, nth_error (P ++ [(id, fm)]) i = Some c ->
                   (i < List.length P)%nat
                   \/ (i = List.length P /\ c = (id, fm))).
  { intros i c Hi.
    destruct (Nat.lt_ge_cases i (List.length P)) as [Hlt|Hge];
      [now left|right].
    rewrite nth_error_app2 in Hi by lia.
    destruct (i - List.length P)%nat as [|m] eqn:E; simpl in Hi.
    - inversion Hi. split; [lia|reflexivity].
    - destruct m; discriminate. }
  destruct (find_index (same_cells id fm) X) as [k|] eqn:Hk.
  - destruct (@find_index_some _ _ _ _ Hk) as [Hrange [c [Hc Hsame]]].
    apply same_cells_eq in Hsame. subst c.
    destruct (@py_set_nth_spec _ x k label) as [x' [Hx' [Hl' [Hv Ho]]]];
      [lia|].
    rewrite Hx'. exists x'. split; [reflexivity|].
    split; [congruence|]. split.
    + intros Hnd i id1 fm1 k1 Hi Hk1.
      destruct (Hnew _ _ Hi) as [Hlt|[-> Heq]].
      * destruct (Hold i Hlt) as [HP Hc']. rewrite HP in Hi. rewrite Hc'.
        assert (Hne : Z.to_nat k1 <> Z.to_nat k).
        { intro E.
          destruct (@find_index_some _ _ _ _ Hk1) as [Hr1 [c1 [Hc1 Hs1]]].
          apply same_cells_eq in Hs1. subst c1.
          rewrite E, Hc in Hc1. inversion Hc1; subst id1 fm1.
          apply NoDup_remove_2 in Hnd. rewrite app_nil_r in Hnd.
          apply Hnd. eapply nth_error_In, Hi. }
        rewrite (Ho _ Hne). apply Hset with (id := id1) (fm := fm1);
          [|exact Hi|exact Hk1].
        apply NoDup_remove_1 in Hnd. now rewrite app_nil_r in Hnd.
      * inversion Heq; subst id1 fm1. rewrite Hk in Hk1.
        inversion Hk1; subst k1. rewrite Hv.
        rewrite nth_error_app2 by lia. rewrite Hcols, Nat.sub_diag.
        reflexivity.
    + intros j cells Hj Hnot.
      assert (Hne : j <> Z.to_nat k).
      { intros ->. rewrite Hc in Hj. inversion Hj; subst cells.
        apply Hnot. apply in_or_app. right. now left. }
      rewrite (Ho _ Hne). apply (Hdummy _ _ Hj).
      intro Hin. apply Hnot. apply in_or_app. now left.
  - exists x. split; [reflexivity|]. split; [exact Hlen|]. split.
    + intros Hnd i id1 fm1 k1 Hi Hk1.
      destruct (Hnew _ _ Hi) as [Hlt|[-> Heq]].
      * destruct (Hold i Hlt) as [HP Hc']. rewrite HP in Hi. rewrite Hc'.
        apply Hset with (id := id1) (fm := fm1); [|exact Hi|exact Hk1].
        apply NoDup_remove_1 in Hnd. now rewrite app_nil_r in Hnd.
      * inversion Heq; subst id1 fm1. congruence.
    + intros j cells Hj Hnot. apply (Hdummy _ _ Hj).
      intro Hin. apply Hnot. apply in_or_app. now left.
Qed.

(** The state of the loop of lines 1269-1308 after the columns [P]. *)
Definition labelled (RA Insp P : Header)
    (cols ra insp : list string) : Prop :=
  List.length cols = List.length P
  /\ map (Py.upto "_") cols = map (fun cells => Py.upto "_" (fst cells)) P
  /\ (forall i id fm,
        nth_error P i = Some (id, fm) ->
        nth_error cols i
        = Some (id ++ "_" ++ py_str (1 + earlier id (firstn i P)))%string)
  /\ relabelled RA P cols ra
  /\ relabelled Insp P cols insp.

Lemma filter_upto id (cols : list string) (P : Header) :
  map (Py.upto "_") cols = map (fun cells => Py.upto "_" (fst cells)) P ->
  Z.of_nat (List.length
              (filter (fun c => String.eqb id (Py.upto "_" c)) cols))
  = earlier id P.
Proof.
  unfold earlier. revert P.
  induction cols as [|c cols IH]; intros [|p P] H; simpl in H;
    try discriminate; [reflexivity|].
  inversion H as [[Hc Hrest]]. simpl. rewrite Hc.
  destruct (String.eqb id (Py.upto "_" (fst p))); simpl;
    specialize (IH P Hrest); lia.
Qed.

Lemma changeOfLabels_loop RA Insp : forall rest P cols ra insp,
  labelled RA Insp P cols ra insp ->
  exists cols' ra' insp',
    fold_left (changeOfLabels_turn RA Insp) rest (inr (cols, ra, insp))
    = inr (cols', ra', insp')
    /\ labelled RA Insp (P ++ rest) cols' ra' insp'.
Proof.
  induction rest as [|[id fm] rest IH]; intros P cols ra insp Hinv.
  - exists cols, ra, insp. split; [reflexivity|]. now rewrite app_nil_r.
  - destruct Hinv as [Hlen [Hupto [Hnth [Hra Hinsp]]]].
    cbn [fold_left changeOfLabels_turn].
    set (label := next_column cols id).
    destruct (@label_first_match_step RA P cols ra id fm label Hra Hlen)
      as [ra' [Era Hra']].
    destruct (@label_first_match_step Insp P cols insp id fm label
                Hinsp Hlen) as [insp' [Einsp Hinsp']].
    rewrite Era, Einsp.
    replace (P ++ (id, fm) :: rest) with ((P ++ [(id, fm)]) ++ rest)
      by now rewrite <- app_assoc.
    apply IH. split; [|split; [|split; [|split; assumption]]].
    + rewrite !length_app. simpl. lia.
    + rewrite !map_app, Hupto. simpl. f_equal. f_equal.
      unfold label. rewrite next_column_spec. apply upto_label.
    + intros i id1 fm1 Hi.
      destruct (Nat.lt_ge_cases i (List.length P)) as [Hlt|Hge].
      * rewrite nth_error_app1 in Hi by lia.
        rewrite nth_error_app1 by lia.
        rewrite firstn_app.
        replace (i - List.length P)%nat with 0%nat by lia.
        cbn [firstn]. rewrite app_nil_r. exact (Hnth i id1 fm1 Hi).
      * rewrite nth_error_app2 in Hi by lia.
        destruct (i - List.length P)%nat as [|m] eqn:E; simpl in Hi;
          [|destruct m; discriminate].
        inversion Hi; subst id1 fm1.
        assert (i = List.length P) by lia. subst i.
        rewrite nth_error_app2 by lia. rewrite Hlen, Nat.sub_diag.
        cbn [nth_error]. f_equal. unfold label.
        rewrite next_column_spec, (@filter_upto id cols P Hupto).
        rewrite firstn_app, Nat.sub_diag, firstn_all. cbn [firstn].
        now rewrite app_nil_r.
Qed.

Lemma nth_error_repeat (A : Type) (x : A) (n k : nat) (y : A) :
  nth_error (repeat x n) k = Some y -> y = x.
Proof.
  intro H. apply nth_error_In, repeat_spec in H. exact H.
Qed.

(** What [__changeOfLabels] computes, for any three headers: it ends
    without error; the labels of the repair-action and of the inspection
    table are as many as their columns; the label of a failure-mode
    column is the component id, an underscore and a number, one more than
    the number of the columns before it whose component id, cut at its
    first underscore, is that component id. *)
Lemma changeOfLabels_spec (FM RA Insp : Header) :
  exists newColumns newColumnsRA newColumnsInsp,
    changeOfLabels FM RA Insp
    = inr (newColumns, newColumnsRA, newColumnsInsp)
    /\ labelled RA Insp FM newColumns newColumnsRA newColumnsInsp.
Proof.
  unfold changeOfLabels.
  destruct (@changeOfLabels_loop RA Insp FM [] []
              (repeat "dummy"%string (List.length RA))
              (repeat "dummy"%string (List.length Insp)))
    as [cols [ra [insp [Hrun Hinv]]]].
  - split; [reflexivity|]. split; [reflexivity|]. split.
    + intros [|i] id fm H; discriminate.
    + split; (split; [apply repeat_length|]; split;
              [intros _ [|i] id fm k H; discriminate|]).
      * intros k cells Hk _.
        destruct (nth_error (repeat "dummy"%string (List.length RA)) k)
          as [y|] eqn:E.
        -- now rewrite (nth_error_repeat _ _ _ E).
        -- apply nth_error_None in E. rewrite repeat_length in E.
           assert (k < List.length RA)%nat
             by (apply nth_error_Some; congruence).
           lia.
      * intros k cells Hk _.
        destruct (nth_error (repeat "dummy"%string (List.length Insp)) k)
          as [y|] eqn:E.
        -- now rewrite (nth_error_repeat _ _ _ E).
        -- apply nth_error_None in E. rewrite repeat_length in E.
           assert (k < List.length Insp)%nat
             by (apply nth_error_Some; congruence).
           lia.
  - exists cols, ra, insp. split; [exact Hrun|exact Hinv].
Qed.

(** [__changeOfLabels] ends without error on any three tables, and labels
    each column of the failure-mode table with the component id, an
    underscore and a number: one more than the number of the columns
    before it whose component id, cut at its first underscore, is the
    component id of the column. *)
Theorem changeOfLabels_numbers_failure_modes (FM RA Insp : Header) :
  exists newColumns newColumnsRA newColumnsInsp,
    changeOfLabels FM RA Insp
    = inr (newColumns, newColumnsRA, newColumnsInsp)
    /\ List.length newColumns = List.length FM
    /\ List.length newColumnsRA = List.length RA
    /\ List.length newColumnsInsp = List.length Insp
    /\ forall i id fm,
         nth_error FM i = Some (id, fm) ->
         nth_error newColumns i
         = Some (id ++ "_" ++ py_str (1 + earlier id (firstn i FM)))%string.
Proof.
  destruct (changeOfLabels_spec FM RA Insp)
    as [cols [ra [insp [Hrun [Hlen [_ [Hnth [[Hra _] [Hinsp _]]]]]]]]].
  exists cols, ra, insp. repeat split; assumption.
Qed.

Lemma earlier_app id P Q :
  earlier id (P ++ Q) = (earlier id P + earlier id Q)%Z.
Proof. unfold earlier. rewrite filter_app, length_app. lia. Qed.

Lemma earlier_nonneg id P : (0 <= earlier id P)%Z.
Proof. unfold earlier. lia. Qed.

Lemma firstn_split (A : Type) (l : list A) : forall i j x,
  (i < j)%nat -> nth_error l i = Some x ->
  firstn j l = firstn i l ++ x :: firstn (j - S i) (skipn (S i) l).
Proof.
  induction l as [|a l IH]; intros [|i] [|j] x Hij Hi; simpl in Hi;
    try discriminate; try lia.
  - inversion Hi; subst. simpl. now rewrite Nat.sub_0_r.
  - cbn [firstn skipn app Nat.sub]. f_equal. apply IH; [lia|exact Hi].
Qed.

(** When no component id holds an underscore, the labels of the columns
    of the failure-mode table are pairwise distinct. *)
Theorem changeOfLabels_labels_distinct
    (FM RA Insp : Header) (newColumns newColumnsRA newColumnsInsp : list string) :
  (forall id fm, In (id, fm) FM -> Py.str_in "_" id = false) ->
  changeOfLabels FM RA Insp
  = inr (newColumns, newColumnsRA, newColumnsInsp) ->
  NoDup newColumns.
Proof.
  intros Hplain Hrun.
  destruct (changeOfLabels_spec FM RA Insp)
    as [cols [ra [insp [Hrun' [Hlen [_ [Hnth _]]]]]]].
  rewrite Hrun in Hrun'. inversion Hrun'; subst cols ra insp. clear Hrun'.
  assert (Hlt : forall i j ci cj,
             (i < j)%nat ->
             nth_error FM i = Some ci -> nth_error FM j = Some cj ->
             nth_error newColumns i <> nth_error newColumns j).
  { intros i j [idi fmi] [idj fmj] Hij Hi Hj Heq.
    rewrite (Hnth _ _ _ Hi), (Hnth _ _ _ Hj) in Heq.
    assert (Hlab : (idi ++ "_"
                      ++ py_str (1 + earlier idi (firstn i FM)))%string
                   = (idj ++ "_"
                        ++ py_str (1 + earlier idj (firstn j FM)))%string)
      by congruence.
    clear Heq.
    pose proof (Hplain _ _ (nth_error_In _ _ Hi)) as Hpi.
    pose proof (Hplain _ _ (nth_error_In _ _ Hj)) as Hpj.
    assert (Hid : idi = idj).
    { pose proof (f_equal (Py.upto "_") Hlab) as E.
      change (idi ++ "_" ++ ?x)%string with (idi ++ String "_" x)%string in E.
      change (idj ++ "_" ++ ?x)%string with (idj ++ String "_" x)%string in E.
      rewrite !upto_label, !upto_no_underscore in E by assumption.
      exact E. }
    subst idj. apply append_inj in Hlab.
    apply (@append_inj "_") in Hlab. apply py_str_inj in Hlab.
    pose proof (@firstn_split _ FM i j (idi, fmi) Hij Hi) as Hsplit.
    rewrite Hsplit, earlier_app in Hlab.
    change ((idi, fmi) :: ?l) with ([(idi, fmi)] ++ l) in Hlab.
    rewrite earlier_app in Hlab.
    assert (H1 : earlier idi [(idi, fmi)] = 1%Z).
    { unfold earlier. simpl. rewrite upto_no_underscore by assumption.
      now rewrite String.eqb_refl. }
    pose proof (earlier_nonneg idi (firstn (j - S i) (skipn (S i) FM))).
    lia. }
  apply NoDup_nth_error. intros i j Hi Heq.
  destruct (Nat.lt_trichotomy i j) as [Hij|[Hij|Hij]]; [|exact Hij|];
    exfalso.
  - assert (Hj : (j < List.length newColumns)%nat).
    { apply nth_error_Some. rewrite <- Heq. now apply nth_error_Some. }
    rewrite Hlen in Hi, Hj.
    destruct (nth_error FM i) as [ci|] eqn:Ei;
      [|apply nth_error_None in Ei; lia].
    destruct (nth_error FM j) as [cj|] eqn:Ej;
      [|apply nth_error_None in Ej; lia].
    exact (Hlt _ _ _ _ Hij Ei Ej Heq).
  - rewrite Hlen in Hi.
    destruct (nth_error FM i) as [ci|] eqn:Ei;
      [|apply nth_error_None in Ei; lia].
    destruct (nth_error FM j) as [cj|] eqn:Ej;
      [|apply nth_error_None in Ej; lia].
    exact (Hlt _ _ _ _ Hij Ej Ei (eq_sym Heq)).
Qed.

(** A component id that holds an underscore is never counted: every
    column of the failure-mode table with such an id is labelled with the
    id and ["_1"], so two failure modes of the component get the same
    label. *)
Theorem changeOfLabels_underscore_clash
    (FM RA Insp : Header) (newColumns newColumnsRA newColumnsInsp : list string)
    (i : nat) (id fm : string) :
  Py.str_in "_" id = true ->
  nth_error FM i = Some (id, fm) ->
  changeOfLabels FM RA Insp
  = inr (newColumns, newColumnsRA, newColumnsInsp) ->
  nth_error newColumns i = Some (id ++ "_1")%string.
Proof.
  intros Hunder Hi Hrun.
  destruct (changeOfLabels_spec FM RA Insp)
    as [cols [ra [insp [Hrun' [Hlen [_ [Hnth _]]]]]]].
  rewrite Hrun in Hrun'. inversion Hrun'; subst cols ra insp. clear Hrun'.
  rewrite (Hnth _ _ _ Hi).
  assert (H0 : forall P, earlier id P = 0%Z).
  { intro P. unfold earlier. induction P as [|c P IH]; [reflexivity|].
    simpl. destruct (String.eqb id (Py.upto "_" (fst c))) eqn:E; [|exact IH].
    apply String.eqb_eq in E. rewrite E, str_in_upto in Hunder.
    discriminate. }
  rewrite H0. reflexivity.
Qed.

(** With pairwise distinct (component id, failure-mode id) cells in the
    failure-mode table: the first column of the repair-action table, and
    of the inspection table, with the cells of a failure mode gets the
    label of that failure mode; a column whose cells are those of no
    failure mode is labelled ["dummy"]. *)
Theorem changeOfLabels_relabels_actions
    (FM RA Insp : Header) (newColumns newColumnsRA newColumnsInsp : list string) :
  NoDup FM ->
  changeOfLabels FM RA Insp
  = inr (newColumns, newColumnsRA, newColumnsInsp) ->
  (forall i id fm k,
      nth_error FM i = Some (id, fm) ->
      (find_index (same_cells id fm) RA = Some k ->
       nth_error newColumnsRA (Z.to_nat k) = nth_error newColumns i)
      /\ (find_index (same_cells id fm) Insp = Some k ->
          nth_error newColumnsInsp (Z.to_nat k) = nth_error newColumns i))
  /\ (forall k cells, ~ In cells FM ->
        (nth_error RA k = Some cells ->
         nth_error newColumnsRA k = Some "dummy"%string)
        /\ (nth_error Insp k = Some cells ->
            nth_error newColumnsInsp k = Some "dummy"%string)).
Proof.
  intros Hnd Hrun.
  destruct (changeOfLabels_spec FM RA Insp)
    as [cols [ra [insp [Hrun' [_ [_ [_ [Hra Hinsp]]]]]]]].
  rewrite Hrun in Hrun'. inversion Hrun'; subst cols ra insp. clear Hrun'.
  destruct Hra as [_ [Hra Hrad]]. destruct Hinsp as [_ [Hinsp Hinspd]].
  split.
  - intros i id fm k Hi. split; intro Hk.
    + exact (Hra Hnd _ _ _ _ Hi Hk).
    + exact (Hinsp Hnd _ _ _ _ Hi Hk).
  - intros k cells Hnot. split; intro Hk.
    + exact (Hrad _ _ Hk Hnot).
    + exact (Hinspd _ _ Hk Hnot).
Qed.

(* ===================================================================== *)
(** * What the tracks leave alone *)

(** ** What a method leaves alone *)

Section Keeps.
Variable X : Type.

(** The method [m] leaves the part [proj] of the attributes as it was,
    whether it returns or raises. *)
Definition keeps (proj : Calc -> X) {A} (m : M A) : Prop :=
  forall s, proj (state_of (m s)) = proj s.

Variable proj : Calc -> X.

Lemma keeps_ret {A} (a : A) : keeps proj (ret a).
Proof. intro s. reflexivity. Qed.

Lemma keeps_raise {A} e : keeps proj (@raise A e).
Proof. intro s. reflexivity. Qed.

Lemma keeps_get : keeps proj get.
Proof. intro s. reflexivity. Qed.

Lemma keeps_need {A} (o : option A) e : keeps proj (need o e).
Proof. intro s. now destruct o. Qed.

Lemma keeps_modify f :
  (forall s, proj (f s) = proj s) -> keeps proj (modify f).
Proof. intros H s. apply H. Qed.

Lemma keeps_bind {A B} (m : M A) (k : A -> M B) :
  keeps proj m -> (forall a, keeps proj (k a)) -> keeps proj (bind m k).
Proof.
  intros Hm Hk s. unfold bind, state_of.
  specialize (Hm s). unfold state_of in Hm.
  destruct (m s) as [s1 [e|a]]; simpl in *; [exact Hm|].
  rewrite <- Hm. apply Hk.
Qed.

Lemma keeps_for_each {A} (l : list A) (body : A -> M unit) :
  (forall x, keeps proj (body x)) -> keeps proj (for_each l body).
Proof.
  intro Hb. induction l as [|x l IH]; simpl.
  - apply keeps_ret.
  - apply keeps_bind; [apply Hb|intro; exact IH].
Qed.

Lemma keeps_for_fold {A B} (l : list A) (body : A -> B -> M B) :
  (forall x b, keeps proj (body x b)) ->
  forall acc, keeps proj (for_fold l acc body).
Proof.
  intro Hb. induction l as [|x l IH]; intro acc; simpl.
  - apply keeps_ret.
  - apply keeps_bind; [apply Hb|intro; apply IH].
Qed.

End Keeps.

Ltac keeps_step :=
  first
    [ assumption
    | match goal with
      | H : forall _, _ |- keeps _ _ => apply H
      end
    | apply keeps_ret | apply keeps_raise | apply keeps_get
    | apply keeps_need
    | apply keeps_modify; intro; reflexivity
    | apply keeps_bind; [|intro]
    | apply keeps_for_each; intro
    | apply keeps_for_fold; intros
    | match goal with
      | |- keeps _ (match ?x with _ => _ end) => destruct x
      end ].

Ltac keeps_auto := cbv zeta; repeat (keeps_step; cbv zeta).

Ltac split_pairs :=
  repeat match goal with
         | H : (_, _) = (_, _) |- _ =>
             apply pair_equal_spec in H; destruct H
         end.

Lemma keeps_weaken (X Y : Type) (p : Calc -> X) (q : Calc -> Y)
    (A : Type) (m : M A) :
  (forall s s', p s' = p s -> q s' = q s) -> keeps p m -> keeps q m.
Proof. intros Hpq Hm s. apply Hpq, Hm. Qed.

(** The cost engine, the request values and the renaming for the
    logistics module write no attribute of the model. *)
Section KeepsAll.
Variable inp : Inputs.
Variable X : Type.
Variable proj : Calc -> X.

Lemma keeps_calcCostOfOM fm cid : keeps proj (calcCostOfOM inp fm cid).
Proof. unfold calcCostOfOM, working_hours. keeps_auto. Qed.

Lemma keeps_logistic_names m id :
  keeps proj m -> keeps proj (logistic_names m id).
Proof. intro Hm. unfold logistic_names. keeps_auto. Qed.

Lemma keeps_logistic_values id t f p :
  keeps proj (logistic_values inp id t f p).
Proof.
  unfold logistic_values, shortid_of.
  pose proof keeps_logistic_names. keeps_auto.
Qed.

End KeepsAll.

Section Tracks.
Variable inp : Inputs.
Variable om_logistics_main : DataFrame.t (option Request) -> OmLogistic.

(** What [executeCalc] reports: the result record, the error flag and the
    error table, and the ports. *)
Definition record (s : Calc) :=
  (outputsOfWP6 s, errorFlag s, errorTable s,
   portDistIndex_inspection s, portDistIndex_repair s).

(** The attributes of the calendar and of the condition track. *)
Definition planned_tracks (s : Calc) :=
  (CaBaMa_eventsTable s, actIdxOfCaBaMa s, CaBaMa_outputEventsTable s,
   CaBaMa_dictEnvAssess s,
   CoBaMa_eventsTable s, actIdxOfCoBaMa s, CoBaMa_outputEventsTable s,
   CoBaMa_dictEnvAssess s).

(** The attributes of the corrective and of the calendar track. *)
Definition corrective_and_calendar (s : Calc) :=
  (UnCoMa_eventsTable s, actIdxOfUnCoMa s, UnCoMa_outputEventsTable s,
   UnCoMa_dictEnvAssess s, totalActionDelayHour s, actActionDelayHour s,
   CaBaMa_eventsTable s, actIdxOfCaBaMa s, CaBaMa_outputEventsTable s,
   CaBaMa_dictEnvAssess s).

(** The attributes of the corrective and of the condition track, and the
    counter of the turned-out devices. *)
Definition corrective_and_condition (s : Calc) :=
  (UnCoMa_eventsTable s, actIdxOfUnCoMa s, UnCoMa_outputEventsTable s,
   UnCoMa_dictEnvAssess s, totalActionDelayHour s, actActionDelayHour s,
   CoBaMa_eventsTable s, actIdxOfCoBaMa s, CoBaMa_outputEventsTable s,
   CoBaMa_dictEnvAssess s, NrOfTurnOutDevices s).

Lemma keeps_get_lcoe_unplanned a b c d :
  keeps (fun s => (record s, planned_tracks s))
        (get_lcoe_unplanned inp om_logistics_main a b c d).
Proof.
  unfold get_lcoe_unplanned, unplanned_dispatch, unplanned_realize,
    unplanned_record_downtime, updatePoissonEvents, env_assess_entry,
    om_logistic_now, calcLogistic.
  pose proof (@keeps_calcCostOfOM inp).
  pose proof (@keeps_logistic_values inp).
  keeps_auto.
Qed.

Lemma keeps_get_lcoe_condition a b :
  keeps (fun s => (record s, corrective_and_calendar s))
        (get_lcoe_condition inp om_logistics_main a b).
Proof.
  unfold get_lcoe_condition, condition_finish, condition_repair,
    condition_defer, condition_derating_devices, condition_continuation,
    switch_to_calendar, CoBaMa_loc_set, env_assess_entry,
    om_logistic_now, calcLogistic, shortid_of.
  pose proof (@keeps_calcCostOfOM inp).
  pose proof (@keeps_logistic_values inp).
  keeps_auto.
Qed.

Lemma keeps_calendar_block shortid dummy iCnt b d L :
  keeps (fun s => (record s, corrective_and_condition s))
        (calendar_block inp om_logistics_main shortid dummy iCnt b d L).
Proof.
  unfold calendar_block, calendar_record_block, calendar_record_row,
    CaBaMa_loc_set, env_assess_entry, om_logistic_now, calcLogistic.
  pose proof (@keeps_calcCostOfOM inp).
  pose proof keeps_logistic_names.
  keeps_auto.
Qed.

Lemma keeps_calendar_blocks shortid dummy blocks : forall L F,
  keeps (fun s => (record s, corrective_and_condition s))
        (calendar_blocks inp om_logistics_main shortid dummy blocks L F).
Proof.
  induction blocks as [|[iCnt b] blocks IH]; intros L F;
    cbn [calendar_blocks].
  - apply keeps_ret.
  - pose proof keeps_calendar_block. keeps_auto.
Qed.

Lemma keeps_get_lcoe_calendar a b :
  keeps (fun s => (record s, corrective_and_condition s))
        (get_lcoe_calendar inp om_logistics_main a b).
Proof.
  unfold get_lcoe_calendar, shortid_of.
  pose proof keeps_calendar_blocks.
  keeps_auto.
Qed.

Lemma pair_fst (A B : Type) (a a' : A) (b b' : B) :
  (a, b) = (a', b') -> a = a'.
Proof. congruence. Qed.

Lemma keeps_calcLCOE_turn L :
  keeps record (calcLCOE_turn inp om_logistics_main L).
Proof.
  unfold calcLCOE_turn, calcLCOE_condition, calcLCOE_calendar,
    calcLCOE_unplanned.
  assert (forall a b c d,
            keeps record (get_lcoe_unplanned inp om_logistics_main a b c d))
    by (intros; eapply keeps_weaken; [|apply keeps_get_lcoe_unplanned];
        intros ? ?; apply pair_fst).
  assert (forall a b,
            keeps record (get_lcoe_condition inp om_logistics_main a b))
    by (intros; eapply keeps_weaken; [|apply keeps_get_lcoe_condition];
        intros ? ?; apply pair_fst).
  assert (forall a b,
            keeps record (get_lcoe_calendar inp om_logistics_main a b))
    by (intros; eapply keeps_weaken; [|apply keeps_get_lcoe_calendar];
        intros ? ?; apply pair_fst).
  keeps_auto.
Qed.

Lemma keeps_calcLCOE_while fuel : forall L,
  keeps record (calcLCOE_while inp om_logistics_main fuel L).
Proof.
  induction fuel as [|fuel IH]; intro L; cbn [calcLCOE_while].
  - keeps_auto.
  - pose proof keeps_calcLCOE_turn. keeps_auto.
Qed.

Lemma keeps_calcLCOE_OfOM fuel :
  keeps record (calcLCOE_OfOM inp om_logistics_main fuel).
Proof.
  unfold calcLCOE_OfOM. pose proof keeps_calcLCOE_while. keeps_auto.
Qed.

(** The simulation loop binds no entry of the result record anew, and
    writes neither the error flag, the error table nor the ports chosen:
    after [__calcLCOE_OfOM], whether the loop ended, raised or is still
    running, the numbers, the lists and the error entry of the record are
    what they were, and its entries for the event tables refer to the
    tables they referred to.  What those tables hold is another matter:
    they are the output tables of the tracks, which the loop writes. *)
Theorem calcLCOE_OfOM_keeps_record (fuel : nat) (s : Calc) :
  let s' := state_of (calcLCOE_OfOM inp om_logistics_main fuel s) in
  outputsOfWP6 s' = outputsOfWP6 s
  /\ errorFlag s' = errorFlag s
  /\ errorTable s' = errorTable s
  /\ portDistIndex_inspection s' = portDistIndex_inspection s
  /\ portDistIndex_repair s' = portDistIndex_repair s.
Proof.
  pose proof (keeps_calcLCOE_OfOM fuel s) as H. unfold record in H.
  cbv zeta. split_pairs. repeat split; assumption.
Qed.

(** A record that holds the references, as the roll-up of an earlier run
    leaves it: after the loop the record is as it was, and reads the row
    that the corrective track has written to its output table. *)
Example calcLCOE_OfOM_record_reads_live_table :
  let s :=
    set_outputsOfWP6
      (mkOutputs 0 [0] [0] 0 0 0 None [] [] []
         (Some Ref_UnCoMa_outputEventsTable)
         (Some Ref_CoBaMa_outputEventsTable)
         (Some Ref_CaBaMa_outputEventsTable))
      (Farm.attributes Farm.dict [Farm.failure "Pto001" 10] [] []) in
  let s' := state_of (calcLCOE_OfOM (Farm.inputs true false false false false)
                        Farm.solution 100 s) in
  let read s := option_map (deref s) (eventTables_UnCoMa (outputsOfWP6 s)) in
  outputsOfWP6 s' = outputsOfWP6 s
  /\ read s = Some (Table_UnCoMa [(0%Z, None)])
  /\ exists out,
       read s' = Some (Table_UnCoMa [(0%Z, None); (1%Z, Some out)])
       /\ UnCoMa.o_failureDate out = 10.
Proof.
  vm_compute. split; [reflexivity|]. split; [reflexivity|].
  eexists. split; reflexivity.
Qed.

(** A step of the corrective track writes nothing of the calendar and of
    the condition track: their tables, their indices, their output tables
    and their entries for the environmental assessment are after
    [__get_lcoe_unplanned] what they were before, whether the step
    returned or raised. *)
Theorem get_lcoe_unplanned_keeps_planned_tracks
    (loop loopValuesForOutput_UnCoMa : Z)
    (flagCalcCoBaMa flagCalcUnCoMa : bool) (s : Calc) :
  let s' := state_of (get_lcoe_unplanned inp om_logistics_main loop
                        loopValuesForOutput_UnCoMa flagCalcCoBaMa
                        flagCalcUnCoMa s) in
  CaBaMa_eventsTable s' = CaBaMa_eventsTable s
  /\ actIdxOfCaBaMa s' = actIdxOfCaBaMa s
  /\ CaBaMa_outputEventsTable s' = CaBaMa_outputEventsTable s
  /\ CaBaMa_dictEnvAssess s' = CaBaMa_dictEnvAssess s
  /\ CoBaMa_eventsTable s' = CoBaMa_eventsTable s
  /\ actIdxOfCoBaMa s' = actIdxOfCoBaMa s
  /\ CoBaMa_outputEventsTable s' = CoBaMa_outputEventsTable s
  /\ CoBaMa_dictEnvAssess s' = CoBaMa_dictEnvAssess s.
Proof.
  pose proof (keeps_get_lcoe_unplanned loop loopValuesForOutput_UnCoMa
                flagCalcCoBaMa flagCalcUnCoMa s) as H.
  unfold planned_tracks in H. cbv zeta. split_pairs.
  repeat split; assumption.
Qed.

(** A step of the condition track writes nothing of the corrective and of
    the calendar track, nor the delay of the corrective repair plan. *)
Theorem get_lcoe_condition_keeps_other_tracks
    (loop loopValuesForOutput_CoBaMa : Z) (s : Calc) :
  let s' := state_of (get_lcoe_condition inp om_logistics_main loop
                        loopValuesForOutput_CoBaMa s) in
  UnCoMa_eventsTable s' = UnCoMa_eventsTable s
  /\ actIdxOfUnCoMa s' = actIdxOfUnCoMa s
  /\ UnCoMa_outputEventsTable s' = UnCoMa_outputEventsTable s
  /\ UnCoMa_dictEnvAssess s' = UnCoMa_dictEnvAssess s
  /\ totalActionDelayHour s' = totalActionDelayHour s
  /\ actActionDelayHour s' = actActionDelayHour s
  /\ CaBaMa_eventsTable s' = CaBaMa_eventsTable s
  /\ actIdxOfCaBaMa s' = actIdxOfCaBaMa s
  /\ CaBaMa_outputEventsTable s' = CaBaMa_outputEventsTable s
  /\ CaBaMa_dictEnvAssess s' = CaBaMa_dictEnvAssess s.
Proof.
  pose proof (keeps_get_lcoe_condition loop loopValuesForOutput_CoBaMa s)
    as H.
  unfold corrective_and_calendar in H. cbv zeta. split_pairs. repeat split; assumption.
Qed.

(** A step of the calendar track writes nothing of the corrective and of
    the condition track, nor the counter of the turned-out devices. *)
Theorem get_lcoe_calendar_keeps_other_tracks
    (loop loopValuesForOutput_CaBaMa : Z) (s : Calc) :
  let s' := state_of (get_lcoe_calendar inp om_logistics_main loop
                        loopValuesForOutput_CaBaMa s) in
  UnCoMa_eventsTable s' = UnCoMa_eventsTable s
  /\ actIdxOfUnCoMa s' = actIdxOfUnCoMa s
  /\ UnCoMa_outputEventsTable s' = UnCoMa_outputEventsTable s
  /\ UnCoMa_dictEnvAssess s' = UnCoMa_dictEnvAssess s
  /\ totalActionDelayHour s' = totalActionDelayHour s
  /\ actActionDelayHour s' = actActionDelayHour s
  /\ CoBaMa_eventsTable s' = CoBaMa_eventsTable s
  /\ actIdxOfCoBaMa s' = actIdxOfCoBaMa s
  /\ CoBaMa_outputEventsTable s' = CoBaMa_outputEventsTable s
  /\ CoBaMa_dictEnvAssess s' = CoBaMa_dictEnvAssess s
  /\ NrOfTurnOutDevices s' = NrOfTurnOutDevices s.
Proof.
  pose proof (keeps_get_lcoe_calendar loop loopValuesForOutput_CaBaMa s)
    as H.
  unfold corrective_and_condition in H. cbv zeta. split_pairs. repeat split; assumption.
Qed.

End Tracks.

Lemma keeps_run (X : Type) (proj : Calc -> X) (A : Type) (m : M A)
    s s' (r : Py.exn + A) :
  keeps proj m -> m s = (s', r) -> proj s' = proj s.
Proof. intros Hk Hm. specialize (Hk s). now rewrite Hm in Hk. Qed.

Lemma at_label_ix_set (R : Type) (df : DataFrame.t R) (l : Z) (r : R) :
  DataFrame.at_label (DataFrame.ix_set df l r) l = Some r.
Proof.
  unfold DataFrame.ix_set.
  destruct (DataFrame.has_label df l) eqn:E.
  - rewrite at_label_set_loc, Z.eqb_refl.
    destruct (has_label_at _ _ E) as [r0 [Hr0 _]]. now rewrite Hr0.
  - unfold DataFrame.has_label in E.
    induction df as [|[l0 r0] rest IH]; simpl in *.
    + now rewrite Z.eqb_refl.
    + apply orb_false_iff in E. destruct E as [E1 E2].
      rewrite E1. now apply IH.
Qed.

Section Corrective_progress.
Variable inp : Inputs.
Variable om_logistics_main : DataFrame.t (option Request) -> OmLogistic.

Lemma unplanned_realize_returns r rq fd loop lvo fCo fUn c1 c2 c3 tdh o w
    s s' res :
  unplanned_realize inp r rq fd loop lvo fCo fUn c1 c2 c3 tdh o w s
  = (s', inr res) ->
  res = ((loop + 1)%Z, (lvo + 1)%Z, fCo, fUn)
  /\ actIdxOfUnCoMa s' = actIdxOfUnCoMa s.
Proof.
  intro Hrun. split.
  - unfold unplanned_realize in Hrun.
    repeat (apply bind_inr_inv in Hrun;
            destruct Hrun as [? [? [_ Hrun]]]).
    unfold ret in Hrun. now inversion Hrun.
  - refine (@keeps_run _ actIdxOfUnCoMa _ _ _ _ _ _ Hrun).
    unfold unplanned_realize, unplanned_record_downtime,
      updatePoissonEvents, env_assess_entry, om_logistic_now.
    keeps_auto.
Qed.

(** The ways a step of the corrective track returns, by the index of the
    table, the counters and the flags. *)
Lemma get_lcoe_unplanned_step
    (loop loopValuesForOutput_UnCoMa : Z)
    (flagCalcCoBaMa flagCalcUnCoMa : bool) (s s' : Calc)
    (loop' loopValuesForOutput' : Z) (flagCalcCoBaMa' flagCalcUnCoMa' : bool) :
  get_lcoe_unplanned inp om_logistics_main loop loopValuesForOutput_UnCoMa
                     flagCalcCoBaMa flagCalcUnCoMa s
  = (s', inr (loop', loopValuesForOutput', flagCalcCoBaMa',
              flagCalcUnCoMa')) ->
  (actIdxOfUnCoMa s' = (actIdxOfUnCoMa s + 1)%Z
   /\ (loop', loopValuesForOutput')
      = ((loop + 1)%Z, (loopValuesForOutput_UnCoMa + 1)%Z)
   /\ flagCalcCoBaMa' = flagCalcCoBaMa /\ flagCalcUnCoMa' = flagCalcUnCoMa)
  \/ (actIdxOfUnCoMa s' = (actIdxOfUnCoMa s + 1)%Z
      /\ (loop', loopValuesForOutput') = (loop, loopValuesForOutput_UnCoMa)
      /\ flagCalcCoBaMa' = flagCalcCoBaMa
      /\ flagCalcUnCoMa' = flagCalcUnCoMa)
  \/ (actIdxOfUnCoMa s' = actIdxOfUnCoMa s
      /\ (loop', loopValuesForOutput') = (0%Z, loopValuesForOutput_UnCoMa)
      /\ flagCalcCoBaMa' = (if condition_based_maintenance inp then true
                            else flagCalcCoBaMa)
      /\ flagCalcUnCoMa' = false).
Proof.
  intro Hrun. unfold get_lcoe_unplanned in Hrun.
  apply bind_inr_inv in Hrun. destruct Hrun as [s1 [s0 [Hg Hrun]]].
  apply get_inr_inv in Hg. destruct Hg as [-> ->].
  apply bind_inr_inv in Hrun. destruct Hrun as [s1 [r [Hr Hrun]]].
  apply need_inr_inv in Hr. destruct Hr as [Hr ->].
  apply bind_inr_inv in Hrun. destruct Hrun as [s1 [simulateFlag [Hsim Hrun]]].
  assert (Hs1 : s1 = s).
  { refine (@keeps_run _ (fun s => s) _ _ _ _ _ _ Hsim). keeps_auto. }
  subst s1. clear Hsim.
  destruct simulateFlag; cbn [negb] in Hrun.
  2:{ apply bind_inr_inv in Hrun. destruct Hrun as [s1 [[] [Hm Hrun]]].
      apply modify_inr_inv in Hm. subst s1.
      unfold ret in Hrun. inversion Hrun; subst.
      right. left. repeat split. }
  apply bind_inr_inv in Hrun. destruct Hrun as [s1 [rae [Hrae Hrun]]].
  assert (Hidx1 : actIdxOfUnCoMa s1 = actIdxOfUnCoMa s).
  { refine (@keeps_run _ actIdxOfUnCoMa _ _ _ _ _ _ Hrae). keeps_auto. }
  clear Hrae.
  apply bind_inr_inv in Hrun. destruct Hrun as [s2 [[] [Hm Hrun]]].
  apply modify_inr_inv in Hm. subst s2.
  destruct (Qltb (endOperationDate inp) rae).
  { unfold ret in Hrun. inversion Hrun; subst.
    right. right. repeat split. exact Hidx1. }
  apply bind_inr_inv in Hrun. destruct Hrun as [s2 [s0 [Hg Hrun]]].
  apply get_inr_inv in Hg. destruct Hg as [-> ->].
  match type of Hrun with
  | (if ?c then _ else _) _ = _ => destruct c
  end.
  { apply bind_inr_inv in Hrun. destruct Hrun as [s2 [[] [Hm Hrun]]].
    apply modify_inr_inv in Hm. subst s2.
    unfold ret in Hrun. inversion Hrun; subst.
    right. left. repeat split.
    cbn [actIdxOfUnCoMa set_actIdxOfUnCoMa set_repairActionDate].
    now rewrite Hidx1. }
  unfold unplanned_dispatch in Hrun.
  apply bind_inr_inv in Hrun. destruct Hrun as [s2 [values [Hv Hrun]]].
  assert (Hs2 : s2 = set_repairActionDate (Some rae) s1).
  { refine (@keeps_run _ (fun s => s) _ _ _ _ _ _ Hv).
    apply keeps_logistic_values. }
  subst s2. clear Hv.
  apply bind_inr_inv in Hrun. destruct Hrun as [s2 [[] [Hm Hrun]]].
  apply modify_inr_inv in Hm. subst s2.
  apply bind_inr_inv in Hrun. destruct Hrun as [s2 [[] [Hm Hrun]]].
  apply modify_inr_inv in Hm.
  assert (Hidx2 : actIdxOfUnCoMa s2 = (actIdxOfUnCoMa s + 1)%Z).
  { subst s2. cbn [actIdxOfUnCoMa set_actIdxOfUnCoMa
                   set_wp6_outputsForLogistic set_repairActionDate].
    now rewrite Hidx1. }
  clear Hm.
  apply bind_inr_inv in Hrun. destruct Hrun as [s3 [[] [Hm Hrun]]].
  apply modify_inr_inv in Hm.
  assert (Hidx3 : actIdxOfUnCoMa s3 = (actIdxOfUnCoMa s + 1)%Z)
    by (subst s3; exact Hidx2).
  clear Hm.
  apply bind_inr_inv in Hrun. destruct Hrun as [s4 [lg [Hlg Hrun]]].
  assert (Hs4 : s4 = s3).
  { refine (@keeps_run _ (fun s => s) _ _ _ _ _ _ Hlg).
    unfold om_logistic_now. keeps_auto. }
  subst s4. clear Hlg.
  destruct (findSolution lg).
  - unfold ret in Hrun. inversion Hrun; subst.
    right. left. repeat split. exact Hidx3.
  - destruct (ignoreWeatherWindow inp).
    + exfalso.
      apply bind_inr_inv in Hrun. destruct Hrun as [s5 [[] [_ Hrun]]].
      eapply returns_not_raises;
        [apply unplanned_realize_unbound | exact Hrun].
    + unfold ret in Hrun. inversion Hrun; subst.
      right. left. repeat split. exact Hidx3.
  - apply bind_inr_inv in Hrun. destruct Hrun as [s5 [[] [Hm Hrun]]].
    apply modify_inr_inv in Hm. subst s5.
    apply bind_inr_inv in Hrun. destruct Hrun as [s5 [[] [Hm Hrun]]].
    apply modify_inr_inv in Hm. subst s5.
    apply bind_inr_inv in Hrun. destruct Hrun as [s5 [s0 [Hg Hrun]]].
    apply get_inr_inv in Hg. destruct Hg as [-> ->].
    apply bind_inr_inv in Hrun. destruct Hrun as [s5 [[] [Hdelay Hrun]]].
    assert (Hidx5 : actIdxOfUnCoMa s5 = (actIdxOfUnCoMa s + 1)%Z).
    { rewrite <- Hidx3.
      match type of Hdelay with
      | ?m ?s0 = _ =>
          refine (@keeps_run _ actIdxOfUnCoMa _ m s0 _ _ _ Hdelay)
      end.
      keeps_auto. }
    clear Hdelay.
    apply bind_inr_inv in Hrun. destruct Hrun as [s6 [[] [Hm Hrun]]].
    apply modify_inr_inv in Hm. subst s6.
    apply bind_inr_inv in Hrun.
    destruct Hrun as [s6 [[sp om] [Hcost Hrun]]].
    assert (Hidx6 : actIdxOfUnCoMa s6 = (actIdxOfUnCoMa s + 1)%Z).
    { rewrite <- Hidx5.
      match type of Hcost with
      | ?m ?s0 = _ =>
          refine (@keeps_run _ actIdxOfUnCoMa _ m s0 _ _ _ Hcost)
      end.
      apply keeps_calcCostOfOM. }
    clear Hcost.
    apply unplanned_realize_returns in Hrun. destruct Hrun as [Hres Hidx].
    inversion Hres; subst. left. repeat split. now rewrite Hidx.
Qed.

(** A step of the corrective track that returns has done one of three
    things: realized the action of the current row (the index of the
    table, the loop counter and the counter of the output rows each moved
    on by one), left the row out (only the index moved on), or found the
    request date beyond the end of operation (the index stays, the loop
    counter is reset and the flag of the track is cleared).  The flags it
    returns are otherwise the flags it was given. *)
Theorem get_lcoe_unplanned_advances
    (loop loopValuesForOutput_UnCoMa : Z)
    (flagCalcCoBaMa flagCalcUnCoMa : bool) (s s' : Calc)
    (loop' loopValuesForOutput' : Z) (flagCalcCoBaMa' flagCalcUnCoMa' : bool) :
  get_lcoe_unplanned inp om_logistics_main loop loopValuesForOutput_UnCoMa
                     flagCalcCoBaMa flagCalcUnCoMa s
  = (s', inr (loop', loopValuesForOutput', flagCalcCoBaMa',
              flagCalcUnCoMa')) ->
  (actIdxOfUnCoMa s' = (actIdxOfUnCoMa s + 1)%Z
   /\ (loop', loopValuesForOutput')
      = ((loop + 1)%Z, (loopValuesForOutput_UnCoMa + 1)%Z)
   /\ flagCalcCoBaMa' = flagCalcCoBaMa /\ flagCalcUnCoMa' = flagCalcUnCoMa)
  \/ (actIdxOfUnCoMa s' = (actIdxOfUnCoMa s + 1)%Z
      /\ (loop', loopValuesForOutput') = (loop, loopValuesForOutput_UnCoMa)
      /\ flagCalcCoBaMa' = flagCalcCoBaMa
      /\ flagCalcUnCoMa' = flagCalcUnCoMa)
  \/ (actIdxOfUnCoMa s' = actIdxOfUnCoMa s
      /\ (loop', loopValuesForOutput') = (0%Z, loopValuesForOutput_UnCoMa)
      /\ flagCalcCoBaMa' = (if condition_based_maintenance inp then true
                            else flagCalcCoBaMa)
      /\ flagCalcUnCoMa' = false).
Proof. apply get_lcoe_unplanned_step. Qed.

End Corrective_progress.

Section Corrective_drop.
Variable inp : Inputs.
Variable om_logistics_main : DataFrame.t (option Request) -> OmLogistic.

(** What a step of the corrective track leaves alone when it realizes no
    action. *)
Definition corrective_books (s : Calc) :=
  (arrayDict s, NrOfTurnOutDevices s, UnCoMa_outputEventsTable s,
   UnCoMa_dictEnvAssess s).

(** The request of an action for which the logistics module finds no
    weather window, the ignore-weather-window flag not set: the index
    moves on and nothing is booked. *)
Lemma unplanned_dispatch_no_window
    (r : UnCoMa.row) (repairActionEvents failureDate : datetime)
    (loop loopValuesForOutput_UnCoMa : Z)
    (flagCalcCoBaMa flagCalcUnCoMa : bool) (s : Calc) (values : Request) :
  ignoreWeatherWindow inp = false ->
  (forall request,
      findSolution (om_logistics_main request) = NoWeatherWindowFound) ->
  logistic_values inp (UnCoMa.ident r) repairActionEvents
                  duration_inspection PrepTimeCalcUnCoMa s
  = (s, inr values) ->
  exists s',
    unplanned_dispatch inp om_logistics_main r repairActionEvents
      failureDate loop loopValuesForOutput_UnCoMa flagCalcCoBaMa
      flagCalcUnCoMa s
    = (s', inr (loop, loopValuesForOutput_UnCoMa,
                flagCalcCoBaMa, flagCalcUnCoMa))
    /\ actIdxOfUnCoMa s' = (actIdxOfUnCoMa s + 1)%Z
    /\ corrective_books s' = corrective_books s
    /\ UnCoMa_eventsTable s' = UnCoMa_eventsTable s.
Proof.
  intros Hignore Hnoww Hvalues. unfold unplanned_dispatch.
  rewrite (bind_inr _ _ _ Hvalues).
  do 3 (erewrite bind_inr by reflexivity).
  erewrite bind_inr by reflexivity.
  cbn [om_logistic set_om_logistic].
  rewrite Hnoww, Hignore.
  eexists. split; [reflexivity|]. repeat split.
Qed.

(** A step of the corrective track when the logistics module finds no
    weather window for any request and the ignore-weather-window flag is
    not set.  Whenever the step returns, no action was realized: the
    ledgers of [self.__arrayDict], the counter of turned-out devices, the
    output table and the entries for the environmental assessment are as
    they were, and so is the counter of the output rows.  Either the row
    was passed (the index moved on by one, the loop counter and the flags
    are the ones given) or its request date is beyond the end of operation
    (the index stays, the loop counter is 0 and the flag of the track is
    cleared).  The corrective table is as it was, except that with a
    negative total action delay the request date of the current row, when
    the row is simulated, has been moved by that delay. *)
Theorem get_lcoe_unplanned_drops_without_window
    (loop loopValuesForOutput_UnCoMa : Z)
    (flagCalcCoBaMa flagCalcUnCoMa : bool) (s s' : Calc)
    (res : Z * Z * bool * bool) :
  ignoreWeatherWindow inp = false ->
  (forall request,
      findSolution (om_logistics_main request) = NoWeatherWindowFound) ->
  get_lcoe_unplanned inp om_logistics_main loop loopValuesForOutput_UnCoMa
                     flagCalcCoBaMa flagCalcUnCoMa s
  = (s', inr res) ->
  corrective_books s' = corrective_books s
  /\ ((actIdxOfUnCoMa s' = (actIdxOfUnCoMa s + 1)%Z
       /\ res = (loop, loopValuesForOutput_UnCoMa,
                 flagCalcCoBaMa, flagCalcUnCoMa))
      \/ (actIdxOfUnCoMa s' = actIdxOfUnCoMa s
          /\ res = (0%Z, loopValuesForOutput_UnCoMa,
                    (if condition_based_maintenance inp then true
                     else flagCalcCoBaMa), false)))
  /\ (UnCoMa_eventsTable s' = UnCoMa_eventsTable s
      \/ exists r,
           (totalActionDelayHour s < 0)%Z
           /\ DataFrame.at_label (UnCoMa_eventsTable s) (actIdxOfUnCoMa s)
              = Some r
           /\ UnCoMa_eventsTable s'
              = DataFrame.set_loc (UnCoMa_eventsTable s) (actIdxOfUnCoMa s)
                  (UnCoMa.set_repairActionEvents
                     (UnCoMa.repairActionEvents r
                      + inject_Z (- totalActionDelayHour s)))).
Proof.
  intros Hignore Hnoww Hrun. unfold get_lcoe_unplanned in Hrun.
  apply bind_inr_inv in Hrun. destruct Hrun as [s1 [s0 [Hg Hrun]]].
  apply get_inr_inv in Hg. destruct Hg as [-> ->].
  apply bind_inr_inv in Hrun. destruct Hrun as [s1 [r [Hr Hrun]]].
  apply need_inr_inv in Hr. destruct Hr as [Hr ->].
  apply bind_inr_inv in Hrun. destruct Hrun as [s1 [simulateFlag [Hsim Hrun]]].
  assert (Hs1 : s1 = s).
  { refine (@keeps_run _ (fun s => s) _ _ _ _ _ _ Hsim). keeps_auto. }
  subst s1. clear Hsim.
  destruct simulateFlag; cbn [negb] in Hrun.
  2:{ apply bind_inr_inv in Hrun. destruct Hrun as [s1 [[] [Hm Hrun]]].
      apply modify_inr_inv in Hm. subst s1.
      unfold ret in Hrun. inversion Hrun; subst.
      split; [reflexivity|]. split; [left; split; reflexivity|].
      left. reflexivity. }
  apply bind_inr_inv in Hrun. destruct Hrun as [s1 [rae [Hrae Hrun]]].
  (* the request date *)
  assert (Htable :
    corrective_books s1 = corrective_books s
    /\ actIdxOfUnCoMa s1 = actIdxOfUnCoMa s
    /\ (UnCoMa_eventsTable s1 = UnCoMa_eventsTable s
        \/ (totalActionDelayHour s < 0)%Z
           /\ UnCoMa_eventsTable s1
              = DataFrame.set_loc (UnCoMa_eventsTable s) (actIdxOfUnCoMa s)
                  (UnCoMa.set_repairActionEvents
                     (UnCoMa.repairActionEvents r
                      + inject_Z (- totalActionDelayHour s))))).
  { destruct (totalActionDelayHour s <? 0)%Z eqn:Hd.
    - apply bind_inr_inv in Hrae. destruct Hrae as [s2 [[] [Hm Hrae]]].
      apply modify_inr_inv in Hm. unfold ret in Hrae.
      inversion Hrae; subst. split; [reflexivity|]. split; [reflexivity|].
      right. split; [now apply Z.ltb_lt | reflexivity].
    - unfold ret in Hrae. inversion Hrae; subst.
      split; [reflexivity|]. split; [reflexivity|]. now left. }
  clear Hrae. destruct Htable as [Hbooks1 [Hidx1 Htable1]].
  apply bind_inr_inv in Hrun. destruct Hrun as [s2 [[] [Hm Hrun]]].
  apply modify_inr_inv in Hm.
  assert (Hs2 : corrective_books s2 = corrective_books s
                /\ actIdxOfUnCoMa s2 = actIdxOfUnCoMa s
                /\ UnCoMa_eventsTable s2 = UnCoMa_eventsTable s1).
  { subst s2. repeat split; assumption. }
  clear Hm Hbooks1 Hidx1. destruct Hs2 as [Hbooks2 [Hidx2 Htable2]].
  assert (Hfinal :
    corrective_books s' = corrective_books s2
    /\ UnCoMa_eventsTable s' = UnCoMa_eventsTable s2
    /\ ((actIdxOfUnCoMa s' = (actIdxOfUnCoMa s2 + 1)%Z
         /\ res = (loop, loopValuesForOutput_UnCoMa,
                   flagCalcCoBaMa, flagCalcUnCoMa))
        \/ (actIdxOfUnCoMa s' = actIdxOfUnCoMa s2
            /\ res = (0%Z, loopValuesForOutput_UnCoMa,
                      (if condition_based_maintenance inp then true
                       else flagCalcCoBaMa), false)))).
  { destruct (Qltb (endOperationDate inp) rae).
    - unfold ret in Hrun. inversion Hrun; subst.
      split; [reflexivity|]. split; [reflexivity|]. right. now split.
    - apply bind_inr_inv in Hrun. destruct Hrun as [s3 [s0 [Hg Hrun]]].
      apply get_inr_inv in Hg. destruct Hg as [-> ->].
      destruct (unplanned_foundDeleteFlag inp (UnCoMa.ident r) rae s2).
      + apply bind_inr_inv in Hrun. destruct Hrun as [s3 [[] [Hm Hrun]]].
        apply modify_inr_inv in Hm. subst s3.
        unfold ret in Hrun. inversion Hrun; subst.
        split; [reflexivity|]. split; [reflexivity|]. left. now split.
      + pose proof Hrun as Hdisp. unfold unplanned_dispatch in Hrun.
        apply bind_inr_inv in Hrun. destruct Hrun as [s3 [values [Hv _]]].
        assert (Hs3 : s3 = s2).
        { refine (@keeps_run _ (fun s => s) _ _ _ _ _ _ Hv).
          apply keeps_logistic_values. }
        subst s3.
        destruct (@unplanned_dispatch_no_window r rae
                    (UnCoMa.failureEvents r) loop loopValuesForOutput_UnCoMa
                    flagCalcCoBaMa flagCalcUnCoMa s2 values Hignore Hnoww Hv)
          as [s'' [Hrun' [Hi [Hb Ht]]]].
        rewrite Hdisp in Hrun'. inversion Hrun'; subst s'' res.
        split; [exact Hb|]. split; [exact Ht | left; now split]. }
  destruct Hfinal as [Hb [Ht Hi]].
  split; [congruence|]. split.
  - rewrite Hidx2 in Hi. exact Hi.
  - rewrite Ht, Htable2. destruct Htable1 as [H|[Hd H]]; [now left|].
    right. exists r. repeat split; assumption.
Qed.

End Corrective_drop.

Lemma round_close0 (x : Q) : Py.isclose0 x = true -> Py.round x 0 == 0.
Proof.
  unfold Py.isclose0, Py.round. intro H. apply Qle_bool_iff in H.
  change (10 ^ Z.of_nat 0)%Z with 1%Z. change (Z.to_pos 1) with 1%positive.
  set (y := Qabs x * inject_Z 1 + (1 # 2)).
  assert (Hy : 0 <= y /\ y < 1).
  { unfold y. pose proof (Qabs_nonneg x).
    change (inject_Z 1) with 1. split; lra. }
  assert (Hf : Qfloor y = 0%Z).
  { pose proof (Qfloor_le y) as H1. pose proof (Qlt_floor y) as H2.
    assert (H3 : inject_Z (Qfloor y) < inject_Z 1)
      by (change (inject_Z 1) with 1; lra).
    assert (H4 : inject_Z (-1) < inject_Z (Qfloor y)).
    { rewrite inject_Z_plus in H2. change (inject_Z 1) with 1 in H2.
      change (inject_Z (-1)) with (-1). lra. }
    rewrite <- Zlt_Qlt in H3, H4. lia. }
  rewrite Hf. destruct (Qle_bool 0 x); reflexivity.
Qed.

Section RollUpZero.
Variable inp : Inputs.

Lemma keeps_energy_postCalculation_sums :
  keeps (fun s => annualEnergyOfArray (outputsOfWP6 s))
        (postCalculation_sums inp).
Proof.
  unfold postCalculation_sums, postCalculation_entry, set_device_outputs,
    arrayDict_update, arrayDict_at.
  keeps_auto.
Qed.

(** The LCOE and the array energy a pass of the roll-up leaves in a record
    whose stored array energy is 0. *)
Lemma postCalculation_zero (s : Calc) :
  annualEnergyOfArray (outputsOfWP6 s) == 0 ->
  annualEnergyOfArray (outputsOfWP6 (state_of (postCalculation inp s))) == 0
  /\ (forall s', postCalculation inp s = (s', inr tt) ->
        lcoeOfArray (outputsOfWP6 s') == 0).
Proof.
  intro Hzero.
  pose proof (keeps_energy_postCalculation_sums s) as Hk. cbv beta in Hk.
  assert (Hrun : exists s2 r, postCalculation inp s = (s2, r)
            /\ annualEnergyOfArray (outputsOfWP6 s2) == 0
            /\ (r = inr tt -> lcoeOfArray (outputsOfWP6 s2) == 0)).
  { unfold postCalculation.
    destruct (postCalculation_sums inp s) as [s1 [e|[dO dE]]] eqn:Hsums;
      cbn [state_of fst] in Hk.
    - rewrite (bind_inl _ _ _ Hsums). eexists. eexists.
      split; [reflexivity|]. split; [now rewrite Hk | discriminate].
    - rewrite (bind_inr _ _ _ Hsums). cbv beta iota.
      erewrite bind_inr by reflexivity.
      set (arrayenergy := if negb (Qeq_bool (operationTimeYear inp) 0)
                          then dE / operationTimeYear inp else 0).
      destruct (Py.isclose0 arrayenergy) eqn:Hclose; cbn [negb].
      + erewrite bind_inr by reflexivity. unfold modify.
        eexists. eexists. split; [reflexivity|].
        cbn [outputsOfWP6 set_outputsOfWP6 annualEnergyOfArray lcoeOfArray].
        split; [now apply round_close0 | reflexivity].
      + unfold py_div.
        assert (Hz : Qeq_bool (annualEnergyOfArray (outputsOfWP6 s1) / 1000)
                              0 = true).
        { apply Qeq_bool_iff. rewrite Hk, Hzero. reflexivity. }
        rewrite Hz. erewrite bind_inl by reflexivity.
        eexists. eexists. split; [reflexivity|].
        split; [now rewrite Hk | discriminate]. }
  destruct Hrun as [s2 [r [Hrun [He Hl]]]]. rewrite Hrun.
  split; [exact He|].
  intros s' H. inversion H; subst. now apply Hl.
Qed.

(** The stored array energy never leaves 0: on a record whose stored array
    energy is 0, as [__init__] builds it, a pass of the roll-up, whether it
    returns or raises, leaves a stored array energy of 0; and whenever the
    pass returns, the LCOE it has written is 0. *)
Theorem postCalculation_stored_energy_stays_zero (s : Calc) :
  annualEnergyOfArray (outputsOfWP6 s) == 0 ->
  annualEnergyOfArray (outputsOfWP6 (state_of (postCalculation inp s))) == 0
  /\ (forall s', postCalculation inp s = (s', inr tt) ->
        lcoeOfArray (outputsOfWP6 s') == 0).
Proof. apply postCalculation_zero. Qed.

End RollUpZero.

Section Driver_returns.
Variable inp : Inputs.
Variable om_logistics_main : DataFrame.t (option Request) -> OmLogistic.
Variable initCalc initCheck : M unit.

Lemma keeps_postCalculation_sums :
  keeps (fun s => (error (outputsOfWP6 s), errorTable s))
        (postCalculation_sums inp).
Proof.
  unfold postCalculation_sums, postCalculation_entry, set_device_outputs,
    arrayDict_update, arrayDict_at.
  keeps_auto.
Qed.

(** The three output event tables, as a reference reads them. *)
Definition output_tables (s : Calc) : list OutputTable :=
  map (deref s) [Ref_UnCoMa_outputEventsTable; Ref_CoBaMa_outputEventsTable;
                 Ref_CaBaMa_outputEventsTable].

Lemma keeps_output_tables_postCalculation :
  keeps output_tables (postCalculation inp).
Proof.
  unfold output_tables, postCalculation, postCalculation_sums,
    postCalculation_entry, set_device_outputs, arrayDict_update,
    arrayDict_at, py_div.
  keeps_auto.
Qed.

(** Without the pre-flight check, a record that [executeCalc] returns is
    the record the roll-up wrote.  Under the three keys of
    ['eventTables [-]'] it holds the output event tables of the tracks,
    which are the tables as the simulation loop left them.  Its error
    table is the error table as [__initCalc] left it with the row
    ['NoError'] under label 0.  On a calculator whose stored array energy
    is 0 after [__initCalc], as [__init__] builds it, the LCOE and the
    array energy of the record are 0. *)
Theorem executeCalc_returns_full_record
    (fuel : nat) (s s' : Calc) (o : Outputs) :
  integrateSelectPort inp || checkNoSolution inp = false ->
  executeCalc inp om_logistics_main initCalc initCheck fuel s
  = (s', inr (Some o)) ->
  o = outputsOfWP6 s'
  /\ full_result_record o
  /\ exists s1 s_sim table,
       initCalc s = (s1, inr tt)
       /\ table = DataFrame.ix_set (errorTable s1) 0 (Some noError)
       /\ error o = Some table
       /\ DataFrame.at_label table 0 = Some (Some noError)
       /\ calcLCOE_OfOM inp om_logistics_main fuel
            (state_of (report_noError s1))
          = (s_sim, inr (Some tt))
       /\ output_tables s' = output_tables s_sim
       /\ (annualEnergyOfArray (outputsOfWP6 s1) == 0 ->
           lcoeOfArray o == 0 /\ annualEnergyOfArray o == 0).
Proof.
  intros Hpre Hrun. unfold executeCalc in Hrun.
  apply bind_inr_inv in Hrun. destruct Hrun as [s1 [[] [Hinit Hrun]]].
  rewrite Hpre in Hrun.
  apply bind_inr_inv in Hrun. destruct Hrun as [s2 [[] [Hrep Hrun]]].
  assert (Hs2 : s2 = state_of (report_noError s1)) by now rewrite Hrep.
  unfold report_noError in Hrep.
  apply bind_inr_inv in Hrep. destruct Hrep as [s3 [[] [Hm Hrep]]].
  apply modify_inr_inv in Hm. apply modify_inr_inv in Hrep.
  assert (Herr2 : error (outputsOfWP6 s2)
                  = Some (DataFrame.ix_set (errorTable s1) 0 (Some noError))).
  { subst s2 s3. reflexivity. }
  assert (Hen2 : annualEnergyOfArray (outputsOfWP6 s2)
                 = annualEnergyOfArray (outputsOfWP6 s1)).
  { rewrite Hrep, Hm. reflexivity. }
  clear Hm Hrep s3.
  apply bind_inr_inv in Hrun. destruct Hrun as [s3 [done [Harr Hrun]]].
  destruct done as [[]|]; [|unfold ret in Hrun; discriminate].
  apply bind_inr_inv in Hrun. destruct Hrun as [s4 [s0 [Hg Hrun]]].
  apply get_inr_inv in Hg. destruct Hg as [-> ->].
  unfold ret in Hrun. inversion Hrun; subst s' o. clear Hrun.
  unfold calcLCOE_OfArray in Harr.
  apply bind_inr_inv in Harr. destruct Harr as [s4 [done [Hsim Harr]]].
  destruct done as [[]|]; [|unfold ret in Harr; discriminate].
  apply bind_inr_inv in Harr. destruct Harr as [s5 [[] [Hpost Harr]]].
  unfold ret in Harr. inversion Harr; subst s5. clear Harr.
  assert (Hrec4 : outputsOfWP6 s4 = outputsOfWP6 s2).
  { pose proof (@keeps_run _ record _ _ _ _ _
                  (keeps_calcLCOE_OfOM inp om_logistics_main fuel) Hsim)
      as E.
    unfold record in E. split_pairs. congruence. }
  pose proof (@keeps_run _ _ _ _ _ _ _
                keeps_output_tables_postCalculation Hpost) as Htables.
  pose proof (postCalculation_zero inp s4) as Hzero.
  rewrite Hpost in Hzero. cbn [state_of fst] in Hzero.
  assert (Hshape : full_result_record (outputsOfWP6 s3)
                   /\ error (outputsOfWP6 s3) = error (outputsOfWP6 s4)).
  { clear Hzero Htables. unfold postCalculation in Hpost.
    apply bind_inr_inv in Hpost.
    destruct Hpost as [s5 [[dO dE] [Hsums Hpost]]].
    pose proof (@keeps_run _ _ _ _ _ _ _ keeps_postCalculation_sums Hsums)
      as E5.
    cbv beta in E5. split_pairs. clear Hsums.
    apply bind_inr_inv in Hpost. destruct Hpost as [s6 [s0 [Hg Hpost]]].
    apply get_inr_inv in Hg. destruct Hg as [-> ->].
    apply bind_inr_inv in Hpost. destruct Hpost as [s6 [lcoe [Hdiv Hpost]]].
    assert (Hs6 : s6 = s5).
    { match type of Hdiv with
      | ?m ?s0 = _ =>
          refine (@keeps_run _ (fun s => s) _ m s0 _ _ _ Hdiv)
      end.
      unfold py_div. keeps_auto. }
    subst s6. clear Hdiv.
    apply modify_inr_inv in Hpost. subst s3.
    cbn [outputsOfWP6 set_outputsOfWP6 error].
    split; [repeat split | congruence]. }
  destruct Hshape as [Hfull Herr3].
  split; [reflexivity|]. split; [exact Hfull|].
  exists s1, s4, (DataFrame.ix_set (errorTable s1) 0 (Some noError)).
  split; [exact Hinit|]. split; [reflexivity|]. split.
  { rewrite Herr3, Hrec4. exact Herr2. }
  split; [apply at_label_ix_set|]. split.
  { rewrite <- Hs2. exact Hsim. }
  split; [exact Htables|].
  intro Hstored.
  assert (H4 : annualEnergyOfArray (outputsOfWP6 s4) == 0)
    by (rewrite Hrec4, Hen2; exact Hstored).
  destruct (Hzero H4) as [He Hl].
  split; [apply Hl; reflexivity | exact He].
Qed.

End Driver_returns.

(** ** The simulation loop with the corrective track alone *)

Section Corrective_loop.
Variable inp : Inputs.
Variable om_logistics_main : DataFrame.t (option Request) -> OmLogistic.

Lemma length_set_loc (R : Type) (df : DataFrame.t R) l (f : R -> R) :
  List.length (DataFrame.set_loc df l f) = List.length df.
Proof. apply length_map. Qed.

Lemma length_sort (R : Type) (key : R -> Q) (df : DataFrame.t R) :
  List.length (DataFrame.sort key df) = List.length df.
Proof. apply Permutation_length, sort_perm. Qed.

(** A step of the corrective track keeps the number of the rows of its
    table. *)
Lemma keeps_rows_get_lcoe_unplanned a b c d :
  keeps (fun s => List.length (UnCoMa_eventsTable s))
        (get_lcoe_unplanned inp om_logistics_main a b c d).
Proof.
  unfold get_lcoe_unplanned, unplanned_dispatch, unplanned_realize,
    unplanned_record_downtime, updatePoissonEvents, env_assess_entry,
    om_logistic_now, calcLogistic.
  pose proof (@keeps_calcCostOfOM inp).
  pose proof (@keeps_logistic_values inp).
  cbv zeta.
  repeat first
    [ keeps_step; cbv zeta
    | apply keeps_modify; intro;
      cbn [UnCoMa_eventsTable set_UnCoMa_eventsTable];
      first [apply length_set_loc | apply length_sort] ].
Qed.

Lemma calcLCOE_while_done fuel L s :
  lp_flagCalcUnCoMa L = false -> lp_flagCalcCaBaMa L = false ->
  lp_flagCalcCoBaMa L = false ->
  calcLCOE_while inp om_logistics_main fuel L s = (s, inr (Some tt)).
Proof. intros H1 H2 H3. destruct fuel; simpl; now rewrite H1, H2, H3. Qed.

Lemma calcLCOE_while_corrective :
  calendar_based_maintenance inp = false ->
  condition_based_maintenance inp = false ->
  corrective_maintenance inp = true ->
  forall (fuel : nat) (L : Loop) (s : Calc),
    lp_flagCalcCaBaMa L = false ->
    lp_flagCalcCoBaMa L = false ->
    (lp_flagCalcUnCoMa L = true ->
     ((actIdxOfUnCoMa s < DataFrame.len (UnCoMa_eventsTable s)
       /\ DataFrame.len (UnCoMa_eventsTable s) - actIdxOfUnCoMa s
          < Z.of_nat fuel)
      \/ (UnCoMa_eventsTable s = [] /\ 0 < Z.of_nat fuel))%Z) ->
    outcome_of (calcLCOE_while inp om_logistics_main fuel L s)
    <> inr None.
Proof.
  intros Hcal Hcond Hcorr.
  induction fuel as [|fuel IH]; intros L s HCa HCo Hun;
    destruct (lp_flagCalcUnCoMa L) eqn:HUn;
    try (rewrite calcLCOE_while_done by assumption; discriminate).
  - exfalso. destruct (Hun eq_refl) as [[Hlt Hfuel]|[_ Hfuel]];
      simpl in Hfuel; lia.
  - specialize (Hun eq_refl).
    cbn [calcLCOE_while]. rewrite HUn. cbn [orb].
    unfold bind at 1.
    replace (calcLCOE_turn inp om_logistics_main L s)
      with (calcLCOE_unplanned inp om_logistics_main L s)
      by (unfold calcLCOE_turn, calcLCOE_condition, calcLCOE_calendar;
          now rewrite Hcond, Hcal).
    unfold calcLCOE_unplanned. rewrite Hcorr, HUn. cbn [andb].
    unfold bind at 1.
    destruct (get_lcoe_unplanned inp om_logistics_main (lp_loop L)
                (lp_loopValuesForOutput_UnCoMa L) (lp_flagCalcCoBaMa L)
                true s) as [s1 [e|[[[loop' lvo'] fCo'] fUn']]] eqn:Hstep;
      [discriminate|].
    pose proof (@keeps_run _ _ _ _ _ _ _
                  (keeps_rows_get_lcoe_unplanned _ _ _ _) Hstep) as Hrows.
    cbv beta in Hrows.
    assert (Hlen : DataFrame.len (UnCoMa_eventsTable s1)
                   = DataFrame.len (UnCoMa_eventsTable s))
      by (unfold DataFrame.len; now rewrite Hrows).
    destruct Hun as [[Hlt Hfuel]|[Hnil _]].
    2:{ exfalso. unfold get_lcoe_unplanned in Hstep.
        apply bind_inr_inv in Hstep. destruct Hstep as [s2 [s0 [Hg Hstep]]].
        apply get_inr_inv in Hg. destruct Hg as [-> ->].
        apply bind_inr_inv in Hstep. destruct Hstep as [s2 [r [Hr _]]].
        apply need_inr_inv in Hr. destruct Hr as [Hr _].
        rewrite Hnil in Hr. discriminate. }
    apply get_lcoe_unplanned_step in Hstep.
    unfold bind, get. cbv beta iota.
    destruct Hstep as [[Hidx [_ [HfCo HfUn]]]
                      |[[Hidx [_ [HfCo HfUn]]]
                       |[Hidx [_ [HfCo HfUn]]]]];
      subst fCo' fUn'; rewrite ?Hcond, ?HCo.
    + destruct (actIdxOfUnCoMa s1 =? DataFrame.len (UnCoMa_eventsTable s1))%Z
        eqn:E.
      * unfold ret at 1. cbv beta iota.
        rewrite calcLCOE_while_done by (cbn; first [reflexivity | assumption]). discriminate.
      * unfold ret at 1. cbv beta iota. apply IH; [exact HCa|reflexivity|].
        intros _. left. apply Z.eqb_neq in E. lia.
    + destruct (actIdxOfUnCoMa s1 =? DataFrame.len (UnCoMa_eventsTable s1))%Z
        eqn:E.
      * unfold ret at 1. cbv beta iota.
        rewrite calcLCOE_while_done by (cbn; first [reflexivity | assumption]). discriminate.
      * unfold ret at 1. cbv beta iota. apply IH; [exact HCa|reflexivity|].
        intros _. left. apply Z.eqb_neq in E. lia.
    + destruct (actIdxOfUnCoMa s1 =? DataFrame.len (UnCoMa_eventsTable s1))%Z;
        unfold ret at 1; cbv beta iota;
        rewrite calcLCOE_while_done by (cbn; first [reflexivity | assumption]); discriminate.
Qed.

(** With the corrective track alone, the simulation loop ends within as
    many turns as the corrective table has rows, and one more: with more
    fuel than rows, [__calcLCOE_OfOM] has returned or raised. *)
Theorem calcLCOE_OfOM_corrective_ends (fuel : nat) (s : Calc) :
  calendar_based_maintenance inp = false ->
  condition_based_maintenance inp = false ->
  (DataFrame.len (UnCoMa_eventsTable s) < Z.of_nat fuel)%Z ->
  outcome_of (calcLCOE_OfOM inp om_logistics_main fuel s) <> inr None.
Proof.
  intros Hcal Hcond Hfuel. unfold calcLCOE_OfOM.
  do 5 (erewrite bind_inr by reflexivity).
  rewrite Hcal, Hcond. cbn [negb andb].
  destruct (corrective_maintenance inp) eqn:Hcorr.
  - apply calcLCOE_while_corrective; try assumption; try reflexivity.
    intros _.
    cbn [UnCoMa_eventsTable actIdxOfUnCoMa set_actIdxOfUnCoMa
         set_actIdxOfCaBaMa set_actIdxOfCoBaMa set_totalActionDelayHour
         set_actActionDelayHour].
    destruct (UnCoMa_eventsTable s) as [|row rest] eqn:E.
    + right. split; [reflexivity|]. unfold DataFrame.len in Hfuel.
      simpl in Hfuel. exact Hfuel.
    + left. unfold DataFrame.len in *. cbn [List.length] in *. lia.
  - rewrite calcLCOE_while_done by reflexivity. discriminate.
Qed.

End Corrective_loop.

(* ===================================================================== *)
(** * The calendar track: the shares of a group (C7) *)

(** ** Exceptions a method never raises *)

Section NeverRaises.
Variable e : Py.exn.











End NeverRaises.



(** ** What a method returns *)







Section CalendarGroup.
Variable inp : Inputs.
Variable om_logistics_main : DataFrame.t (option Request) -> OmLogistic.











End CalendarGroup.


Section CalendarBlocks.
Variable inp : Inputs.
Variable om_logistics_main : DataFrame.t (option Request) -> OmLogistic.
Variable shortid : Z.
(** The rows of the group, the copy of them that the step reads, the
    label of the first in the table, the failure mode, the number of full
    blocks and the size of the last block. *)
Variable G : list CaBaMa.row.
Variable dummy : DataFrame.t CaBaMa.row.
Variable idx : Z.
Variable fm : string.
Variable full : nat.
Variable rem : Z.

Hypothesis Hdummy :
  forall p, DataFrame.at_label dummy (Z.of_nat p) = nth_error G p.
Hypothesis Hend :
  forall g, In g G ->
    Qltb (endOperationDate inp) (CaBaMa.currentStartActionDate g) = false.
Hypothesis Hsol :
  forall request, findSolution (om_logistics_main request) = SolutionFound.
Hypothesis Hrem : (0 < rem <= CaBaMa_nrOfMaxActions)%Z.
Hypothesis Hlen : List.length G = (10 * full + Z.to_nat rem)%nat.





End CalendarBlocks.

Section CalendarShares.
Variable inp : Inputs.
Variable om_logistics_main : DataFrame.t (option Request) -> OmLogistic.

(** The group of the action [r] of the calendar table: the rows that
    [__get_lcoe_calendar] selects at [r] (lines 3257-3287), in the order
    of the table. *)
Definition calendar_group (s : Calc) (r : CaBaMa.row) : list CaBaMa.row :=
  let id := CaBaMa.ident r in
  let CT := ComponentType id in
  DataFrame.rows
    (CaBaMa_query
       (if Py.str_in "device" CT then CT
        else if Py.str_in "subhub" CT then CT else "Array"%string)
       (if Py.str_in "device" CT then ComponentSubType id
        else Py.drop_last3 CT)
       id (Some (CaBaMa.startActionDate r)) (CaBaMa_eventsTable s)).





End CalendarShares.

(** A group that does not stand under consecutive labels: the actions of
    [Pto001] and [Pto002] share the start date 100, the action of [Pto003]
    between them starts at 200.  The block of 2 is written to the rows
    labelled 0 and 1: the action of [Pto003], which is not of the group,
    records a share and is moved, and the action of [Pto002] records
    nothing. *)
Example calendar_scattered_group_misses :
  let s := Farm.attributes Farm.dict []
             [Farm.window "Pto001";
              CaBaMa.mk (Farm.pto "Pto003") "device" 200 210 200 210 0 0;
              Farm.window "Pto002"] [] in
  let r := get_lcoe_calendar (Farm.inputs false false true false false)
             Farm.solution 0 0 s in
  map (fun g => ComponentID (CaBaMa.ident g))
      (calendar_group s (Farm.window "Pto001"))
  = ["Pto001"; "Pto002"]%string
  /\ outcome_of r = inl (Py.UnboundLocalError "flagCalcCoBaMa")
  /\ map (fun lr => (fst lr, ComponentID (CaBaMa.ident (snd lr)),
                     Qred (CaBaMa.logisticCost (snd lr)),
                     Qred (CaBaMa.omCost (snd lr)),
                     Qred (CaBaMa.currentStartActionDate (snd lr)),
                     Qred (CaBaMa.currentEndActionDate (snd lr))))
         (CaBaMa_eventsTable (state_of r))
     = [(0%Z, "Pto001"%string, 50, 50, 100, 110);
        (1%Z, "Pto003"%string, 50, 50, 110, 120);
        (2%Z, "Pto002"%string, 0, 0, 100, 110)].
Proof. vm_compute. repeat split. Qed.


(* ===================================================================== *)
(** * The result record: slots and bounds *)

Section Construction.
Variable inp : Inputs.

Lemma init_Capex_fold (CAPEX : list (option Q)) : forall a,
  0 <= a ->
  let r := fold_left
      (fun CapexOfArray cell =>
         match cell with
         | Some capex_condition =>
             if Qltb 0 capex_condition
             then CapexOfArray + capex_condition else CapexOfArray
         | None => CapexOfArray
         end) CAPEX a in
  a <= r
  /\ forall c, In (Some c) CAPEX -> 0 < c -> c <= r.
Proof.
  induction CAPEX as [|cell CAPEX IH]; intros a Ha; cbn [fold_left].
  - split; [apply Qle_refl|intros c []].
  - set (a' := match cell with
               | Some c => if Qltb 0 c then a + c else a
               | None => a
               end).
    assert (Ha' : a <= a'
                  /\ forall c, cell = Some c -> 0 < c -> c <= a').
    { unfold a'. destruct cell as [c|].
      - destruct (Qltb 0 c) eqn:E.
        + apply Qltb_lt in E. split; [lra|].
          intros c' Hc' _. inversion Hc'; subst. lra.
        + split; [lra|]. intros c' Hc' Hpos. inversion Hc'; subst.
          apply Qltb_lt in Hpos. congruence.
      - split; [lra|discriminate]. }
    destruct Ha' as [Hle Hcell].
    destruct (IH a' ltac:(lra)) as [Hr Hin]. cbv zeta in *.
    split; [lra|].
    intros c [Hc|Hc] Hpos.
    + specialize (Hcell c Hc Hpos). lra.
    + now apply Hin.
Qed.

(** The record of a calculator just built: one slot per device in the
    list of the energies and in the list of the down times, and a CAPEX
    that is never negative, is 0 unless condition based maintenance is
    enabled, and is then at least every positive CAPEX of a failure
    mode. *)
Theorem init_outputsOfWP6_slots (CAPEX : list (option Q)) :
  let o := init_outputsOfWP6 inp CAPEX in
  Z.of_nat (List.length (annualEnergyOfDevices o))
  = Z.max 0 (NrOfDevices inp)
  /\ Z.of_nat (List.length (annualDownTimeOfDevices o))
     = Z.max 0 (NrOfDevices inp)
  /\ 0 <= CapexOfArray o
  /\ (condition_based_maintenance inp = false -> CapexOfArray o = 0)
  /\ (condition_based_maintenance inp = true ->
      forall c, In (Some c) CAPEX -> 0 < c -> c <= CapexOfArray o).
Proof.
  cbv zeta. unfold init_outputsOfWP6. cbn [annualEnergyOfDevices
    annualDownTimeOfDevices CapexOfArray].
  rewrite !length_map. unfold range. rewrite length_map, length_seq.
  split; [lia|]. split; [lia|].
  unfold init_CapexOfArray.
  destruct (condition_based_maintenance inp).
  - destruct (@init_Capex_fold CAPEX 0 (Qle_refl 0)) as [H0 Hin].
    cbv zeta in *. split; [exact H0|]. split; [discriminate|].
    intros _. exact Hin.
  - split; [apply Qle_refl|]. split; [reflexivity|discriminate].
Qed.

End Construction.

Lemma set_nth_nat (A : Type) (l : list A) (j : nat) (v : A) :
  (j < List.length l)%nat ->
  List.length (firstn j l ++ v :: skipn (S j) l) = List.length l
  /\ nth_error (firstn j l ++ v :: skipn (S j) l) j = Some v.
Proof.
  intro Hj. split.
  - rewrite length_app. cbn [List.length].
    rewrite length_firstn, length_skipn. lia.
  - rewrite nth_error_app2 by (rewrite length_firstn; lia).
    rewrite length_firstn.
    replace (j - Nat.min j (List.length l))%nat with 0%nat by lia.
    reflexivity.
Qed.

Lemma py_set_nth_range (A : Type) (l : list A) (i : Z) (v : A) :
  let n := Z.of_nat (List.length l) in
  ((- n <= i < n)%Z ->
   exists l', py_set_nth l i v = Some l'
              /\ List.length l' = List.length l
              /\ py_nth l' i = Some v)
  /\ (~ (- n <= i < n)%Z -> py_set_nth l i v = None).
Proof.
  cbv zeta. unfold py_set_nth, py_nth.
  set (n := Z.of_nat (List.length l)).
  destruct (0 <=? i)%Z eqn:E;
    [apply Z.leb_le in E|apply Z.leb_gt in E].
  - split.
    + intro Hi.
      replace ((0 <=? i) && (i <? n))%Z with true
        by (symmetry; apply andb_true_iff; split;
            [apply Z.leb_le|apply Z.ltb_lt]; lia).
      destruct (@set_nth_nat _ l (Z.to_nat i) v) as [Hlen Hnth];
        [unfold n in Hi; lia|].
      eexists. split; [reflexivity|]. split; assumption.
    + intro Hi.
      replace ((0 <=? i) && (i <? n))%Z with false; [reflexivity|].
      symmetry. apply not_true_is_false. intro H.
      apply andb_true_iff in H. destruct H as [H1 H2].
      apply Z.ltb_lt in H2. lia.
  - split.
    + intro Hi.
      replace ((0 <=? n + i) && (n + i <? n))%Z with true
        by (symmetry; apply andb_true_iff; split;
            [apply Z.leb_le|apply Z.ltb_lt]; lia).
      destruct (@set_nth_nat _ l (Z.to_nat (n + i)) v) as [Hlen Hnth];
        [unfold n in *; lia|].
      eexists. split; [reflexivity|]. split; [exact Hlen|].
      rewrite Hlen. fold n.
      replace (0 <=? n + i)%Z with true by (symmetry; apply Z.leb_le; lia).
      exact Hnth.
    + intro Hi.
      replace ((0 <=? n + i) && (n + i <? n))%Z with false; [reflexivity|].
      symmetry. apply not_true_is_false. intro H.
      apply andb_true_iff in H. destruct H as [H1 H2].
      apply Z.leb_le in H1. lia.
Qed.

(** Storing the energy and the down time of a device (lines 4757-4768)
    under the index [index], on a record with as many slots for the down
    times as for the energies, [n]: for an index from [-n] to [n - 1] both
    values are stored where Python reads them back under that index, a
    negative index counting from the end; any other index ends in
    [IndexError] with nothing written. *)
Theorem set_device_outputs_bounds
    (index : Z) (deviceenergy downtime : Q) (s : Calc) :
  let o := outputsOfWP6 s in
  let n := Z.of_nat (List.length (annualEnergyOfDevices o)) in
  List.length (annualDownTimeOfDevices o)
  = List.length (annualEnergyOfDevices o) ->
  ((- n <= index < n)%Z ->
   exists s',
     set_device_outputs index deviceenergy downtime s = (s', inr tt)
     /\ py_nth (annualEnergyOfDevices (outputsOfWP6 s')) index
        = Some deviceenergy
     /\ py_nth (annualDownTimeOfDevices (outputsOfWP6 s')) index
        = Some downtime)
  /\ (~ (- n <= index < n)%Z ->
      set_device_outputs index deviceenergy downtime s
      = (s, inl Py.IndexError)).
Proof.
  intros o n Hlen. unfold set_device_outputs.
  erewrite bind_inr by reflexivity. fold o.
  destruct (@py_set_nth_range _ (annualEnergyOfDevices o) index deviceenergy)
    as [He1 He2].
  destruct (@py_set_nth_range _ (annualDownTimeOfDevices o) index downtime)
    as [Hd1 Hd2].
  cbv zeta in *. rewrite Hlen in Hd1. fold n in He1, He2, Hd1.
  split.
  - intro Hi.
    destruct (He1 Hi) as [le [Hle [_ Hnth]]].
    destruct (Hd1 Hi) as [ld [Hld [_ Hnthd]]].
    rewrite Hle. cbn [need].
    erewrite bind_inr by reflexivity.
    erewrite bind_inr by reflexivity.
    erewrite bind_inr by reflexivity.
    cbn [outputsOfWP6 set_outputsOfWP6 annualDownTimeOfDevices].
    fold o. rewrite Hld. cbn [need].
    erewrite bind_inr by reflexivity.
    eexists. split; [reflexivity|].
    cbn [outputsOfWP6 set_outputsOfWP6 annualDownTimeOfDevices
         annualEnergyOfDevices].
    split; assumption.
  - intro Hi. rewrite (He2 Hi). reflexivity.
Qed.

(** ** The deferral to a calendar action *)

Section Deferral.
Variable inp : Inputs.

Lemma find_index_first (A : Type) (p : A -> bool) (l : list A) :
  match find_index p l with
  | Some 0%Z => exists x rest, l = x :: rest /\ p x = true
  | Some k => (0 < k)%Z
              /\ exists x rest y, l = x :: rest /\ p x = false
                                  /\ In y rest /\ p y = true
  | None => forall x, In x l -> p x = false
  end.
Proof.
  induction l as [|a l IH]; simpl.
  - intros x [].
  - destruct (p a) eqn:Ea.
    + exists a, l. now split.
    + destruct (find_index p l) as [k|] eqn:Ek; simpl.
      * assert (Hk : (0 <= k)%Z).
        { clear - Ek. revert k Ek.
          induction l as [|b l IHl]; simpl; intros k Ek; [discriminate|].
          destruct (p b); [inversion Ek; lia|].
          destruct (find_index p l) as [j|]; [|discriminate].
          simpl in Ek. inversion Ek. specialize (IHl j eq_refl). lia. }
        assert (Hy : exists y, In y l /\ p y = true).
        { destruct k as [|k|k]; [| |lia].
          - destruct IH as [x [rest [-> Hx]]]. exists x. split; [now left|].
            exact Hx.
          - destruct IH as [_ [x [rest [y [-> [_ [Hy Hpy]]]]]]].
            exists y. split; [now right|]. exact Hpy. }
        destruct Hy as [y [Hy Hpy]].
        destruct (Z.succ k) eqn:Es; [lia| |lia].
        split; [lia|]. exists a, l, y. repeat split; assumption.
      * intros x [<-|Hx]; [exact Ea|]. now apply IH.
Qed.

(** On the calendar actions of a component in the order of their current
    start dates, [__switch_to_calendar] never returns.  An action that
    starts less than the derating extension after the alarm makes the
    first one such an action, which the method rejects with
    [RuntimeError]; with no such action the index it reads is unbound. *)
Theorem switch_to_calendar_sorted_raises
    (dummyCaBaMaTable : DataFrame.t CaBaMa.row) (CID : string)
    (currentAlarmDate currentEndDate : datetime) (totalCostCoBaMa : Q)
    (s : Calc) :
  Sorted (fun a b => CaBaMa.currentStartActionDate a
                     <= CaBaMa.currentStartActionDate b)
         (DataFrame.rows dummyCaBaMaTable) ->
  let r := switch_to_calendar inp dummyCaBaMaTable CID currentAlarmDate
             currentEndDate totalCostCoBaMa s in
  r = (s, inl (Py.RuntimeError
                 "indexDummyCaBaMaTable is 0, which is bad, apparently."))
  \/ r = (s, inl (Py.UnboundLocalError "indexDummyCaBaMaTable")).
Proof.
  intros Hsorted r. unfold r, switch_to_calendar.
  set (p := fun row : CaBaMa.row =>
              Qltb (inject_Z (hours_between
                                (CaBaMa.currentStartActionDate row)
                                currentAlarmDate))
                   timeExtensionDeratingCoBaMaHour).
  pose proof (find_index_first p (DataFrame.rows dummyCaBaMaTable)) as Hf.
  destruct (find_index p (DataFrame.rows dummyCaBaMaTable)) as [k|].
  - destruct k as [|k|k].
    + left. reflexivity.
    + exfalso. destruct Hf as [_ [x [rest [y [Hl [Hx [Hy Hpy]]]]]]].
      rewrite Hl in Hsorted.
      apply Sorted_extends in Hsorted.
      2:{ intros a b c Hab Hbc. eapply Qle_trans; eassumption. }
      pose proof (proj1 (Forall_forall _ _) Hsorted y Hy) as Hxy.
      cbv beta in Hxy. unfold p in Hx, Hpy.
      apply Qltb_lt in Hpy.
      assert (Hlt : Qltb (inject_Z (hours_between
                                      (CaBaMa.currentStartActionDate x)
                                      currentAlarmDate))
                         timeExtensionDeratingCoBaMaHour = true).
      { apply Qltb_lt. eapply Qle_lt_trans; [|exact Hpy].
        rewrite <- Zle_Qle. unfold hours_between.
        apply Qfloor_resp_le. lra. }
      congruence.
    + destruct Hf as [Hk _]. lia.
  - right. reflexivity.
Qed.

End Deferral.

(* ===================================================================== *)
(** * The theorems at the small farm *)

Lemma coordination_removes_condition_keys_witness :
  let inp := Farm.inputs true true false false false in
  let CoBaMa_eventsTable :=
    DataFrame.of_rows [Farm.alarm (Farm.pto "Pto001") 100] in
  let UnCoMa_eventsTable :=
    DataFrame.of_rows [Farm.failure "Pto001" 10; Farm.failure "Pto002" 20;
                       Farm.failure "Pto001" 30] in
  exists CoBaMa' UnCoMa',
    coordinate inp CoBaMa_eventsTable UnCoMa_eventsTable
    = inr (CoBaMa', UnCoMa')
    /\ Permutation (DataFrame.rows CoBaMa')
                   (DataFrame.rows CoBaMa_eventsTable)
    /\ (forall c u,
          In c (DataFrame.rows CoBaMa') ->
          In u (DataFrame.rows UnCoMa') ->
          UnCoMa.ident u <> CoBaMa.ident c)
    /\ DataFrame.index UnCoMa'
       = map Z.of_nat (seq 0 (List.length UnCoMa')).
Proof.
  destruct (@coordination_removes_condition_keys
              (Farm.inputs true true false false false)
              (DataFrame.of_rows [Farm.alarm (Farm.pto "Pto001") 100])
              (DataFrame.of_rows [Farm.failure "Pto001" 10;
                                  Farm.failure "Pto002" 20;
                                  Farm.failure "Pto001" 30])
              eq_refl eq_refl) as [Hclears Hreturns].
  destruct (Hreturns eq_refl) as [T' [U' Hrun]].
  - intros u _. unfold has_delays. simpl.
    now destruct (negb (Py.str_in "Insp" (FM_ID (UnCoMa.ident u)))).
  - exists T', U'. split; [exact Hrun|]. exact (Hclears T' U' Hrun).
Defined.


Lemma unplanned_downtime_needs_blocked_device_witness :
  let s := Farm.attributes Farm.dict [Farm.failure "Pto001" 10] [] [] in
  unplanned_record_downtime (Farm.inputs true false false false false)
    (Farm.pto "Pto001") 10 140 s
  = (s, inr []).
Proof.
  refine (@unplanned_downtime_needs_blocked_device
            (Farm.inputs true false false false false)
            (Farm.pto "Pto001") 10 140
            (Farm.attributes Farm.dict [Farm.failure "Pto001" 10] [] [])
            Farm.component eq_refl _).
  intros k kc H. simpl in H.
  destruct H as [H|[H|[H|[]]]]; inversion H; reflexivity.
Defined.

Lemma unplanned_ignored_weather_window_raises_witness :
  exists e,
    outcome_of
      (unplanned_dispatch (Farm.inputs true false false true false)
         Farm.no_window (Farm.failure "Pto001" 10) 34 10
         0 0 false true
         (Farm.attributes Farm.dict [Farm.failure "Pto001" 10] [] []))
    = inl e.
Proof.
  refine (@unplanned_ignored_weather_window_raises
            (Farm.inputs true false false true false)
            Farm.no_window (Farm.failure "Pto001" 10) 34 10
            0 0 false true eq_refl _
            (Farm.attributes Farm.dict [Farm.failure "Pto001" 10] [] [])).
  intro request. reflexivity.
Defined.

Lemma postCalculation_divides_by_stored_energy_witness :
  outcome_of (postCalculation (Farm.inputs true false false false false)
                (Farm.attributes Farm.dict [] [] []))
  = inl Py.ZeroDivisionError.
Proof.
  unfold outcome_of.
  erewrite (@postCalculation_divides_by_stored_energy
              (Farm.inputs true false false false false)
              (Farm.attributes Farm.dict [] [] [])).
  - reflexivity.
  - vm_compute. reflexivity.
  - reflexivity.
  - vm_compute. reflexivity.
  - vm_compute. reflexivity.
Defined.

Lemma executeCalc_preflight_returns_before_simulation_witness :
  let inp := Farm.inputs true false false false true in
  let s := Farm.attributes Farm.dict [Farm.failure "Pto001" 10] [] [] in
  let table := DataFrame.ix_set (errorTable s) 0 (Some noError) in
  let record := set_error table (outputsOfWP6 s) in
  executeCalc inp Farm.solution (ret tt) (ret tt) 100 s
  = (set_outputsOfWP6 record (set_errorTable table s), inr (Some record)).
Proof.
  exact (@executeCalc_preflight_returns_before_simulation
           (Farm.inputs true false false false true)
           Farm.solution (ret tt) (ret tt) 100
           (Farm.attributes Farm.dict [Farm.failure "Pto001" 10] [] [])
           _ _ eq_refl eq_refl eq_refl eq_refl).
Defined.

Lemma calcCostOfOM_flat_wage_witness :
  let s := set_totalSeaTimeHour 20
             (set_endOpDate (Some 150)
                (set_departOpDate (Some 120)
                   (set_repairActionDate (Some 34)
                      (Farm.attributes Farm.dict [] [] [])))) in
  exists s' sp om,
    calcCostOfOM (Farm.inputs true false false false false)
                 "MoS1" ("Pto001"%string, 1%Z) s = (s', inr (sp, om))
    /\ om == sp + (inject_Z 1 * 1 + inject_Z 1 * 1) * 20.
Proof.
  intro s. eexists. eexists. eexists. split.
  - vm_compute. reflexivity.
  - refine (@calcCostOfOM_flat_wage
              (Farm.inputs true false false false false)
              "MoS1" ("Pto001"%string, 1%Z) s _ _ _ Farm.action
              _ eq_refl eq_refl _ _ eq_refl).
    + vm_compute. reflexivity.
    + reflexivity.
    + reflexivity.
Defined.

Lemma calcCostOfOM_long_week_bills_no_labour_witness :
  let inp :=
    mkInputs true false false (1 # 10) "No" 8 8 1 1 1 1 false false false
      0 1 1 [100; 100]
      (fun _ => Some Farm.policy) (fun _ => Some Farm.spare)
      (fun _ => Some Farm.action) (fun _ => Some Farm.action)
      (fun _ => Some Farm.site) in
  let s := set_totalSeaTimeHour 20
             (set_endOpDate (Some 150)
                (set_departOpDate (Some 120)
                   (set_repairActionDate (Some 34)
                      (Farm.attributes Farm.dict [] [] [])))) in
  exists s' sp om,
    calcCostOfOM inp "MoS1" ("Pto001"%string, 1%Z) s = (s', inr (sp, om))
    /\ om == sp.
Proof.
  intros inp s. eexists. eexists. eexists. split.
  - vm_compute. reflexivity.
  - refine (@calcCostOfOM_long_week_bills_no_labour
              inp "MoS1" ("Pto001"%string, 1%Z) s _ _ _ _ eq_refl eq_refl).
    vm_compute. reflexivity.
Defined.

Lemma calcCostOfOM_no_workdays_raises_witness :
  let inp :=
    mkInputs true false false (1 # 10) "No" 0 0 1 1 1 1 false false false
      0 1 1 [100; 100]
      (fun _ => Some Farm.policy) (fun _ => Some Farm.spare)
      (fun _ => Some Farm.action) (fun _ => Some Farm.action)
      (fun _ => Some Farm.site) in
  let s := set_totalSeaTimeHour 20
             (set_repairActionDate (Some 34)
                (Farm.attributes Farm.dict [] [] [])) in
  calcCostOfOM inp "MoS1" ("Pto001"%string, 1%Z) s
  = (s, inl Py.ZeroDivisionError).
Proof.
  intros inp s.
  refine (@calcCostOfOM_no_workdays_raises inp "MoS1"
            ("Pto001"%string, 1%Z) s 34 eq_refl _ _); reflexivity.
Defined.

Lemma coordinate_orders_by_request_date_witness :
  let inp := Farm.delayed_inputs in
  let CoBaMa_eventsTable : DataFrame.t CoBaMa.row := DataFrame.of_rows [] in
  let UnCoMa_eventsTable :=
    DataFrame.of_rows [Farm.failure "Pto001" 10; Farm.failure "Pto002" 20;
                       Farm.inspection 25] in
  exists CoBaMa' UnCoMa',
    coordinate inp CoBaMa_eventsTable UnCoMa_eventsTable
    = inr (CoBaMa', UnCoMa')
    /\ map (fun u => (ComponentID (UnCoMa.ident u),
                      Qred (UnCoMa.failureEvents u),
                      Qred (UnCoMa.repairActionEvents u)))
           (DataFrame.rows UnCoMa')
       = [("Pto003"%string, 25, 40); ("Pto002"%string, 20, 50);
          ("Pto001"%string, 10, 60)]
    /\ Sorted (fun a b => UnCoMa.repairActionEvents a
                          <= UnCoMa.repairActionEvents b)
              (DataFrame.rows UnCoMa')
    /\ forall u, In u (DataFrame.rows UnCoMa') ->
         exists a : ActionRec,
           (if Py.str_in "Insp" (FM_ID (UnCoMa.ident u))
            then Inspection inp (compIDWithIndex (UnCoMa.ident u))
            else Repair_Action inp (compIDWithIndex (UnCoMa.ident u)))
           = Some a
           /\ UnCoMa.repairActionEvents u
              = UnCoMa.failureEvents u
                + (if Qle_bool (delay_crew a + delay_organisation a)
                               (if Py.str_in "Insp" (FM_ID (UnCoMa.ident u))
                                then 0 else delay_spare a)
                   then if Py.str_in "Insp" (FM_ID (UnCoMa.ident u))
                        then 0 else delay_spare a
                   else delay_crew a + delay_organisation a).
Proof.
  intros inp T U.
  destruct (coordinate inp T U) as [e|[T' U']] eqn:Hrun;
    [vm_compute in Hrun; discriminate Hrun|].
  exists T', U'. split; [reflexivity|]. split.
  - vm_compute in Hrun. inversion Hrun. reflexivity.
  - refine (@coordinate_orders_by_request_date inp T U T' U' eq_refl _ Hrun).
    reflexivity.
Defined.

Lemma changeOfLabels_labels_distinct_witness :
  NoDup ["Pto001_1"; "Pto002_1"; "Pto001_2"]%string.
Proof.
  refine (@changeOfLabels_labels_distinct
            [("Pto001", "MoS1"); ("Pto002", "MoS1"); ("Pto001", "MoS2")]%string
            [("Pto001", "MoS2")]%string [] _ _ _ _ _).
  - intros id fm H. simpl in H.
    destruct H as [H|[H|[H|[]]]]; inversion H; reflexivity.
  - vm_compute. reflexivity.
Defined.

Lemma changeOfLabels_underscore_clash_witness :
  let FM := [("Pto_1", "MoS1"); ("Pto_1", "MoS2")]%string in
  exists newColumns newColumnsRA newColumnsInsp,
    changeOfLabels FM [] [] = inr (newColumns, newColumnsRA, newColumnsInsp)
    /\ nth_error newColumns 0 = Some "Pto_1_1"%string
    /\ nth_error newColumns 1 = Some "Pto_1_1"%string.
Proof.
  intro FM. eexists. eexists. eexists. split; [vm_compute; reflexivity|].
  split.
  - refine (@changeOfLabels_underscore_clash FM [] [] _ _ _ 0%nat
              "Pto_1" "MoS1" eq_refl eq_refl _).
    vm_compute. reflexivity.
  - refine (@changeOfLabels_underscore_clash FM [] [] _ _ _ 1%nat
              "Pto_1" "MoS2" eq_refl eq_refl _).
    vm_compute. reflexivity.
Defined.

Lemma changeOfLabels_relabels_actions_witness :
  let FM := [("Pto001", "MoS1"); ("Pto002", "MoS1");
             ("Pto001", "MoS2")]%string in
  let RA := [("Pto001", "MoS2"); ("Pto009", "MoS1");
             ("Pto001", "MoS1")]%string in
  exists newColumns newColumnsRA newColumnsInsp,
    changeOfLabels FM RA [] = inr (newColumns, newColumnsRA, newColumnsInsp)
    /\ nth_error newColumnsRA 0 = nth_error newColumns 2
    /\ nth_error newColumnsRA 1 = Some "dummy"%string.
Proof.
  intros FM RA. eexists. eexists. eexists.
  split; [vm_compute; reflexivity|].
  match goal with
  | |- nth_error ?ra 0 = nth_error ?cols 2 /\ _ =>
      destruct (@changeOfLabels_relabels_actions FM RA [] cols ra [])
        as [Hset Hdummy]
  end.
  - repeat constructor; simpl; intuition discriminate.
  - vm_compute. reflexivity.
  - split.
    + exact (proj1 (Hset 2%nat "Pto001"%string "MoS2"%string 0%Z eq_refl)
                   eq_refl).
    + refine (proj1 (Hdummy 1%nat ("Pto009", "MoS1")%string _) eq_refl).
      simpl. intuition discriminate.
Defined.

Lemma get_lcoe_unplanned_advances_witness :
  let inp := Farm.inputs true false false false false in
  let s := Farm.attributes Farm.dict [Farm.failure "Pto001" 10] [] [] in
  let s' := state_of (get_lcoe_unplanned inp Farm.solution 0 0 false true s)
  in
  (actIdxOfUnCoMa s' = (actIdxOfUnCoMa s + 1)%Z
   /\ (1%Z, 1%Z) = ((0 + 1)%Z, (0 + 1)%Z) /\ false = false /\ true = true)
  \/ (actIdxOfUnCoMa s' = (actIdxOfUnCoMa s + 1)%Z
      /\ (1%Z, 1%Z) = (0%Z, 0%Z) /\ false = false /\ true = true)
  \/ (actIdxOfUnCoMa s' = actIdxOfUnCoMa s
      /\ (1%Z, 1%Z) = (0%Z, 0%Z)
      /\ false = (if condition_based_maintenance inp then true else false)
      /\ true = false).
Proof.
  intros inp s s'.
  refine (@get_lcoe_unplanned_advances inp Farm.solution 0 0 false true
            s s' 1 1 false true _).
  vm_compute. reflexivity.
Defined.

Lemma executeCalc_returns_full_record_witness :
  let inp := Farm.inputs true false false false false in
  let dict := [("device001"%string, Farm.component);
               ("Pto001"%string, Farm.component)] in
  let s := Farm.attributes dict [Farm.failure "Pto001" 10] [] [] in
  exists s' o,
    executeCalc inp Farm.solution (ret tt) (ret tt) 100 s
    = (s', inr (Some o))
    /\ o = outputsOfWP6 s'
    /\ full_result_record o
    /\ exists s1 s_sim table,
         ret tt s = (s1, inr tt)
         /\ table = DataFrame.ix_set (errorTable s1) 0 (Some noError)
         /\ error o = Some table
         /\ DataFrame.at_label table 0 = Some (Some noError)
         /\ calcLCOE_OfOM inp Farm.solution 100
              (state_of (report_noError s1))
            = (s_sim, inr (Some tt))
         /\ output_tables s' = output_tables s_sim
         /\ (annualEnergyOfArray (outputsOfWP6 s1) == 0 ->
             lcoeOfArray o == 0 /\ annualEnergyOfArray o == 0).
Proof.
  intros inp dict s. eexists. eexists. split.
  - vm_compute. reflexivity.
  - refine (@executeCalc_returns_full_record inp Farm.solution
              (ret tt) (ret tt) 100 s _ _ eq_refl _).
    vm_compute. reflexivity.
Defined.

Lemma calcLCOE_OfOM_corrective_ends_witness :
  let inp := Farm.inputs true false false false false in
  let s := Farm.attributes Farm.dict [Farm.failure "Pto001" 10] [] [] in
  outcome_of (calcLCOE_OfOM inp Farm.solution 2 s) <> inr None.
Proof.
  intros inp s.
  refine (@calcLCOE_OfOM_corrective_ends inp Farm.solution 2 s
            eq_refl eq_refl _).
  reflexivity.
Defined.

Lemma set_device_outputs_bounds_witness :
  let inp := Farm.inputs true false false false false in
  let s := set_outputsOfWP6 (init_outputsOfWP6 inp [Some 5; None])
             (Farm.attributes Farm.dict [] [] []) in
  (exists s',
      set_device_outputs (-1) 7 3 s = (s', inr tt)
      /\ py_nth (annualEnergyOfDevices (outputsOfWP6 s')) (-1) = Some 7
      /\ py_nth (annualDownTimeOfDevices (outputsOfWP6 s')) (-1) = Some 3)
  /\ set_device_outputs 1 7 3 s = (s, inl Py.IndexError).
Proof.
  intros inp s.
  destruct (@set_device_outputs_bounds (-1) 7 3 s eq_refl) as [Hin _].
  destruct (@set_device_outputs_bounds 1 7 3 s eq_refl) as [_ Hout].
  split.
  - apply Hin. change (- 1 <= - 1 < 1)%Z. lia.
  - apply Hout. change (~ (- 1 <= 1 < 1)%Z). lia.
Defined.

Lemma switch_to_calendar_sorted_raises_witness :
  let inp := Farm.inputs false true true false false in
  let dummy := DataFrame.of_rows [Farm.window "Pto001"; Farm.window "Pto001"]
  in
  let s := Farm.attributes Farm.dict [] [] [] in
  let r := switch_to_calendar inp dummy "Pto001" 50 200 10 s in
  r = (s, inl (Py.RuntimeError
                 "indexDummyCaBaMaTable is 0, which is bad, apparently."))
  \/ r = (s, inl (Py.UnboundLocalError "indexDummyCaBaMaTable")).
Proof.
  intros inp dummy s.
  refine (@switch_to_calendar_sorted_raises inp dummy "Pto001" 50 200 10 s _).
  repeat constructor; vm_compute; discriminate.
Defined.

(** After an action on the row labelled 1, a component of the device of
    the row labelled 0, the row of the other component stays. *)
Lemma updatePoissonEvents_shifts_component_of_row_0_witness :
  let s := set_totalSeaTimeHour 20
             (set_actIdxOfUnCoMa 1
                (Farm.attributes Farm.dict
                   [Farm.failure "Pto001" 10; Farm.failure "Pto002" 20;
                    Farm.failure "Pto002" 3000] [] [])) in
  In (2%Z, Farm.failure "Pto002" 3000)
     (UnCoMa_eventsTable (state_of (updatePoissonEvents s))).
Proof.
  intro s.
  refine (@updatePoissonEvents_shifts_component_of_row_0
            s (state_of (updatePoissonEvents s))
            (Farm.failure "Pto001" 10) _ _ _ _
            2%Z (Farm.failure "Pto002" 3000) _ _).
  - vm_compute. repeat constructor; simpl; intuition discriminate.
  - reflexivity.
  - vm_compute. discriminate.
  - vm_compute. reflexivity.
  - vm_compute. right. right. left. reflexivity.
  - vm_compute. discriminate.
Defined.

(** The condition step on the last row, with all devices turned out. *)
Lemma get_lcoe_condition_returns_only_skipped_witness :
  let s := set_NrOfTurnOutDevices 1
             (Farm.attributes Farm.dict [] []
                [Farm.alarm (Farm.pto "Pto001") 100]) in
  let s' := state_of (get_lcoe_condition
                        (Farm.inputs false true false false false)
                        Farm.solution 5 7 s) in
  CoBaMa_eventsTable s' = CoBaMa_eventsTable s
  /\ om_logistic s' = om_logistic s
  /\ actIdxOfCoBaMa s' = DataFrame.len (CoBaMa_eventsTable s).
Proof.
  intros s s'.
  refine (proj2 (@get_lcoe_condition_returns_only_skipped
                   (Farm.inputs false true false false false)
                   Farm.solution 5 7 s s' (0%Z, 7%Z, false) _)).
  vm_compute. reflexivity.
Defined.

(** The calendar track on the small farm. *)
Lemma calcLCOE_OfOM_calendar_raises_witness :
  exists e,
    outcome_of (calcLCOE_OfOM (Farm.inputs false false true false false)
                  Farm.solution 1
                  (Farm.attributes Farm.dict [] [Farm.window "Pto001"] []))
    = inl e.
Proof.
  exact (@calcLCOE_OfOM_calendar_raises
           (Farm.inputs false false true false false) Farm.solution 0
           (Farm.attributes Farm.dict [] [Farm.window "Pto001"] [])
           eq_refl).
Defined.

(** The sums of the small farm: no cost entry, the energy of one device
    over the mission. *)
Lemma postCalculation_sums_spec_witness :
  let inp := Farm.inputs true false false false false in
  let s := Farm.attributes Farm.dict [] [] [] in
  exists opex energy,
    outcome_of (postCalculation_sums inp s) = inr (opex, energy)
    /\ opex == Qsum (opex_entries inp (arrayDict s))
    /\ energy == Qsum (energy_entries inp (arrayDict s)).
Proof.
  intros inp s.
  eexists. eexists. split; [vm_compute; reflexivity|].
  refine (@postCalculation_sums_spec inp s _ _ _ _ _).
  - vm_compute. repeat constructor; simpl; intuition discriminate.
  - vm_compute. reflexivity.
Defined.

(** A farm whose one entry yields no energy. *)
Lemma postCalculation_no_energy_witness :
  let inp := Farm.inputs true false false false false in
  let s := Farm.attributes [("device001"%string, Farm.component)] [] [] [] in
  exists s2,
    postCalculation inp s = (s2, inr tt)
    /\ lcoeOfArray (outputsOfWP6 s2) == 0.
Proof.
  intros inp s.
  refine (@postCalculation_no_energy inp s
            (state_of (postCalculation_sums inp s)) 0 (0 # 87660000)
            _ _ _).
  - vm_compute. reflexivity.
  - reflexivity.
  - vm_compute. reflexivity.
Defined.


(** A roll-up on the record that [__init__] builds, the farm yielding no
    energy. *)
Lemma postCalculation_stored_energy_stays_zero_witness :
  let inp := Farm.inputs true false false false false in
  let s := Farm.attributes [("device001"%string, Farm.component)] [] [] [] in
  annualEnergyOfArray (outputsOfWP6 (state_of (postCalculation inp s))) == 0
  /\ (forall s', postCalculation inp s = (s', inr tt) ->
        lcoeOfArray (outputsOfWP6 s') == 0).
Proof.
  intros inp s.
  refine (@postCalculation_stored_energy_stays_zero inp s _).
  reflexivity.
Defined.

(** A corrective action of the small farm without a weather window, the
    total action delay of the step before being -106 hours: the row is
    passed, and its request date was moved from hour 34 to hour 140. *)
Lemma get_lcoe_unplanned_drops_without_window_witness :
  let inp := Farm.inputs true false false false false in
  let s := set_totalActionDelayHour (-106)
             (Farm.attributes Farm.dict [Farm.failure "Pto001" 10] [] []) in
  let s' := state_of (get_lcoe_unplanned inp Farm.no_window 0 0 false true
                        s) in
  map (fun lr => Qred (UnCoMa.repairActionEvents (snd lr)))
      (UnCoMa_eventsTable s) = [34]
  /\ map (fun lr => Qred (UnCoMa.repairActionEvents (snd lr)))
         (UnCoMa_eventsTable s') = [140]
  /\ corrective_books s' = corrective_books s
  /\ ((actIdxOfUnCoMa s' = (actIdxOfUnCoMa s + 1)%Z
       /\ (0%Z, 0%Z, false, true) = (0%Z, 0%Z, false, true))
      \/ (actIdxOfUnCoMa s' = actIdxOfUnCoMa s
          /\ (0%Z, 0%Z, false, true)
             = (0%Z, 0%Z,
                (if condition_based_maintenance inp then true else false),
                false)))
  /\ (UnCoMa_eventsTable s' = UnCoMa_eventsTable s
      \/ exists r,
           (totalActionDelayHour s < 0)%Z
           /\ DataFrame.at_label (UnCoMa_eventsTable s) (actIdxOfUnCoMa s)
              = Some r
           /\ UnCoMa_eventsTable s'
              = DataFrame.set_loc (UnCoMa_eventsTable s) (actIdxOfUnCoMa s)
                  (UnCoMa.set_repairActionEvents
                     (UnCoMa.repairActionEvents r
                      + inject_Z (- totalActionDelayHour s)))).
Proof.
  intros inp s s'.
  split; [vm_compute; reflexivity|].
  split; [vm_compute; reflexivity|].
  refine (@get_lcoe_unplanned_drops_without_window inp Farm.no_window
            0 0 false true s s' (0%Z, 0%Z, false, true) eq_refl _ _).
  - intro request. reflexivity.
  - vm_compute. reflexivity.
Defined.
